(** * CHIP-8 interpreter (chip.c): a shallow embedding and its properties

    The machine state of chip.c is a handful of file-scope arrays and
    scalars.  They are gathered here in one record that every opcode
    handler receives and returns.  Fixed-width C integers are modelled as
    [Z] with the wrap-around of each store written out ([u8], [u16], ...),
    C arrays as lists read and written by index, and the two ways a handler
    can fail to return normally are results of their own:
    - [Fatal]: an [ERRCHK] failed or an unknown opcode reached [exit];
    - [OutOfBounds a i]: the handler indexed the array [a] at [i], outside
      of its declared size (the C program has no defined behaviour there).

    [printf] calls are dropped.  The host inputs (the SDL tick counter, the
    keyboard state and [rand()]) are arguments of the functions that
    consult them. *)

From stdpp Require Import base list.
From Stdlib Require Import ZArith Lia Bool.

Local Open Scope Z_scope.

(** ** Fixed-width integers *)

Definition u8 (z : Z) : Z := z mod 256.
Definition u16 (z : Z) : Z := z mod 65536.
Definition u32 (z : Z) : Z := z mod 4294967296.
(** [size_t] of the build target ([-march=native] on a 64-bit host). *)
Definition usize (z : Z) : Z := z mod 18446744073709551616.

(** ** Hardware constants *)

Definition MEMORY_SIZE : Z := 4096.
Definition REGISTER_COUNT : Z := 16.
Definition STACK_SIZE : Z := 24.
Definition OPCODE_SIZE : Z := 2.
Definition TIMER_RATE : Z := 60.
Definition DISPLAY_WIDTH : Z := 64.
Definition DISPLAY_HEIGHT : Z := 32.
Definition SPRITE_SIZE : Z := 5.

Inductive DisplayMode : Set := WRAP | CLAMP.

(** ** Results of a handler *)

Inductive array_id : Set := Memory | Registers | Stack | Display | Keys.

Inductive result (A : Type) : Type :=
| Ok (a : A)
| Fatal
| OutOfBounds (arr : array_id) (idx : Z).

Arguments Ok {A} a.
Arguments Fatal {A}.
Arguments OutOfBounds {A} arr idx.

#[global] Instance result_ret : MRet result := fun A a => Ok a.
#[global] Instance result_bind : MBind result := fun A B k r =>
  match r with
  | Ok a => k a
  | Fatal => Fatal
  | OutOfBounds arr idx => OutOfBounds arr idx
  end.

(** [ERRCHK(cond)]: leave through [exit(EXIT_FAILURE)] unless [cond]. *)
Definition ERRCHK (cond : bool) : result unit :=
  if cond then Ok tt else Fatal.

(** ** C arrays *)

Definition load (a : array_id) (l : list Z) (i : Z) : result Z :=
  if (0 <=? i) && (i <? Z.of_nat (length l)) then
    match l !! Z.to_nat i with
    | Some v => Ok v
    | None => OutOfBounds a i
    end
  else OutOfBounds a i.

Definition store (a : array_id) (l : list Z) (i v : Z) : result (list Z) :=
  if (0 <=? i) && (i <? Z.of_nat (length l)) then Ok (<[Z.to_nat i := v]> l)
  else OutOfBounds a i.

(** ** Machine state *)

Record machine : Type := Machine {
  memory : list Z;            (* uint8_t memory[MEMORY_SIZE] *)
  registers : list Z;         (* uint8_t registers[REGISTER_COUNT] *)
  stack : list Z;             (* uint16_t stack[STACK_SIZE] *)
  display : list Z;           (* uint8_t display[DISPLAY_WIDTH * DISPLAY_HEIGHT] *)
  pc : Z;                     (* uint16_t *)
  address_register : Z;       (* uint16_t *)
  stack_register : Z;         (* uint8_t *)
  delay_timer : Z;            (* uint8_t *)
  sound_timer : Z;            (* uint8_t *)
  timer_start : Z             (* static uint32_t start, of instruction_cycle *)
}.

Definition set_memory (m : list Z) (s : machine) : machine :=
  Machine m (registers s) (stack s) (display s) (pc s) (address_register s)
          (stack_register s) (delay_timer s) (sound_timer s) (timer_start s).
Definition set_registers (r : list Z) (s : machine) : machine :=
  Machine (memory s) r (stack s) (display s) (pc s) (address_register s)
          (stack_register s) (delay_timer s) (sound_timer s) (timer_start s).
Definition set_stack (k : list Z) (s : machine) : machine :=
  Machine (memory s) (registers s) k (display s) (pc s) (address_register s)
          (stack_register s) (delay_timer s) (sound_timer s) (timer_start s).
Definition set_display (d : list Z) (s : machine) : machine :=
  Machine (memory s) (registers s) (stack s) d (pc s) (address_register s)
          (stack_register s) (delay_timer s) (sound_timer s) (timer_start s).
Definition set_pc (p : Z) (s : machine) : machine :=
  Machine (memory s) (registers s) (stack s) (display s) p (address_register s)
          (stack_register s) (delay_timer s) (sound_timer s) (timer_start s).
Definition set_address_register (a : Z) (s : machine) : machine :=
  Machine (memory s) (registers s) (stack s) (display s) (pc s) a
          (stack_register s) (delay_timer s) (sound_timer s) (timer_start s).
Definition set_stack_register (k : Z) (s : machine) : machine :=
  Machine (memory s) (registers s) (stack s) (display s) (pc s)
          (address_register s) k (delay_timer s) (sound_timer s) (timer_start s).
Definition set_delay_timer (t : Z) (s : machine) : machine :=
  Machine (memory s) (registers s) (stack s) (display s) (pc s)
          (address_register s) (stack_register s) t (sound_timer s) (timer_start s).
Definition set_sound_timer (t : Z) (s : machine) : machine :=
  Machine (memory s) (registers s) (stack s) (display s) (pc s)
          (address_register s) (stack_register s) (delay_timer s) t (timer_start s).
Definition set_timer_start (t : Z) (s : machine) : machine :=
  Machine (memory s) (registers s) (stack s) (display s) (pc s)
          (address_register s) (stack_register s) (delay_timer s) (sound_timer s) t.

(** Reads and writes of the four arrays, on the state. *)

Definition rd_reg (i : Z) (s : machine) : result Z := load Registers (registers s) i.
Definition wr_reg (i v : Z) (s : machine) : result machine :=
  r ← store Registers (registers s) i (u8 v); Ok (set_registers r s).

Definition rd_mem (i : Z) (s : machine) : result Z := load Memory (memory s) i.
Definition wr_mem (i v : Z) (s : machine) : result machine :=
  m ← store Memory (memory s) i (u8 v); Ok (set_memory m s).

Definition rd_stack (i : Z) (s : machine) : result Z := load Stack (stack s) i.
Definition wr_stack (i v : Z) (s : machine) : result machine :=
  k ← store Stack (stack s) i (u16 v); Ok (set_stack k s).

Definition rd_display (i : Z) (s : machine) : result Z := load Display (display s) i.
Definition wr_display (i v : Z) (s : machine) : result machine :=
  d ← store Display (display s) i (u8 v); Ok (set_display d s).

Definition b2z (b : bool) : Z := if b then 1 else 0.

(** ** Loops

    [for (i = lo; i < lo + n; ++i) body], and the same with a [break]. *)

Fixpoint for_loop (n : nat) (i : Z) (body : Z -> machine -> result machine)
    (s : machine) : result machine :=
  match n with
  | O => Ok s
  | S n' => s' ← body i s; for_loop n' (i + 1) body s'
  end.

Inductive flow : Type := Continue (s : machine) | Break (s : machine).

Fixpoint for_loop_break (n : nat) (i : Z) (body : Z -> machine -> result flow)
    (s : machine) : result machine :=
  match n with
  | O => Ok s
  | S n' =>
      f ← body i s;
      match f with
      | Continue s' => for_loop_break n' (i + 1) body s'
      | Break s' => Ok s'
      end
  end.

(** ** Host inputs *)

(** [keydown]: the scancode table has 16 entries; [keys] tells which of
    the 16 lines the host reports as pressed. *)
Definition keydown (keys : Z -> bool) (code : Z) : result bool :=
  if (0 <=? code) && (code <? 16) then Ok (keys code) else OutOfBounds Keys code.

(** ** Display *)

Definition display_idx (i j : Z) : result Z :=
  ERRCHK (i <? DISPLAY_WIDTH);;
  ERRCHK (j <? DISPLAY_HEIGHT);;
  Ok (u32 (i + j * DISPLAY_WIDTH)).

Definition convert_endianess (val : Z) : Z :=
  u16 (Z.lor (Z.shiftl (Z.land val 0x00ff) 8) (Z.shiftr (Z.land val 0xff00) 8)).

(** ** Opcode handlers *)

(** 00E0 *)
Definition cls (s : machine) : result machine :=
  for_loop (Z.to_nat DISPLAY_HEIGHT) 0 (fun j s =>
    for_loop (Z.to_nat DISPLAY_WIDTH) 0 (fun i s =>
      idx ← display_idx (u8 i) (u8 j);
      wr_display idx 0 s) s) s.

(** 00EE *)
Definition ret (s : machine) : result machine :=
  ERRCHK (negb (stack_register s =? 0));;
  let s := set_stack_register (u8 (stack_register s - 1)) s in
  a ← rd_stack (stack_register s) s;
  Ok (set_pc a s).

(** 0NNN *)
Definition chip8_syscall (addr : Z) (s : machine) : result machine := Ok s.

(** 1NNN *)
Definition jmp (addr : Z) (s : machine) : result machine :=
  ERRCHK (negb (usize (pc s - OPCODE_SIZE) =? addr));;
  Ok (set_pc addr s).

(** 2NNN *)
Definition call (addr : Z) (s : machine) : result machine :=
  ERRCHK (stack_register s <? STACK_SIZE);;
  s1 ← wr_stack (stack_register s) (pc s) s;
  let s2 := set_stack_register (u8 (stack_register s1 + 1)) s1 in
  Ok (set_pc addr s2).

Definition skip (s : machine) : machine := set_pc (u16 (pc s + OPCODE_SIZE)) s.

(** 3XNN *)
Definition se (vx value : Z) (s : machine) : result machine :=
  rx ← rd_reg vx s;
  Ok (if rx =? value then skip s else s).

(** 4XNN *)
Definition sne (vx value : Z) (s : machine) : result machine :=
  rx ← rd_reg vx s;
  Ok (if negb (rx =? value) then skip s else s).

(** 5XY0 *)
Definition se_reg (vx vy : Z) (s : machine) : result machine :=
  rx ← rd_reg vx s;
  ry ← rd_reg vy s;
  Ok (if rx =? ry then skip s else s).

(** 6XNN *)
Definition ld (vx val : Z) (s : machine) : result machine :=
  wr_reg vx val s.

(** 7XNN *)
Definition add (vx val : Z) (s : machine) : result machine :=
  rx ← rd_reg vx s;
  wr_reg vx (rx + val) s.

(** 8XY0 *)
Definition ld_reg (vx vy : Z) (s : machine) : result machine :=
  ry ← rd_reg vy s;
  wr_reg vx ry s.

(** 8XY1 *)
Definition or_reg (vx vy : Z) (s : machine) : result machine :=
  rx ← rd_reg vx s;
  ry ← rd_reg vy s;
  wr_reg vx (Z.lor rx ry) s.

(** 8XY2 *)
Definition and_reg (vx vy : Z) (s : machine) : result machine :=
  rx ← rd_reg vx s;
  ry ← rd_reg vy s;
  wr_reg vx (Z.land rx ry) s.

(** 8XY3 *)
Definition xor_reg (vx vy : Z) (s : machine) : result machine :=
  rx ← rd_reg vx s;
  ry ← rd_reg vy s;
  wr_reg vx (Z.lxor rx ry) s.

(** 8XY4: the sum is stored first, the flag is computed from the registers
    as they are after that store. *)
Definition add_reg (vx vy : Z) (s : machine) : result machine :=
  rx ← rd_reg vx s;
  ry ← rd_reg vy s;
  s ← wr_reg vx (rx + ry) s;
  ry ← rd_reg vy s;
  rx ← rd_reg vx s;
  wr_reg 0xf (b2z (rx <? ry)) s.

(** 8XY5: the flag is stored first, the difference is computed from the
    registers as they are after that store. *)
Definition sub_reg (vx vy : Z) (s : machine) : result machine :=
  rx ← rd_reg vx s;
  ry ← rd_reg vy s;
  s ← wr_reg 0xf (b2z (ry <? rx)) s;
  rx ← rd_reg vx s;
  ry ← rd_reg vy s;
  wr_reg vx (rx - ry) s.

(** 8XY6 *)
Definition shr_reg (vx : Z) (s : machine) : result machine :=
  rx ← rd_reg vx s;
  s ← wr_reg 0xf (Z.land rx 0x1) s;
  rx ← rd_reg vx s;
  wr_reg vx (Z.shiftr rx 1) s.

(** 8XY7 *)
Definition subn_reg (vx vy : Z) (s : machine) : result machine :=
  ry ← rd_reg vy s;
  rx ← rd_reg vx s;
  s ← wr_reg 0xf (b2z (rx <? ry)) s;
  ry ← rd_reg vy s;
  rx ← rd_reg vx s;
  wr_reg vx (ry - rx) s.

(** 8XYE *)
Definition shl_reg (vx : Z) (s : machine) : result machine :=
  rx ← rd_reg vx s;
  s ← wr_reg 0xf (Z.shiftr rx 7) s;
  rx ← rd_reg vx s;
  wr_reg vx (Z.shiftl rx 1) s.

(** 9XY0 *)
Definition sne_reg (vx vy : Z) (s : machine) : result machine :=
  rx ← rd_reg vx s;
  ry ← rd_reg vy s;
  Ok (if negb (rx =? ry) then skip s else s).

(** ANNN *)
Definition ld_addr (addr : Z) (s : machine) : result machine :=
  Ok (set_address_register addr s).

(** BNNN *)
Definition jmp_relative (offset : Z) (s : machine) : result machine :=
  r0 ← rd_reg 0x0 s;
  Ok (set_pc (u16 (r0 + offset)) s).

(** CXNN: [r] is the value [rand()] returned; C's [%] truncates towards
    zero ([Z.rem]). *)
Definition rnd_byte (r mask : Z) : Z := Z.land (u8 (Z.rem r 255)) mask.

Definition rnd (r : Z) (vx mask : Z) (s : machine) : result machine :=
  wr_reg vx (rnd_byte r mask) s.

(** DXYN.  [plot] is the tail of the innermost block: the collision test
    and the XOR of one display cell. *)
Definition plot (i j : Z) (s : machine) : result machine :=
  idx ← display_idx i j;
  d ← rd_display idx s;
  s ← (if negb (d =? 0) then wr_reg 0xf 0x1 s else Ok s);
  idx ← display_idx i j;
  d ← rd_display idx s;
  wr_display idx (Z.lxor d 1) s.

(** One iteration of the loop over [i1]; [i] and [j] are [uint8_t]. *)
Definition draw_pixel (displaymode : DisplayMode) (i0 j0 j1 i1 : Z)
    (s : machine) : result flow :=
  b ← rd_mem (address_register s + j1) s;
  if negb (Z.land b (Z.shiftr 0x80 i1) =? 0) then
    match displaymode with
    | WRAP =>
        let i := u8 (Z.rem (i0 + i1) DISPLAY_WIDTH) in
        let j := u8 (Z.rem (j0 + j1) DISPLAY_HEIGHT) in
        s ← plot i j s;
        Ok (Continue s)
    | CLAMP =>
        let i := u8 (i0 + i1) in
        let j := u8 (j0 + j1) in
        if (DISPLAY_WIDTH <=? i) || (DISPLAY_HEIGHT <=? j) then Ok (Break s)
        else s ← plot i j s; Ok (Continue s)
    end
  else Ok (Continue s).

Definition draw_row (displaymode : DisplayMode) (i0 j0 j1 : Z)
    (s : machine) : result machine :=
  for_loop_break 8 0 (draw_pixel displaymode i0 j0 j1) s.

Definition draw (displaymode : DisplayMode) (vx vy height : Z)
    (s : machine) : result machine :=
  i0 ← rd_reg vx s;
  j0 ← rd_reg vy s;
  s ← wr_reg 0xf 0x0 s;
  for_loop (Z.to_nat height) 0 (draw_row displaymode i0 j0) s.

(** EX9E *)
Definition skip_p (keys : Z -> bool) (vx : Z) (s : machine) : result machine :=
  rx ← rd_reg vx s;
  k ← keydown keys rx;
  Ok (if k : bool then skip s else s).

(** EXA1 *)
Definition skip_np (keys : Z -> bool) (vx : Z) (s : machine) : result machine :=
  rx ← rd_reg vx s;
  k ← keydown keys rx;
  Ok (if negb k then skip s else s).

(** FX0A *)
Definition getkey (keys : Z -> bool) (vx : Z) (s : machine) : result machine :=
  for_loop_break 16 0 (fun i s =>
    k ← keydown keys i;
    if k : bool then s ← wr_reg vx i s; Ok (Break s)
    else Ok (Continue (if i =? 15 then set_pc (u16 (pc s - OPCODE_SIZE)) s
                       else s))) s.

(** FX07 *)
Definition ld_delay_to_reg (vx : Z) (s : machine) : result machine :=
  wr_reg vx (delay_timer s) s.

(** FX15 *)
Definition ld_reg_to_delay (vx : Z) (s : machine) : result machine :=
  rx ← rd_reg vx s;
  Ok (set_delay_timer rx s).

(** FX18 *)
Definition ld_sound (vx : Z) (s : machine) : result machine :=
  rx ← rd_reg vx s;
  Ok (set_sound_timer rx s).

(** FX1E *)
Definition add_addr (vx : Z) (s : machine) : result machine :=
  rx ← rd_reg vx s;
  s ← wr_reg 0xf (b2z (0x0FFF <? address_register s + rx)) s;
  rx ← rd_reg vx s;
  Ok (set_address_register (u16 (address_register s + rx)) s).

(** FX29 *)
Definition ld_sprite (vx : Z) (s : machine) : result machine :=
  rx ← rd_reg vx s;
  ERRCHK (rx <=? 0xf);;
  Ok (set_address_register (u16 (0x0 + rx * SPRITE_SIZE)) s).

(** FX33 *)
Definition bcd (vx : Z) (s : machine) : result machine :=
  rx ← rd_reg vx s;
  s ← wr_mem (address_register s + 0) (rx / 100) s;
  rx ← rd_reg vx s;
  s ← wr_mem (address_register s + 1) ((rx / 10) mod 10) s;
  rx ← rd_reg vx s;
  wr_mem (address_register s + 2) (rx mod 10) s.

(** FX55 *)
Definition reg_dump (vx : Z) (s : machine) : result machine :=
  ERRCHK (vx <? REGISTER_COUNT);;
  for_loop (Z.to_nat (vx + 1)) 0 (fun i s =>
    ri ← rd_reg i s;
    wr_mem (address_register s + i) ri s) s.

(** FX65 *)
Definition reg_load (vx : Z) (s : machine) : result machine :=
  ERRCHK (vx <? REGISTER_COUNT);;
  for_loop (Z.to_nat (vx + 1)) 0 (fun i s =>
    ERRCHK (address_register s + i <? MEMORY_SIZE);;
    m ← rd_mem (address_register s + i) s;
    wr_reg i m s) s.

(** ** The instruction cycle *)

(** The first block of [instruction_cycle]: [now] is what [SDL_GetTicks]
    returned. *)
Definition timer_fires (now : Z) (s : machine) : bool :=
  1000 / TIMER_RATE <=? u32 (now - timer_start s).

Definition timer_driver (now : Z) (s : machine) : machine :=
  if timer_fires now s then
    let s := if negb (delay_timer s =? 0)
             then set_delay_timer (u8 (delay_timer s - 1)) s else s in
    let s := if negb (sound_timer s =? 0)
             then set_sound_timer (u8 (sound_timer s - 1)) s else s in
    set_timer_start now s
  else s.

(** The two bytes at [pc], read as one [uint16_t] of a little-endian host
    and byte-swapped. *)
Definition fetch (s : machine) : result Z :=
  b0 ← rd_mem (pc s) s;
  b1 ← rd_mem (pc s + 1) s;
  Ok (convert_endianess (b0 + 256 * b1)).

Definition execute (displaymode : DisplayMode) (keys : Z -> bool) (rand : Z)
    (opcode : Z) (s : machine) : result machine :=
  let NNN := Z.land opcode 0x0fff in
  let NN := u8 (Z.land opcode 0x00ff) in
  let N := u8 (Z.land opcode 0x000f) in
  let X := u8 (Z.shiftr (Z.land opcode 0x0f00) 8) in
  let Y := u8 (Z.shiftr (Z.land opcode 0x00f0) 4) in
  let class := Z.land opcode 0xf000 in
  if class =? 0x0000 then
    if opcode =? 0x00EE then ret s
    else if opcode =? 0x00E0 then cls s
    else chip8_syscall NNN s
  else if class =? 0x1000 then jmp NNN s
  else if class =? 0x2000 then call NNN s
  else if class =? 0x3000 then se X NN s
  else if class =? 0x4000 then sne X NN s
  else if class =? 0x5000 then se_reg X Y s
  else if class =? 0x6000 then ld X NN s
  else if class =? 0x7000 then add X NN s
  else if class =? 0x8000 then
    let func_type := Z.land opcode 0x000f in
    if func_type =? 0x0000 then ld_reg X Y s
    else if func_type =? 0x0001 then or_reg X Y s
    else if func_type =? 0x0002 then and_reg X Y s
    else if func_type =? 0x0003 then xor_reg X Y s
    else if func_type =? 0x0004 then add_reg X Y s
    else if func_type =? 0x0005 then sub_reg X Y s
    else if func_type =? 0x0006 then shr_reg X s
    else if func_type =? 0x0007 then subn_reg X Y s
    else if func_type =? 0x000e then shl_reg X s
    else Fatal
  else if class =? 0x9000 then sne_reg X Y s
  else if class =? 0xA000 then ld_addr NNN s
  else if class =? 0xB000 then jmp_relative NNN s
  else if class =? 0xC000 then rnd rand X NN s
  else if class =? 0xD000 then draw displaymode X Y N s
  else if class =? 0xE000 then
    let func_type := Z.land opcode 0x00ff in
    if func_type =? 0x009e then skip_p keys X s
    else if func_type =? 0x00a1 then skip_np keys X s
    else Fatal
  else if class =? 0xF000 then
    let func_type := Z.land opcode 0x00ff in
    if func_type =? 0x000a then getkey keys X s
    else if func_type =? 0x0007 then ld_delay_to_reg X s
    else if func_type =? 0x0015 then ld_reg_to_delay X s
    else if func_type =? 0x0018 then ld_sound X s
    else if func_type =? 0x001e then add_addr X s
    else if func_type =? 0x0029 then ld_sprite X s
    else if func_type =? 0x0033 then bcd X s
    else if func_type =? 0x0055 then reg_dump X s
    else if func_type =? 0x0065 then reg_load X s
    else Fatal
  else Fatal.

Definition instruction_cycle (displaymode : DisplayMode) (keys : Z -> bool)
    (rand now : Z) (s : machine) : result machine :=
  let s := timer_driver now s in
  opcode ← fetch s;
  let s := set_pc (u16 (pc s + OPCODE_SIZE)) s in
  execute displaymode keys rand opcode s.

(** ** Well-formed states: every array has its declared size and every
    cell and scalar is within the range of its C type. *)

Definition bytes (l : list Z) : Prop := Forall (fun v => 0 <= v < 256) l.

Record wf (s : machine) : Prop := {
  wf_memory_len : length (memory s) = Z.to_nat MEMORY_SIZE;
  wf_registers_len : length (registers s) = Z.to_nat REGISTER_COUNT;
  wf_stack_len : length (stack s) = Z.to_nat STACK_SIZE;
  wf_display_len : length (display s) = Z.to_nat (DISPLAY_WIDTH * DISPLAY_HEIGHT);
  wf_memory : bytes (memory s);
  wf_registers : bytes (registers s);
  wf_display : bytes (display s);
  wf_stack : Forall (fun v => 0 <= v < 65536) (stack s);
  wf_pc : 0 <= pc s < 65536;
  wf_address_register : 0 <= address_register s < 65536;
  wf_stack_register : 0 <= stack_register s < 256;
  wf_delay_timer : 0 <= delay_timer s < 256;
  wf_sound_timer : 0 <= sound_timer s < 256
}.

(** The state when [main] enters its loop: every static at its
    initializer, the memory as [load_sprites] and [load_rom] left it. *)
Definition boot (mem : list Z) : machine :=
  Machine mem (replicate 16 0) (replicate 24 0) (replicate 2048 0)
          0x200 0 0 0 0 0.

(** The same with an all-zero memory. *)
Definition initial : machine := boot (replicate 4096 0).

(** States the interpreter can be in at the start of a cycle. *)
Inductive reachable (displaymode : DisplayMode) : machine -> Prop :=
| reachable_boot (mem : list Z) :
    length mem = Z.to_nat MEMORY_SIZE -> bytes mem ->
    reachable displaymode (boot mem)
| reachable_cycle (keys : Z -> bool) (rand now : Z) (s s' : machine) :
    reachable displaymode s ->
    instruction_cycle displaymode keys rand now s = Ok s' ->
    reachable displaymode s'.

Definition flow_state (f : flow) : machine :=
  match f with Continue s | Break s => s end.

(** ** Vocabulary of the statements *)

(** [regv s i]: the content of register [i]. *)
Definition regv (s : machine) (i : Z) : Z := default 0 (registers s !! Z.to_nat i).

Definition regs_ok (s : machine) : Prop :=
  length (registers s) = Z.to_nat REGISTER_COUNT.

Definition mem_ok (s : machine) : Prop :=
  length (memory s) = Z.to_nat MEMORY_SIZE.

(** What runs between two stack instructions leaves the call stack and
    the stack register alone, and leaves a 16-bit program counter: the
    timer driver and the fetch at the head of a cycle, and every cycle of
    an instruction other than 2NNN and 00EE. *)
Definition keeps_stack (f : machine -> machine) : Prop :=
  forall s, stack (f s) = stack s /\ stack_register (f s) = stack_register s /\
            0 <= pc (f s) < 65536.

(** The part of [instruction_cycle] before the handler runs. *)
Definition before_execute (now : Z) (s : machine) : machine :=
  let s := timer_driver now s in
  set_pc (u16 (pc s + OPCODE_SIZE)) s.

(** A run of call instructions, each with what ran since the previous
    one and its target; the result lists the program counters pushed. *)
Fixpoint calls (l : list ((machine -> machine) * Z)) (s : machine)
    : result (list Z * machine) :=
  match l with
  | [] => Ok ([], s)
  | (f, addr) :: l' =>
      s1 ← call addr (f s);
      r ← calls l' s1;
      Ok (pc (f s) :: r.1, r.2)
  end.

(** A run of return instructions, each with what ran since the previous
    stack instruction; the result lists the program counters restored. *)
Fixpoint rets (l : list (machine -> machine)) (s : machine)
    : result (list Z * machine) :=
  match l with
  | [] => Ok ([], s)
  | f :: l' =>
      s1 ← ret (f s);
      r ← rets l' s1;
      Ok (pc s1 :: r.1, r.2)
  end.

(** The font table of [load_sprites]. *)
Definition sprites : list Z :=
  [ 0xF0; 0x90; 0x90; 0x90; 0xF0;  0x20; 0x60; 0x20; 0x20; 0x70;
    0xF0; 0x10; 0xF0; 0x80; 0xF0;  0xF0; 0x10; 0xF0; 0x10; 0xF0;
    0x90; 0x90; 0xF0; 0x10; 0x10;  0xF0; 0x80; 0xF0; 0x10; 0xF0;
    0xF0; 0x80; 0xF0; 0x90; 0xF0;  0xF0; 0x10; 0x20; 0x40; 0x40;
    0xF0; 0x90; 0xF0; 0x90; 0xF0;  0xF0; 0x90; 0xF0; 0x10; 0xF0;
    0xF0; 0x90; 0xF0; 0x90; 0x90;  0xE0; 0x90; 0xE0; 0x90; 0xE0;
    0xF0; 0x80; 0x80; 0x80; 0xF0;  0xE0; 0x90; 0x90; 0x90; 0xE0;
    0xF0; 0x80; 0xF0; 0x80; 0xF0;  0xF0; 0x80; 0xF0; 0x80; 0x80 ].

(** The memory after [load_sprites] and [load_rom], for a ROM that fits
    between 0x200 and the end of the memory. *)
Definition loaded (rom : list Z) : list Z :=
  sprites ++ replicate (0x200 - length sprites) 0 ++ rom
          ++ replicate (4096 - 0x200 - length rom) 0.

(** [n] cycles, the host inputs held constant. *)
Fixpoint cycles (displaymode : DisplayMode) (keys : Z -> bool) (rand now : Z)
    (n : nat) (s : machine) : result machine :=
  match n with
  | O => Ok s
  | S n' =>
      s' ← instruction_cycle displaymode keys rand now s;
      cycles displaymode keys rand now n' s'
  end.

Definition no_keys : Z -> bool := fun _ => false.

(** The flag each of the five instructions is to leave in register 15,
    from the operands as they are before the instruction: the carry of
    the addition, [Vx > Vy] for 8XY5 and [Vy > Vx] for 8XY7 (the
    comparisons the handlers make), and the bit shifted out. *)
Definition flag_add (x y : Z) : Z := b2z (255 <? x + y).
Definition flag_sub (x y : Z) : Z := b2z (y <? x).
Definition flag_subn (x y : Z) : Z := b2z (x <? y).
Definition flag_shr (x : Z) : Z := Z.land x 0x1.
Definition flag_shl (x : Z) : Z := Z.shiftr x 7.

Definition display_ok (s : machine) : Prop :=
  length (display s) = Z.to_nat (DISPLAY_WIDTH * DISPLAY_HEIGHT).

(** A run that touched the display only inside its bounds: it returned
    (in a state satisfying [P]) or it stopped on a sprite byte read
    outside the memory; it did not fail an [ERRCHK] of [display_idx] and
    did not index the display (or another array) out of range. *)
Definition display_safe {A : Type} (P : A -> Prop) (r : result A) : Prop :=
  match r with
  | Ok a => P a
  | OutOfBounds Memory _ => True
  | _ => False
  end.

Definition draw_inv (s : machine) : Prop := regs_ok s /\ display_ok s.

(** The index of the display cell at column [i], row [j]. *)
Definition cell (i j : Z) : nat := Z.to_nat (i + j * DISPLAY_WIDTH).

(** The display cells under the part of an 8 x [height] sprite at
    ([x], [y]) that lies inside the display. *)
Definition sprite_cell (x y height : Z) (c : nat) : Prop :=
  exists i1 j1,
    0 <= i1 < 8 /\ 0 <= j1 < height /\
    x + i1 < DISPLAY_WIDTH /\ y + j1 < DISPLAY_HEIGHT /\
    c = cell (x + i1) (y + j1).

(** Bit [i1], counted from the left, of row [j1] of the sprite at the
    address register. *)
Definition sprite_bit (s : machine) (j1 i1 : Z) : bool :=
  match memory s !! Z.to_nat (address_register s + j1) with
  | Some b => negb (Z.land b (Z.shiftr 0x80 i1) =? 0)
  | None => false
  end.

(** What a sprite bit does to the cell under it. *)
Definition toggle (bit : bool) (d : Z) : Z :=
  if bit then u8 (Z.lxor d 1) else d.

Definition stack_ok (s : machine) : Prop :=
  length (stack s) = Z.to_nat STACK_SIZE.

(** ** Start-up: [load_sprites] and [load_rom]

    [memcpy] writes the bytes of [src] to the memory from [dst] on; the
    file [load_rom] opens is its list of bytes, or [None] when [fopen]
    fails. *)

Fixpoint memcpy (dst : Z) (src : list Z) (s : machine) : result machine :=
  match src with
  | [] => Ok s
  | b :: src' => s' ← wr_mem dst b s; memcpy (dst + 1) src' s'
  end.

Definition load_sprites (s : machine) : result machine :=
  memcpy 0 sprites s.

(** The loop of [load_rom]: [memory[pc++] = byte] for each byte read. *)
Fixpoint load_rom_bytes (file : list Z) (s : machine) : result machine :=
  match file with
  | [] => Ok s
  | byte :: file' =>
      s' ← wr_mem (pc s) byte s;
      load_rom_bytes file' (set_pc (u16 (pc s' + 1)) s')
  end.

Definition load_rom (fp : option (list Z)) (s : machine) : result machine :=
  match fp with
  | None => Fatal
  | Some file =>
      let pc_initial := pc s in
      s' ← load_rom_bytes file s;
      Ok (set_pc pc_initial s')
  end.

(** The timer block of [instruction_cycle] over a run of cycles, [nows]
    being what [SDL_GetTicks] returned in each. *)
Definition ticks (nows : list Z) (s : machine) : machine :=
  foldl (fun s now => timer_driver now s) s nows.

(** Every tick of the run finds at least [1000 / TIMER_RATE] ms gone
    since the last one that fired. *)
Fixpoint all_fire (start : Z) (nows : list Z) : Prop :=
  match nows with
  | [] => True
  | now :: nows' => 1000 / TIMER_RATE <= u32 (now - start) /\ all_fire now nows'
  end.

(** The instruction word with the four nibbles [c x y n], most
    significant first. *)
Definition enc (c x y n : Z) : Z := 4096 * c + 256 * x + 16 * y + n.

Definition nibble (z : Z) : Prop := 0 <= z < 16.

(** The list [m] with the cells from [d] on overwritten by [src]. *)
Definition overwrite (d : nat) (src m : list Z) : list Z :=
  take d m ++ src ++ drop (d + length src) m.

(** The display cell under bit [i1] of row [j1] of a sprite drawn at
    ([x], [y]) under the wrap policy. *)
Definition wrap_cell (x y i1 j1 : Z) : nat :=
  cell ((x + i1) mod DISPLAY_WIDTH) ((y + j1) mod DISPLAY_HEIGHT).

(** Some set bit of the sprite lies over a cell that is lit. *)
Definition wrap_collision (s : machine) (x y height : Z) : Prop :=
  exists i1 j1 d,
    0 <= i1 < 8 /\ 0 <= j1 < height /\ sprite_bit s j1 i1 = true /\
    display s !! wrap_cell x y i1 j1 = Some d /\ d <> 0.

(** * Properties *)

(** Side conditions on indices: by hypothesis, or by arithmetic once the
    hardware constants are numbers. *)
Ltac range :=
  first [ done
        | unfold mem_ok, regs_ok, MEMORY_SIZE, REGISTER_COUNT, STACK_SIZE,
                 OPCODE_SIZE, DISPLAY_WIDTH, DISPLAY_HEIGHT in *;
          simpl in *; rewrite ?length_insert; first [ done | lia ] ].

(** Linear arithmetic with division and remainder by constants. *)
Ltac zdiv := Z.to_euclidean_division_equations; lia.

(** ** Arrays *)

Section Arrays.
Context (a : array_id) (l : list Z).

Lemma load_in_range (i : Z) :
  0 <= i < Z.of_nat (length l) ->
  exists v, load a l i = Ok v /\ l !! Z.to_nat i = Some v.
Proof.
  intros Hi. unfold load.
  destruct (lookup_lt_is_Some_2 l (Z.to_nat i)) as [v Hv]; [lia|].
  exists v. rewrite Hv.
  replace (0 <=? i) with true by lia. replace (i <? Z.of_nat (length l)) with true by lia.
  done.
Qed.

Lemma load_out_of_range (i : Z) :
  ~ 0 <= i < Z.of_nat (length l) -> load a l i = OutOfBounds a i.
Proof.
  intros Hi. unfold load.
  destruct (0 <=? i) eqn:E1; destruct (i <? Z.of_nat (length l)) eqn:E2;
    simpl; try done; lia.
Qed.

Lemma store_in_range (i v : Z) :
  0 <= i < Z.of_nat (length l) -> store a l i v = Ok (<[Z.to_nat i := v]> l).
Proof.
  intros Hi. unfold store.
  replace (0 <=? i) with true by lia. replace (i <? Z.of_nat (length l)) with true by lia.
  done.
Qed.

Lemma store_out_of_range (i v : Z) :
  ~ 0 <= i < Z.of_nat (length l) -> store a l i v = OutOfBounds a i.
Proof.
  intros Hi. unfold store.
  destruct (0 <=? i) eqn:E1; destruct (i <? Z.of_nat (length l)) eqn:E2;
    simpl; try done; lia.
Qed.

Lemma load_inv (i v : Z) :
  load a l i = Ok v -> 0 <= i < Z.of_nat (length l) /\ l !! Z.to_nat i = Some v.
Proof.
  intros H.
  destruct (decide (0 <= i < Z.of_nat (length l))) as [Hi|Hi].
  - destruct (load_in_range i Hi) as (w & Hw & Hl). split; [done|]. congruence.
  - rewrite load_out_of_range in H; done.
Qed.

Lemma store_inv (i v : Z) (l' : list Z) :
  store a l i v = Ok l' ->
  0 <= i < Z.of_nat (length l) /\ l' = <[Z.to_nat i := v]> l.
Proof.
  intros H.
  destruct (decide (0 <= i < Z.of_nat (length l))) as [Hi|Hi].
  - rewrite store_in_range in H by done. split; [done|]. congruence.
  - rewrite store_out_of_range in H; done.
Qed.
End Arrays.

Lemma u8_range (z : Z) : 0 <= u8 z < 256.
Proof. unfold u8. apply Z.mod_pos_bound. lia. Qed.

Lemma u8_small (z : Z) : 0 <= z < 256 -> u8 z = z.
Proof. unfold u8. apply Z.mod_small. Qed.

Lemma u16_small (z : Z) : 0 <= z < 65536 -> u16 z = z.
Proof. unfold u16. apply Z.mod_small. Qed.

Lemma bytes_insert (l : list Z) (i : nat) (v : Z) :
  bytes l -> 0 <= v < 256 -> bytes (<[i := v]> l).
Proof. intros Hl Hv. unfold bytes. by apply Forall_insert. Qed.

Lemma bytes_lookup (l : list Z) (i : nat) (v : Z) :
  bytes l -> l !! i = Some v -> 0 <= v < 256.
Proof. intros Hl Hi. exact (Forall_lookup_1 _ _ _ _ Hl Hi). Qed.

(** A check of [bytes] by evaluation. *)
Lemma bytes_check (l : list Z) :
  forallb (fun v => (0 <=? v) && (v <? 256)) l = true -> bytes l.
Proof.
  intros H. apply Forall_forall. intros v Hv.
  rewrite forallb_forall in H. apply list_elem_of_In, H in Hv. lia.
Qed.

(** ** The register file *)

Lemma rd_reg_ok (s : machine) (i : Z) :
  regs_ok s -> 0 <= i < REGISTER_COUNT -> rd_reg i s = Ok (regv s i).
Proof.
  intros Hs Hi. unfold rd_reg, regv.
  destruct (load_in_range Registers (registers s) i) as (v & -> & ->); [|done].
  rewrite Hs. unfold REGISTER_COUNT in *. lia.
Qed.

Lemma wr_reg_ok (s : machine) (i v : Z) :
  regs_ok s -> 0 <= i < REGISTER_COUNT ->
  wr_reg i v s = Ok (set_registers (<[Z.to_nat i := u8 v]> (registers s)) s).
Proof.
  intros Hs Hi. unfold wr_reg. rewrite store_in_range; [done|].
  rewrite Hs. unfold REGISTER_COUNT in *. lia.
Qed.

Lemma regs_ok_set (s : machine) (i : nat) (v : Z) :
  regs_ok s -> regs_ok (set_registers (<[i := v]> (registers s)) s).
Proof. unfold regs_ok. simpl. by rewrite length_insert. Qed.

Lemma regv_set_eq (s : machine) (i v : Z) :
  regs_ok s -> 0 <= i < REGISTER_COUNT ->
  regv (set_registers (<[Z.to_nat i := v]> (registers s)) s) i = v.
Proof.
  intros Hs Hi. unfold regv. simpl. rewrite list_lookup_insert_eq; [done|].
  rewrite Hs. unfold REGISTER_COUNT in *. lia.
Qed.

Lemma regv_set_ne (s : machine) (i j v : Z) :
  0 <= i -> 0 <= j -> i <> j ->
  regv (set_registers (<[Z.to_nat i := v]> (registers s)) s) j = regv s j.
Proof.
  intros Hi Hj Hne. unfold regv. simpl. rewrite list_lookup_insert_ne; [done|lia].
Qed.

Lemma land_le_l (a b : Z) : 0 <= a -> 0 <= b -> 0 <= Z.land a b <= a.
Proof.
  intros Ha Hb. split; [apply Z.land_nonneg; by left|].
  rewrite <- (Z2N.id a) at 1 2 by done. rewrite <- (Z2N.id b) by done.
  rewrite <- N2Z.inj_land. apply N2Z.inj_le, N.land_le_l.
Qed.

(** ** CXNN *)

(** C10: whatever non-negative value [rand()] returns and whatever the
    mask, CXNN stores [(r mod 255) AND mask], which is at most 254: the
    byte 255 is never produced, not even with mask 0xFF. *)
Theorem rnd_never_255 (s : machine) (r vx mask : Z) :
  regs_ok s -> 0 <= vx < REGISTER_COUNT -> 0 <= r -> 0 <= mask < 256 ->
  exists s', rnd r vx mask s = Ok s' /\
    regv s' vx = Z.land (r mod 255) mask /\
    0 <= regv s' vx <= 254 /\
    regv s' vx <> 255.
Proof.
  intros Hs Hx Hr Hm. unfold rnd.
  rewrite wr_reg_ok by done. eexists; split; [reflexivity|].
  rewrite regv_set_eq by done. unfold rnd_byte.
  rewrite Z.rem_mod_nonneg by lia.
  pose proof (Z.mod_pos_bound r 255 ltac:(lia)) as Hb.
  rewrite (u8_small (r mod 255)) by lia.
  pose proof (land_le_l (r mod 255) mask ltac:(lia) ltac:(lia)) as Hl.
  rewrite u8_small by lia. repeat split; lia.
Qed.

Lemma rnd_never_255_witness :
  exists s', rnd 255 0 0xff initial = Ok s' /\ regv s' 0 = 0.
Proof.
  destruct (rnd_never_255 initial 255 0 0xff) as (s' & H & Hv & _).
  - reflexivity.
  - unfold REGISTER_COUNT; lia.
  - lia.
  - lia.
  - exists s'. split; [exact H|]. rewrite Hv. reflexivity.
Defined.

(** ** Memory *)

Lemma wr_mem_ok (s : machine) (i v : Z) :
  mem_ok s -> 0 <= i < MEMORY_SIZE ->
  wr_mem i v s = Ok (set_memory (<[Z.to_nat i := u8 v]> (memory s)) s).
Proof.
  intros Hs Hi. unfold wr_mem. rewrite store_in_range; [done|].
  rewrite Hs. unfold MEMORY_SIZE in *. lia.
Qed.

Lemma mem_ok_set (s : machine) (i : nat) (v : Z) :
  mem_ok s -> mem_ok (set_memory (<[i := v]> (memory s)) s).
Proof. unfold mem_ok. simpl. by rewrite length_insert. Qed.

Lemma regv_byte (s : machine) (i : Z) :
  bytes (registers s) -> 0 <= regv s i < 256.
Proof.
  intros Hb. unfold regv. destruct (registers s !! Z.to_nat i) eqn:E; simpl; [|lia].
  by eapply bytes_lookup.
Qed.

Lemma regv_set_memory (s : machine) (m : list Z) (i : Z) :
  regv (set_memory m s) i = regv s i.
Proof. reflexivity. Qed.

(** C6: FX33 writes the hundreds, tens and units digit of the register's
    value to the cells at the address register and the two after it
    (the three cells lying inside the memory); value 1 gives (0,0,1) and
    value 199 gives (1,9,9). *)
Theorem bcd_digits (s : machine) (vx : Z) :
  regs_ok s -> bytes (registers s) -> mem_ok s ->
  0 <= vx < REGISTER_COUNT ->
  0 <= address_register s -> address_register s + 2 < MEMORY_SIZE ->
  exists s', bcd vx s = Ok s' /\
    let v := regv s vx in
    let cell k := memory s' !! Z.to_nat (address_register s + k) in
    (cell 0, cell 1, cell 2) = (Some (v / 100), Some (v / 10 mod 10), Some (v mod 10)) /\
    v = 100 * (v / 100) + 10 * (v / 10 mod 10) + v mod 10 /\
    0 <= v / 100 <= 9 /\ 0 <= v / 10 mod 10 <= 9 /\ 0 <= v mod 10 <= 9 /\
    (v = 1 -> (cell 0, cell 1, cell 2) = (Some 0, Some 0, Some 1)) /\
    (v = 199 -> (cell 0, cell 1, cell 2) = (Some 1, Some 9, Some 9)).
Proof.
  intros Hr Hb Hm Hx Hlo Hhi.
  pose proof (regv_byte s vx Hb) as Hv.
  assert (Hcells : exists s', bcd vx s = Ok s' /\
    (memory s' !! Z.to_nat (address_register s + 0),
     memory s' !! Z.to_nat (address_register s + 1),
     memory s' !! Z.to_nat (address_register s + 2))
    = (Some (regv s vx / 100), Some (regv s vx / 10 mod 10), Some (regv s vx mod 10))).
  { unfold bcd.
    rewrite rd_reg_ok by done. simpl.
    rewrite wr_mem_ok by range. simpl.
    rewrite rd_reg_ok, regv_set_memory by done. simpl.
    rewrite wr_mem_ok by range. simpl.
    rewrite rd_reg_ok, !regv_set_memory by done. simpl.
    rewrite wr_mem_ok by range.
    eexists; split; [reflexivity|]. simpl.
    unfold mem_ok, MEMORY_SIZE in *.
    rewrite !u8_small by zdiv.
    f_equal; [f_equal|].
    - rewrite list_lookup_insert_ne by lia. rewrite list_lookup_insert_ne by lia.
      rewrite list_lookup_insert_eq by lia. done.
    - rewrite list_lookup_insert_ne by lia.
      rewrite list_lookup_insert_eq by (rewrite length_insert; lia). done.
    - rewrite list_lookup_insert_eq by (rewrite !length_insert; lia). done. }
  destruct Hcells as (s' & Hrun & Hc). exists s'. split; [done|]. cbv zeta.
  split; [done|].
  repeat (split; [zdiv|]).
  split; intros Heq; rewrite Hc, Heq; reflexivity.
Qed.

Lemma bcd_digits_witness :
  exists s', bcd 2 (set_address_register 0x300
                     (set_registers (<[2%nat := 199]> (registers initial)) initial)) = Ok s' /\
    (memory s' !! 0x300%nat, memory s' !! 0x301%nat, memory s' !! 0x302%nat)
    = (Some 1, Some 9, Some 9).
Proof.
  destruct (bcd_digits (set_address_register 0x300
                     (set_registers (<[2%nat := 199]> (registers initial)) initial)) 2)
    as (s' & H & _ & _ & _ & _ & _ & _ & H199).
  - reflexivity.
  - apply bytes_check. reflexivity.
  - reflexivity.
  - unfold REGISTER_COUNT; lia.
  - simpl; lia.
  - simpl; unfold MEMORY_SIZE; lia.
  - exists s'. split; [exact H|]. apply H199. reflexivity.
Defined.

(** ** 1NNN *)

Lemma timer_driver_frame (now : Z) (s : machine) :
  memory (timer_driver now s) = memory s /\
  registers (timer_driver now s) = registers s /\
  stack (timer_driver now s) = stack s /\
  display (timer_driver now s) = display s /\
  pc (timer_driver now s) = pc s /\
  address_register (timer_driver now s) = address_register s /\
  stack_register (timer_driver now s) = stack_register s.
Proof.
  unfold timer_driver.
  destruct (timer_fires now s); [|done].
  destruct (delay_timer s =? 0); simpl;
    match goal with |- context [if ?b then _ else _] => destruct b end; done.
Qed.

Lemma fetch_timer_driver (now : Z) (s : machine) :
  fetch (timer_driver now s) = fetch s.
Proof.
  destruct (timer_driver_frame now s) as (Hm & _ & _ & _ & Hp & _).
  unfold fetch, rd_mem. by rewrite Hm, Hp.
Qed.

Lemma fetch_in_range (s : machine) (opcode : Z) :
  mem_ok s -> fetch s = Ok opcode -> 0 <= pc s /\ pc s + 1 < MEMORY_SIZE.
Proof.
  intros Hm. unfold fetch, rd_mem.
  destruct (load Memory (memory s) (pc s)) as [b0| |] eqn:E0; [|done..].
  destruct (load Memory (memory s) (pc s + 1)) as [b1| |] eqn:E1; [|done..].
  intros _. apply load_inv in E0 as [H0 _]. apply load_inv in E1 as [H1 _].
  rewrite Hm in *. unfold MEMORY_SIZE in *. lia.
Qed.

(** The handler, on the post-fetch program counter.  A program counter of
    0 or 1 makes [pc - OPCODE_SIZE] wrap to the top of [size_t], which no
    16-bit address equals. *)
Lemma jmp_spec (s : machine) (addr : Z) :
  0 <= pc s < 65536 -> 0 <= addr < 65536 ->
  jmp addr s = if addr =? pc s - OPCODE_SIZE then Fatal else Ok (set_pc addr s).
Proof.
  intros Hpc Haddr. unfold jmp, usize, OPCODE_SIZE.
  destruct (decide (2 <= pc s)) as [Hge|Hlt].
  - rewrite Z.mod_small by lia. rewrite (Z.eqb_sym addr).
    by destruct (pc s - 2 =? addr).
  - replace (addr =? pc s - 2) with false by lia.
    replace ((pc s - 2) mod 18446744073709551616)
      with (pc s - 2 + 18446744073709551616).
    + replace (pc s - 2 + 18446744073709551616 =? addr) with false by lia. done.
    + apply Z.mod_unique with (q := -1); lia.
Qed.

(** C7: a fetched jump instruction 1NNN whose target NNN is the address
    the instruction was fetched from makes the cycle fail fatally; with
    any other target the cycle returns with the program counter at NNN
    (and nothing else changed by the handler). *)
Theorem jmp_self_guard (displaymode : DisplayMode) (keys : Z -> bool)
    (rand now : Z) (s : machine) (opcode : Z) :
  mem_ok s ->
  fetch s = Ok opcode ->
  Z.land opcode 0xf000 = 0x1000 ->
  let NNN := Z.land opcode 0x0fff in
  (NNN = pc s -> instruction_cycle displaymode keys rand now s = Fatal) /\
  (NNN <> pc s ->
   instruction_cycle displaymode keys rand now s
   = Ok (set_pc NNN (timer_driver now s))).
Proof.
  intros Hm Hf Hclass NNN.
  destruct (fetch_in_range s opcode Hm Hf) as [Hlo Hhi].
  destruct (timer_driver_frame now s) as (_ & _ & _ & _ & Hp & _).
  assert (HNNN : 0 <= NNN < 4096).
  { unfold NNN. change 0xfff with (Z.ones 12). rewrite Z.land_ones by lia.
    apply Z.mod_pos_bound. lia. }
  assert (Hrun : instruction_cycle displaymode keys rand now s
                 = if NNN =? pc s then Fatal
                   else Ok (set_pc NNN (timer_driver now s))).
  { unfold instruction_cycle. rewrite fetch_timer_driver, Hf. simpl.
    unfold execute. rewrite Hclass. simpl.
    rewrite jmp_spec; cbn [pc set_pc]; rewrite ?Hp;
      unfold MEMORY_SIZE, OPCODE_SIZE in *.
    - rewrite u16_small by lia. fold NNN.
      replace (pc s + 2 - 2) with (pc s) by lia. reflexivity.
    - rewrite u16_small by lia. lia.
    - fold NNN. lia. }
  rewrite Hrun. split; intros H.
  - by rewrite H, Z.eqb_refl.
  - by apply Z.eqb_neq in H as ->.
Qed.

Lemma jmp_self_guard_witness :
  instruction_cycle CLAMP (fun _ => false) 0 0
    (set_memory (<[0x200%nat := 0x12]> (memory initial)) initial) = Fatal.
Proof.
  apply (jmp_self_guard CLAMP (fun _ => false) 0 0
           (set_memory (<[0x200%nat := 0x12]> (memory initial)) initial) 0x1200).
  - reflexivity.
  - reflexivity.
  - reflexivity.
  - reflexivity.
Defined.

(** ** Reachable states are well-formed *)

Lemma bind_Ok {A B : Type} (r : result A) (k : A -> result B) (b : B) :
  r ≫= k = Ok b -> exists a, r = Ok a /\ k a = Ok b.
Proof. destruct r as [a| |]; [|done..]. intros H. by exists a. Qed.

Lemma ERRCHK_Ok (c : bool) (u : unit) : ERRCHK c = Ok u -> c = true.
Proof. by destruct c. Qed.

(** Take a successful run of a handler apart, bind by bind. *)
Ltac inv_run :=
  repeat match goal with
  | H : mbind _ _ = Ok _ |- _ =>
      let a := fresh "a" in let Ha := fresh "Ha" in
      apply bind_Ok in H as (a & Ha & H)
  | H : ERRCHK _ = Ok _ |- _ => apply ERRCHK_Ok in H
  | H : Ok _ = Ok _ |- _ => injection H as H; try subst
  | H : @Fatal _ = Ok _ |- _ => discriminate H
  | H : OutOfBounds _ _ = Ok _ |- _ => discriminate H
  end.

Lemma for_loop_preserves (P : machine -> Prop)
    (body : Z -> machine -> result machine) :
  (forall i s s', P s -> body i s = Ok s' -> P s') ->
  forall n i s s', P s -> for_loop n i body s = Ok s' -> P s'.
Proof.
  intros Hbody n. induction n as [|n IH]; intros i s s' Hs Hrun; simpl in Hrun.
  - by inv_run.
  - inv_run. eauto.
Qed.

Lemma for_loop_break_preserves (P : machine -> Prop)
    (body : Z -> machine -> result flow) :
  (forall i s f, P s -> body i s = Ok f -> P (flow_state f)) ->
  forall n i s s', P s -> for_loop_break n i body s = Ok s' -> P s'.
Proof.
  intros Hbody n. induction n as [|n IH]; intros i s s' Hs Hrun; simpl in Hrun.
  - by inv_run.
  - inv_run. pose proof (Hbody _ _ _ Hs Ha) as Hf.
    destruct a as [s1|s1]; simpl in Hf; inv_run; eauto.
Qed.

Lemma u16_range (z : Z) : 0 <= u16 z < 65536.
Proof. unfold u16. apply Z.mod_pos_bound. lia. Qed.

Lemma wf_set_pc (s : machine) (p : Z) :
  wf s -> 0 <= p < 65536 -> wf (set_pc p s).
Proof. intros [] Hp. by constructor. Qed.

Lemma wf_set_address_register (s : machine) (a : Z) :
  wf s -> 0 <= a < 65536 -> wf (set_address_register a s).
Proof. intros [] Ha. by constructor. Qed.

Lemma wf_set_stack_register (s : machine) (k : Z) :
  wf s -> 0 <= k < 256 -> wf (set_stack_register k s).
Proof. intros [] Hk. by constructor. Qed.

Lemma wf_set_delay_timer (s : machine) (t : Z) :
  wf s -> 0 <= t < 256 -> wf (set_delay_timer t s).
Proof. intros [] Ht. by constructor. Qed.

Lemma wf_set_sound_timer (s : machine) (t : Z) :
  wf s -> 0 <= t < 256 -> wf (set_sound_timer t s).
Proof. intros [] Ht. by constructor. Qed.

Lemma wf_set_timer_start (s : machine) (t : Z) :
  wf s -> wf (set_timer_start t s).
Proof. intros []. by constructor. Qed.

Lemma wf_wr_reg (s s' : machine) (i v : Z) :
  wr_reg i v s = Ok s' -> wf s -> wf s'.
Proof.
  intros H []. unfold wr_reg in H. inv_run.
  apply store_inv in Ha as [_ ->].
  constructor; simpl; rewrite ?length_insert; try done.
  apply bytes_insert; [done|apply u8_range].
Qed.

Lemma wf_wr_mem (s s' : machine) (i v : Z) :
  wr_mem i v s = Ok s' -> wf s -> wf s'.
Proof.
  intros H []. unfold wr_mem in H. inv_run.
  apply store_inv in Ha as [_ ->].
  constructor; simpl; rewrite ?length_insert; try done.
  apply bytes_insert; [done|apply u8_range].
Qed.

Lemma wf_wr_display (s s' : machine) (i v : Z) :
  wr_display i v s = Ok s' -> wf s -> wf s'.
Proof.
  intros H []. unfold wr_display in H. inv_run.
  apply store_inv in Ha as [_ ->].
  constructor; simpl; rewrite ?length_insert; try done.
  apply bytes_insert; [done|apply u8_range].
Qed.

Lemma wf_wr_stack (s s' : machine) (i v : Z) :
  wr_stack i v s = Ok s' -> wf s -> wf s'.
Proof.
  intros H []. unfold wr_stack in H. inv_run.
  apply store_inv in Ha as [_ ->].
  constructor; simpl; rewrite ?length_insert; try done.
  apply Forall_insert; [done|apply u16_range].
Qed.

Lemma rd_reg_byte (s : machine) (i v : Z) :
  rd_reg i s = Ok v -> wf s -> 0 <= v < 256.
Proof.
  intros H Hs. apply load_inv in H as [_ H].
  eapply bytes_lookup; [apply (wf_registers s Hs)|exact H].
Qed.

Lemma rd_stack_range (s : machine) (i v : Z) :
  rd_stack i s = Ok v -> wf s -> 0 <= v < 65536.
Proof.
  intros H Hs. apply load_inv in H as [_ H].
  exact (Forall_lookup_1 _ _ _ _ (wf_stack s Hs) H).
Qed.

Lemma wf_skip (s : machine) : wf s -> wf (skip s).
Proof. intros H. apply wf_set_pc; [done|apply u16_range]. Qed.

Create HintDb wf discriminated.
#[local] Hint Resolve wf_set_pc wf_set_address_register wf_set_stack_register
  wf_set_delay_timer wf_set_sound_timer wf_set_timer_start wf_wr_reg wf_wr_mem
  wf_wr_display wf_wr_stack wf_skip u8_range u16_range rd_reg_byte
  rd_stack_range : wf.

(** A handler that returns leaves a well-formed state well-formed. *)
Ltac wf_handler f :=
  let H := fresh "Hrun" in
  intros H ?; unfold f in H; inv_run;
  repeat match goal with
  | |- wf (if ?b then _ else _) => destruct b
  | H : (if ?b then _ else _) = Ok _ |- _ => destruct b; inv_run
  end;
  eauto 8 with wf.

Lemma wf_ret (s s' : machine) : ret s = Ok s' -> wf s -> wf s'.
Proof. wf_handler ret. Qed.

Lemma wf_jmp (addr : Z) (s s' : machine) :
  0 <= addr < 65536 -> jmp addr s = Ok s' -> wf s -> wf s'.
Proof. intros Ha. wf_handler jmp. Qed.

Lemma wf_call (addr : Z) (s s' : machine) :
  0 <= addr < 65536 -> call addr s = Ok s' -> wf s -> wf s'.
Proof. intros Ha. wf_handler call. Qed.

Lemma wf_se (vx value : Z) (s s' : machine) : se vx value s = Ok s' -> wf s -> wf s'.
Proof. wf_handler se. Qed.

Lemma wf_sne (vx value : Z) (s s' : machine) : sne vx value s = Ok s' -> wf s -> wf s'.
Proof. wf_handler sne. Qed.

Lemma wf_se_reg (vx vy : Z) (s s' : machine) : se_reg vx vy s = Ok s' -> wf s -> wf s'.
Proof. wf_handler se_reg. Qed.

Lemma wf_sne_reg (vx vy : Z) (s s' : machine) : sne_reg vx vy s = Ok s' -> wf s -> wf s'.
Proof. wf_handler sne_reg. Qed.

Lemma wf_ld (vx val : Z) (s s' : machine) : ld vx val s = Ok s' -> wf s -> wf s'.
Proof. wf_handler ld. Qed.

Lemma wf_add (vx val : Z) (s s' : machine) : add vx val s = Ok s' -> wf s -> wf s'.
Proof. wf_handler add. Qed.

Lemma wf_ld_reg (vx vy : Z) (s s' : machine) : ld_reg vx vy s = Ok s' -> wf s -> wf s'.
Proof. wf_handler ld_reg. Qed.

Lemma wf_or_reg (vx vy : Z) (s s' : machine) : or_reg vx vy s = Ok s' -> wf s -> wf s'.
Proof. wf_handler or_reg. Qed.

Lemma wf_and_reg (vx vy : Z) (s s' : machine) : and_reg vx vy s = Ok s' -> wf s -> wf s'.
Proof. wf_handler and_reg. Qed.

Lemma wf_xor_reg (vx vy : Z) (s s' : machine) : xor_reg vx vy s = Ok s' -> wf s -> wf s'.
Proof. wf_handler xor_reg. Qed.

Lemma wf_add_reg (vx vy : Z) (s s' : machine) : add_reg vx vy s = Ok s' -> wf s -> wf s'.
Proof. wf_handler add_reg. Qed.

Lemma wf_sub_reg (vx vy : Z) (s s' : machine) : sub_reg vx vy s = Ok s' -> wf s -> wf s'.
Proof. wf_handler sub_reg. Qed.

Lemma wf_shr_reg (vx : Z) (s s' : machine) : shr_reg vx s = Ok s' -> wf s -> wf s'.
Proof. wf_handler shr_reg. Qed.

Lemma wf_subn_reg (vx vy : Z) (s s' : machine) : subn_reg vx vy s = Ok s' -> wf s -> wf s'.
Proof. wf_handler subn_reg. Qed.

Lemma wf_shl_reg (vx : Z) (s s' : machine) : shl_reg vx s = Ok s' -> wf s -> wf s'.
Proof. wf_handler shl_reg. Qed.

Lemma wf_ld_addr (addr : Z) (s s' : machine) :
  0 <= addr < 65536 -> ld_addr addr s = Ok s' -> wf s -> wf s'.
Proof. intros Ha. wf_handler ld_addr. Qed.

Lemma wf_jmp_relative (offset : Z) (s s' : machine) :
  jmp_relative offset s = Ok s' -> wf s -> wf s'.
Proof. wf_handler jmp_relative. Qed.

Lemma wf_rnd (r vx mask : Z) (s s' : machine) : rnd r vx mask s = Ok s' -> wf s -> wf s'.
Proof. wf_handler rnd. Qed.

Lemma wf_plot (i j : Z) (s s' : machine) : plot i j s = Ok s' -> wf s -> wf s'.
Proof. wf_handler plot. Qed.

Lemma wf_draw_pixel (mode : DisplayMode) (i0 j0 j1 i1 : Z) (s : machine) (f : flow) :
  draw_pixel mode i0 j0 j1 i1 s = Ok f -> wf s -> wf (flow_state f).
Proof.
  intros H Hs. unfold draw_pixel in H. inv_run.
  destruct (negb _); [|by inv_run].
  destruct mode.
  - inv_run. simpl. eauto using wf_plot.
  - destruct (_ || _); inv_run; simpl; eauto using wf_plot.
Qed.

Lemma wf_draw (mode : DisplayMode) (vx vy height : Z) (s s' : machine) :
  draw mode vx vy height s = Ok s' -> wf s -> wf s'.
Proof.
  intros H Hs. unfold draw in H. inv_run.
  eapply (for_loop_preserves wf); [|eapply wf_wr_reg; eassumption|eassumption].
  intros j1 t t' Ht Hrow. unfold draw_row in Hrow.
  eapply (for_loop_break_preserves wf); [|exact Ht|exact Hrow].
  intros. by eapply wf_draw_pixel.
Qed.

Lemma wf_cls (s s' : machine) : cls s = Ok s' -> wf s -> wf s'.
Proof.
  intros H Hs. unfold cls in H.
  eapply (for_loop_preserves wf); [|exact Hs|exact H].
  intros j t t' Ht Hrow.
  eapply (for_loop_preserves wf); [|exact Ht|exact Hrow].
  intros i u u' Hu Hcell. simpl in Hcell. inv_run. eauto with wf.
Qed.

Lemma wf_skip_p (keys : Z -> bool) (vx : Z) (s s' : machine) :
  skip_p keys vx s = Ok s' -> wf s -> wf s'.
Proof. wf_handler skip_p. Qed.

Lemma wf_skip_np (keys : Z -> bool) (vx : Z) (s s' : machine) :
  skip_np keys vx s = Ok s' -> wf s -> wf s'.
Proof. wf_handler skip_np. Qed.

Lemma wf_getkey (keys : Z -> bool) (vx : Z) (s s' : machine) :
  getkey keys vx s = Ok s' -> wf s -> wf s'.
Proof.
  intros H Hs. unfold getkey in H.
  eapply (for_loop_break_preserves wf); [|exact Hs|exact H].
  intros i t f Ht Hbody. simpl in Hbody. inv_run.
  destruct a; inv_run; simpl; [eauto with wf|].
  destruct (i =? 15); eauto with wf.
Qed.

Lemma wf_ld_delay_to_reg (vx : Z) (s s' : machine) :
  ld_delay_to_reg vx s = Ok s' -> wf s -> wf s'.
Proof. wf_handler ld_delay_to_reg. Qed.

Lemma wf_ld_reg_to_delay (vx : Z) (s s' : machine) :
  ld_reg_to_delay vx s = Ok s' -> wf s -> wf s'.
Proof. wf_handler ld_reg_to_delay. Qed.

Lemma wf_ld_sound (vx : Z) (s s' : machine) :
  ld_sound vx s = Ok s' -> wf s -> wf s'.
Proof. wf_handler ld_sound. Qed.

Lemma wf_add_addr (vx : Z) (s s' : machine) :
  add_addr vx s = Ok s' -> wf s -> wf s'.
Proof. wf_handler add_addr. Qed.

Lemma wf_ld_sprite (vx : Z) (s s' : machine) :
  ld_sprite vx s = Ok s' -> wf s -> wf s'.
Proof. wf_handler ld_sprite. Qed.

Lemma wf_bcd (vx : Z) (s s' : machine) : bcd vx s = Ok s' -> wf s -> wf s'.
Proof. wf_handler bcd. Qed.

Lemma wf_reg_dump (vx : Z) (s s' : machine) : reg_dump vx s = Ok s' -> wf s -> wf s'.
Proof.
  intros H Hs. unfold reg_dump in H. inv_run.
  eapply (for_loop_preserves wf); [|exact Hs|exact H].
  intros i t t' Ht Hbody. simpl in Hbody. inv_run. eauto with wf.
Qed.

Lemma wf_reg_load (vx : Z) (s s' : machine) : reg_load vx s = Ok s' -> wf s -> wf s'.
Proof.
  intros H Hs. unfold reg_load in H. inv_run.
  eapply (for_loop_preserves wf); [|exact Hs|exact H].
  intros i t t' Ht Hbody. simpl in Hbody. inv_run. eauto with wf.
Qed.

Lemma wf_timer_driver (now : Z) (s : machine) : wf s -> wf (timer_driver now s).
Proof.
  intros Hs. unfold timer_driver.
  destruct (timer_fires now s); [|done].
  apply wf_set_timer_start.
  assert (Hd : wf (if negb (delay_timer s =? 0)
                   then set_delay_timer (u8 (delay_timer s - 1)) s else s))
    by (destruct (negb _); eauto with wf).
  revert Hd. generalize (if negb (delay_timer s =? 0)
                   then set_delay_timer (u8 (delay_timer s - 1)) s else s).
  intros t Ht. destruct (negb _); eauto with wf.
Qed.

Lemma NNN_range (opcode : Z) : 0 <= Z.land opcode 0x0fff < 65536.
Proof.
  change 0xfff with (Z.ones 12). rewrite Z.land_ones by lia.
  pose proof (Z.mod_pos_bound opcode (2 ^ 12) ltac:(lia)). lia.
Qed.

#[local] Hint Resolve wf_ret wf_jmp wf_call wf_se wf_sne wf_se_reg wf_sne_reg
  wf_ld wf_add wf_ld_reg wf_or_reg wf_and_reg wf_xor_reg wf_add_reg wf_sub_reg
  wf_shr_reg wf_subn_reg wf_shl_reg wf_ld_addr wf_jmp_relative wf_rnd wf_draw
  wf_cls wf_skip_p wf_skip_np wf_getkey wf_ld_delay_to_reg wf_ld_reg_to_delay
  wf_ld_sound wf_add_addr wf_ld_sprite wf_bcd wf_reg_dump wf_reg_load
  NNN_range : wf.

Lemma wf_execute (mode : DisplayMode) (keys : Z -> bool) (rand opcode : Z)
    (s s' : machine) :
  execute mode keys rand opcode s = Ok s' -> wf s -> wf s'.
Proof.
  intros H Hs. unfold execute in H. cbv zeta in H.
  repeat match type of H with
  | (if ?c then _ else _) = Ok _ => destruct c
  end; try discriminate H; try (injection H as <-; done); eauto 3 with wf.
Qed.

Lemma wf_instruction_cycle (mode : DisplayMode) (keys : Z -> bool)
    (rand now : Z) (s s' : machine) :
  instruction_cycle mode keys rand now s = Ok s' -> wf s -> wf s'.
Proof.
  intros H Hs. unfold instruction_cycle in H. cbv zeta in H. inv_run.
  eapply wf_execute; [exact H|].
  apply wf_set_pc; [by apply wf_timer_driver|apply u16_range].
Qed.

Lemma wf_boot (mem : list Z) :
  length mem = Z.to_nat MEMORY_SIZE -> bytes mem -> wf (boot mem).
Proof.
  intros Hl Hb.
  constructor; unfold boot, bytes;
    cbn [memory registers stack display pc address_register stack_register
         delay_timer sound_timer];
    rewrite ?length_replicate; try done; try lia;
    apply Forall_replicate; lia.
Qed.

Lemma reachable_wf (mode : DisplayMode) (s : machine) : reachable mode s -> wf s.
Proof.
  induction 1 as [mem Hl Hb|keys rand now s s' _ IH Hrun].
  - by apply wf_boot.
  - by eapply wf_instruction_cycle.
Qed.

(** ** The timer driver *)

(** C8: in every reachable state, a tick on which the driver fires takes
    one off each timer that is not zero and leaves a timer at zero where
    it is; a tick on which it does not fire leaves both timers alone; so
    neither timer is driven below zero. *)
Theorem timer_driver_decrement (displaymode : DisplayMode) (s : machine) (now : Z) :
  reachable displaymode s ->
  let s' := timer_driver now s in
  let dec t := if t =? 0 then 0 else t - 1 in
  (timer_fires now s = true ->
   delay_timer s' = dec (delay_timer s) /\ sound_timer s' = dec (sound_timer s)) /\
  (timer_fires now s = false ->
   delay_timer s' = delay_timer s /\ sound_timer s' = sound_timer s) /\
  0 <= delay_timer s' <= delay_timer s /\
  0 <= sound_timer s' <= sound_timer s.
Proof.
  intros Hr. apply reachable_wf in Hr.
  pose proof (wf_delay_timer s Hr) as Hd. pose proof (wf_sound_timer s Hr) as Hs.
  cbv zeta. unfold timer_driver.
  destruct (timer_fires now s).
  - destruct (Z.eqb_spec (delay_timer s) 0) as [Ed|Ed];
      destruct (Z.eqb_spec (sound_timer s) 0) as [Es|Es]; simpl;
      rewrite ?Ed, ?Es; simpl;
      try destruct (Z.eqb_spec (sound_timer s) 0) as [Es'|Es']; try done; simpl;
      rewrite ?u8_small by lia; repeat split; try done; lia.
  - repeat split; try done; lia.
Qed.

Lemma timer_driver_decrement_witness :
  delay_timer
    (timer_driver 16
       (set_delay_timer 5
          (set_pc 0x204
             (set_registers (<[0%nat := 5]> (replicate 16 0))
                (boot (<[0x200%nat := 0x60]> (<[0x201%nat := 0x05]>
                      (<[0x202%nat := 0xF0]> (<[0x203%nat := 0x15]>
                      (replicate 4096 0)))))))))) = 4.
Proof.
  set (prog := <[0x200%nat := 0x60]> (<[0x201%nat := 0x05]>
                 (<[0x202%nat := 0xF0]> (<[0x203%nat := 0x15]>
                 (replicate 4096 0))))).
  set (s1 := set_pc 0x202 (set_registers (<[0%nat := 5]> (replicate 16 0)) (boot prog))).
  set (s2 := set_delay_timer 5 (set_pc 0x204 s1)).
  assert (Hr : reachable CLAMP s2).
  { apply (reachable_cycle CLAMP (fun _ => false) 0 0 s1).
    - apply (reachable_cycle CLAMP (fun _ => false) 0 0 (boot prog)).
      + apply reachable_boot; [reflexivity|].
        unfold prog. repeat (apply bytes_insert; [|lia]).
        apply Forall_replicate. lia.
      + vm_compute. reflexivity.
    - vm_compute. reflexivity. }
  destruct (timer_driver_decrement CLAMP s2 16 Hr) as (Hfire & _).
  destruct Hfire as [Hd _]; [reflexivity|].
  exact Hd.
Defined.

(** ** 2NNN and 00EE *)

Lemma call_ok (s : machine) (addr : Z) :
  stack_ok s -> 0 <= stack_register s < STACK_SIZE ->
  call addr s
  = Ok (set_pc addr
         (set_stack_register (stack_register s + 1)
            (set_stack (<[Z.to_nat (stack_register s) := u16 (pc s)]> (stack s)) s))).
Proof.
  intros Hk Hsr. unfold call, wr_stack.
  replace (stack_register s <? STACK_SIZE) with true by lia.
  cbn [ERRCHK mbind result_bind].
  rewrite store_in_range by (rewrite Hk; unfold STACK_SIZE in *; lia).
  cbn [mbind result_bind stack_register set_stack].
  rewrite u8_small by (unfold STACK_SIZE in *; lia). reflexivity.
Qed.

Lemma call_full (s : machine) (addr : Z) :
  STACK_SIZE <= stack_register s -> call addr s = Fatal.
Proof.
  intros Hsr. unfold call.
  replace (stack_register s <? STACK_SIZE) with false by lia. reflexivity.
Qed.

Lemma ret_empty (s : machine) : stack_register s = 0 -> ret s = Fatal.
Proof. intros Hsr. unfold ret. rewrite Hsr. reflexivity. Qed.

Lemma ret_ok (s : machine) (p : Z) :
  stack_ok s -> 0 < stack_register s <= STACK_SIZE ->
  stack s !! Z.to_nat (stack_register s - 1) = Some p ->
  ret s = Ok (set_pc p (set_stack_register (stack_register s - 1) s)).
Proof.
  intros Hk Hsr Hp. unfold ret.
  replace (stack_register s =? 0) with false by lia.
  cbn [negb ERRCHK mbind result_bind].
  rewrite u8_small by (unfold STACK_SIZE in *; lia).
  unfold rd_stack. cbn [stack_register set_stack_register stack].
  destruct (load_in_range Stack (stack s) (stack_register s - 1)) as (v & -> & Hv).
  { rewrite Hk. unfold STACK_SIZE in *. lia. }
  cbn [mbind result_bind]. congruence.
Qed.

Lemma rets_cons (f : machine -> machine) (l : list (machine -> machine))
    (s : machine) :
  rets (f :: l) s = s1 ← ret (f s); r ← rets l s1; Ok (pc s1 :: r.1, r.2).
Proof. reflexivity. Qed.

(** Returns after a run of returns. *)
Lemma rets_snoc (l : list (machine -> machine)) (g : machine -> machine) :
  forall s : machine,
    rets (l ++ [g]) s
    = r ← rets l s; s' ← ret (g r.2); Ok (r.1 ++ [pc s'], s').
Proof.
  induction l as [|f l IH]; intros s.
  - cbn [app rets mbind result_bind fst snd]. by destruct (ret (g s)).
  - change ((f :: l) ++ [g]) with (f :: (l ++ [g])). rewrite !rets_cons.
    destruct (ret (f s)) as [s1| |]; [|done..].
    cbn [mbind result_bind]. rewrite IH.
    destruct (rets l s1) as [[ps t]| |]; [|done..].
    cbn [mbind result_bind fst snd]. by destruct (ret (g t)).
Qed.

(** The calls of a run fill the stack from the stack register upwards
    and leave what is below it; as many returns then take the pushed
    program counters off again, last first. *)
Lemma calls_rets (l : list ((machine -> machine) * Z)) :
  forall (fs : list (machine -> machine)) (s : machine),
  stack_ok s -> 0 <= stack_register s ->
  stack_register s + Z.of_nat (length l) <= STACK_SIZE ->
  Forall (fun fa => keeps_stack fa.1) l ->
  Forall keeps_stack fs -> length fs = length l ->
  exists pushed s1 s2,
    calls l s = Ok (pushed, s1) /\
    length pushed = length l /\
    stack_register s1 = stack_register s + Z.of_nat (length l) /\
    stack_ok s1 /\
    (forall i : nat, (i < Z.to_nat (stack_register s))%nat ->
                     stack s1 !! i = stack s !! i) /\
    rets fs s1 = Ok (rev pushed, s2) /\
    stack_register s2 = stack_register s /\
    stack s2 = stack s1.
Proof.
  induction l as [|[f addr] l IH]; intros fs s Hk Hlo Hhi Hl Hfs Hlen.
  - destruct fs; [|done]. exists [], s, s. simpl in *. repeat split; try done; lia.
  - apply Forall_cons in Hl as [Hf Hl]. rewrite length_cons in Hhi, Hlen.
    destruct (Hf s) as (Hfk & Hfr & Hfp). cbn [fst] in *.
    (* the last return pairs with this first call *)
    destruct (decide (fs = [])) as [->|Hne]; [done|].
    destruct (exists_last Hne) as (fs' & g & ->).
    rewrite length_app in Hlen. cbn [length] in Hlen.
    apply Forall_app in Hfs as [Hfs' Hg]. apply Forall_inv in Hg.
    cbn [calls]. rewrite call_ok by (unfold stack_ok; rewrite ?Hfk, ?Hfr; done || lia).
    cbn [mbind result_bind]. rewrite Hfk, Hfr.
    set (s0 := set_pc addr _).
    destruct (IH fs' s0)
      as (pushed & s1 & s2 & Hc & Hpl & Hsr1 & Hk1 & Hpre & Hr & Hsr2 & Hst2);
      try done.
    { unfold stack_ok in *. simpl. by rewrite length_insert. }
    { simpl. lia. }
    { simpl. lia. }
    { lia. }
    rewrite Hc. cbn [mbind result_bind fst snd].
    simpl in Hsr1, Hsr2, Hpre.
    destruct (Hg s2) as (Hgk & Hgr & _).
    assert (Htop : stack (g s2) !! Z.to_nat (stack_register (g s2) - 1)
                   = Some (pc (f s))).
    { rewrite Hgk, Hgr, Hst2, Hsr2, Hpre by lia. unfold s0. simpl.
      replace (stack_register s + 1 - 1) with (stack_register s) by lia.
      rewrite list_lookup_insert_eq
        by (rewrite Hk; unfold STACK_SIZE in *; lia).
      by rewrite u16_small. }
    eexists _, s1, _. split; [reflexivity|].
    split; [by rewrite length_cons, Hpl|].
    split; [rewrite Hsr1, length_cons; lia|]. split; [done|].
    split; [|split; [|split]].
    + intros i Hi. rewrite Hpre by lia. unfold s0. simpl.
      rewrite list_lookup_insert_ne by lia. done.
    + rewrite rets_snoc, Hr. cbn [mbind result_bind fst snd].
      rewrite (ret_ok (g s2) (pc (f s)));
        [| |rewrite Hgr; unfold STACK_SIZE in *; lia|done].
      * cbn [mbind result_bind pc set_pc rev]. reflexivity.
      * unfold stack_ok. by rewrite Hgk, Hst2.
    + cbn [stack_register set_pc set_stack_register]. rewrite Hgr. lia.
    + cbn [stack set_pc set_stack_register]. by rewrite Hgk.
Qed.

(** A cycle that fetches 2NNN runs [call NNN], and one that fetches 00EE
    runs [ret], on the state [before_execute] leaves. *)
Lemma cycle_call (mode : DisplayMode) (keys : Z -> bool) (rand now : Z)
    (s : machine) (opcode : Z) :
  fetch s = Ok opcode -> Z.land opcode 0xf000 = 0x2000 ->
  instruction_cycle mode keys rand now s
  = call (Z.land opcode 0x0fff) (before_execute now s).
Proof.
  intros Hf Hclass. unfold instruction_cycle.
  rewrite fetch_timer_driver, Hf. cbn [mbind result_bind].
  unfold execute. rewrite Hclass. reflexivity.
Qed.

Lemma cycle_ret (mode : DisplayMode) (keys : Z -> bool) (rand now : Z)
    (s : machine) :
  fetch s = Ok 0x00EE ->
  instruction_cycle mode keys rand now s = ret (before_execute now s).
Proof.
  intros Hf. unfold instruction_cycle.
  rewrite fetch_timer_driver, Hf. reflexivity.
Qed.

Lemma before_execute_keeps_stack (now : Z) : keeps_stack (before_execute now).
Proof.
  intros s. unfold before_execute.
  destruct (timer_driver_frame now s) as (_ & _ & Hk & _ & _ & _ & Hr).
  cbn [stack stack_register pc set_pc]. rewrite Hk, Hr.
  repeat split; try done; apply u16_range.
Qed.

(** C4: from a call stack of depth [d], a run of [N] calls with
    [d + N <= 24] followed by [N] returns, with nothing in between that
    touches the call stack, restores the pushed post-fetch program
    counters in reverse order and brings the depth back to [d]; starting
    from the empty stack, a 25th call after 24 is fatal, and so is a
    return on the stack emptied again. *)
Theorem call_ret_roundtrip (s : machine)
    (l : list ((machine -> machine) * Z)) (fs : list (machine -> machine)) :
  stack_ok s -> 0 <= stack_register s ->
  stack_register s + Z.of_nat (length l) <= STACK_SIZE ->
  Forall (fun fa => keeps_stack fa.1) l ->
  Forall keeps_stack fs -> length fs = length l ->
  exists pushed s1 s2,
    calls l s = Ok (pushed, s1) /\
    length pushed = length l /\
    rets fs s1 = Ok (rev pushed, s2) /\
    stack_register s2 = stack_register s /\
    (stack_register s = 0 -> length l = 24%nat ->
     forall f addr, keeps_stack f -> call addr (f s1) = Fatal) /\
    (stack_register s = 0 ->
     forall f, keeps_stack f -> ret (f s2) = Fatal).
Proof.
  intros Hk Hlo Hhi Hl Hfs Hlen.
  destruct (calls_rets l fs s Hk Hlo Hhi Hl Hfs Hlen)
    as (pushed & s1 & s2 & Hc & Hpl & Hsr1 & _ & _ & Hr & Hsr2 & _).
  exists pushed, s1, s2. repeat split; try done.
  - intros H0 H24 f addr Hf. apply call_full.
    destruct (Hf s1) as (_ & -> & _). unfold STACK_SIZE. lia.
  - intros H0 f Hf. apply ret_empty.
    destruct (Hf s2) as (_ & -> & _). lia.
Qed.

Lemma call_ret_roundtrip_witness :
  exists s1 s2,
    calls [(before_execute 0, 0x300); (set_pc 0x302, 0x400);
           (set_pc 0x402, 0x500)] initial
    = Ok ([0x202; 0x302; 0x402], s1) /\
    rets [set_pc 0x502; set_pc 0x404; set_pc 0x304] s1
    = Ok ([0x402; 0x302; 0x202], s2) /\
    ret (before_execute 0 s2) = Fatal.
Proof.
  assert (Hset : forall p, 0 <= p < 65536 -> keeps_stack (set_pc p))
    by (intros p Hp s; done).
  destruct (call_ret_roundtrip initial
              [(before_execute 0, 0x300); (set_pc 0x302, 0x400);
               (set_pc 0x402, 0x500)]
              [set_pc 0x502; set_pc 0x404; set_pc 0x304])
    as (pushed & s1 & s2 & Hc & _ & Hr & _ & _ & He).
  - reflexivity.
  - simpl. lia.
  - simpl. unfold STACK_SIZE. lia.
  - repeat (apply Forall_cons_2 || apply Forall_nil_2); cbn [fst];
      first [apply before_execute_keeps_stack | apply Hset; lia].
  - repeat (apply Forall_cons_2 || apply Forall_nil_2); apply Hset; lia.
  - reflexivity.
  - assert (Hpushed : pushed = [0x202; 0x302; 0x402]).
    { revert Hc. vm_compute. intros Hc. injection Hc as <- _. reflexivity. }
    subst pushed. exists s1, s2. split; [exact Hc|]. split; [exact Hr|].
    apply He; [reflexivity|apply before_execute_keeps_stack].
Defined.

(** ** FX55 and FX65 *)

Lemma rd_mem_ok (s : machine) (i : Z) :
  mem_ok s -> 0 <= i < MEMORY_SIZE ->
  exists m, rd_mem i s = Ok m /\ memory s !! Z.to_nat i = Some m.
Proof.
  intros Hm Hi. apply load_in_range. rewrite Hm. unfold MEMORY_SIZE in *. lia.
Qed.

(** The loop of [reg_dump], started at register [k]: [n] registers go to
    the cells from [address_register + k]; the cells below are not
    touched, the registers neither. *)
Lemma reg_dump_loop (n : nat) : forall (k : Z) (s : machine),
  regs_ok s -> mem_ok s ->
  0 <= k -> k + Z.of_nat n <= REGISTER_COUNT ->
  0 <= address_register s ->
  address_register s + k + Z.of_nat n <= MEMORY_SIZE ->
  exists s',
    for_loop n k (fun i s => ri ← rd_reg i s;
                             wr_mem (address_register s + i) ri s) s = Ok s' /\
    registers s' = registers s /\
    address_register s' = address_register s /\
    mem_ok s' /\
    (forall i, k <= i < k + Z.of_nat n ->
       memory s' !! Z.to_nat (address_register s + i) = Some (u8 (regv s i))) /\
    (forall j : nat, Z.of_nat j < address_register s + k ->
       memory s' !! j = memory s !! j).
Proof.
  induction n as [|n IH]; intros k s Hr Hm Hk Hkn Ha Han.
  - exists s. repeat split; try done. intros i Hi. lia.
  - cbn [for_loop].
    rewrite rd_reg_ok by range. cbn [mbind result_bind].
    rewrite wr_mem_ok by range. cbn [mbind result_bind].
    set (s0 := set_memory _ s).
    destruct (IH (k + 1) s0) as (s' & Hrun & Hregs & Haddr & Hm' & Hcells & Hlow);
      try (subst s0; range).
    exists s'. split; [exact Hrun|]. subst s0. simpl in *.
    repeat split; try done.
    + intros i Hi. destruct (decide (i = k)) as [->|Hne].
      * rewrite Hlow by lia.
        rewrite list_lookup_insert_eq; [done|]. range.
      * rewrite Hcells by lia. done.
    + intros j Hj. rewrite Hlow by lia.
      rewrite list_lookup_insert_ne by lia. done.
Qed.

(** The loop of [reg_load], started at register [k]. *)
Lemma reg_load_loop (n : nat) : forall (k : Z) (s : machine),
  regs_ok s -> mem_ok s ->
  0 <= k -> k + Z.of_nat n <= REGISTER_COUNT ->
  0 <= address_register s ->
  address_register s + k + Z.of_nat n <= MEMORY_SIZE ->
  exists s',
    for_loop n k (fun i s => ERRCHK (address_register s + i <? MEMORY_SIZE);;
                             m ← rd_mem (address_register s + i) s;
                             wr_reg i m s) s = Ok s' /\
    memory s' = memory s /\
    address_register s' = address_register s /\
    regs_ok s' /\
    (forall i, k <= i < k + Z.of_nat n ->
       registers s' !! Z.to_nat i
       = u8 <$> memory s !! Z.to_nat (address_register s + i)) /\
    (forall j : nat, Z.of_nat j < k -> registers s' !! j = registers s !! j).
Proof.
  induction n as [|n IH]; intros k s Hr Hm Hk Hkn Ha Han.
  - exists s. repeat split; try done. intros i Hi. lia.
  - cbn [for_loop].
    replace (address_register s + k <? MEMORY_SIZE) with true by lia.
    cbn [ERRCHK mbind result_bind].
    destruct (rd_mem_ok s (address_register s + k)) as (m & -> & Hcell);
      [done|lia|].
    cbn [mbind result_bind].
    rewrite wr_reg_ok by range. cbn [mbind result_bind].
    set (s0 := set_registers _ s).
    destruct (IH (k + 1) s0) as (s' & Hrun & Hmem & Haddr & Hr' & Hregs & Hlow);
      try (subst s0; range).
    exists s'. split; [exact Hrun|]. subst s0. simpl in *.
    repeat split; try done.
    + intros i Hi. destruct (decide (i = k)) as [->|Hne].
      * rewrite Hlow by lia.
        rewrite list_lookup_insert_eq by range. by rewrite Hcell.
      * rewrite Hregs by lia. done.
    + intros j Hj. rewrite Hlow by lia.
      rewrite list_lookup_insert_ne by lia. done.
Qed.

Lemma reg_dump_ok (s : machine) (vx : Z) :
  regs_ok s -> mem_ok s -> 0 <= vx < REGISTER_COUNT ->
  0 <= address_register s -> address_register s + vx < MEMORY_SIZE ->
  exists s',
    reg_dump vx s = Ok s' /\
    registers s' = registers s /\
    address_register s' = address_register s /\
    mem_ok s' /\
    (forall i, 0 <= i <= vx ->
       memory s' !! Z.to_nat (address_register s + i) = Some (u8 (regv s i))).
Proof.
  intros Hr Hm Hx Ha Hax. unfold reg_dump.
  replace (vx <? REGISTER_COUNT) with true by lia. cbn [ERRCHK mbind result_bind].
  destruct (reg_dump_loop (Z.to_nat (vx + 1)) 0 s)
    as (s' & Hrun & Hregs & Haddr & Hm' & Hcells & _); try done; try lia.
  exists s'. repeat split; try done. intros i Hi. apply Hcells. lia.
Qed.

Lemma reg_load_ok (s : machine) (vx : Z) :
  regs_ok s -> mem_ok s -> 0 <= vx < REGISTER_COUNT ->
  0 <= address_register s -> address_register s + vx < MEMORY_SIZE ->
  exists s',
    reg_load vx s = Ok s' /\
    memory s' = memory s /\
    address_register s' = address_register s /\
    (forall i, 0 <= i <= vx ->
       registers s' !! Z.to_nat i
       = u8 <$> memory s !! Z.to_nat (address_register s + i)).
Proof.
  intros Hr Hm Hx Ha Hax. unfold reg_load.
  replace (vx <? REGISTER_COUNT) with true by lia. cbn [ERRCHK mbind result_bind].
  destruct (reg_load_loop (Z.to_nat (vx + 1)) 0 s)
    as (s' & Hrun & Hmem & Haddr & _ & Hregs & _); try done; try lia.
  exists s'. repeat split; try done. intros i Hi. apply Hregs. lia.
Qed.

(** C5: with N < 16 and the cells [I .. I + N] inside the memory, FX55
    followed by FX65 with the same N and the same address register, both
    return, and registers 0..N hold their original values afterwards,
    whatever the register file was overwritten with in between (and in
    particular when it was left alone). *)
Theorem reg_dump_load_roundtrip (s : machine) (vx : Z) :
  regs_ok s -> bytes (registers s) -> mem_ok s ->
  0 <= vx < REGISTER_COUNT ->
  0 <= address_register s -> address_register s + vx < MEMORY_SIZE ->
  exists s1,
    reg_dump vx s = Ok s1 /\
    (exists s2, reg_load vx s1 = Ok s2 /\
       forall i, 0 <= i <= vx ->
         registers s2 !! Z.to_nat i = registers s !! Z.to_nat i) /\
    (forall clobbered : list Z,
       length clobbered = Z.to_nat REGISTER_COUNT ->
       exists s2, reg_load vx (set_registers clobbered s1) = Ok s2 /\
         forall i, 0 <= i <= vx ->
           registers s2 !! Z.to_nat i = registers s !! Z.to_nat i).
Proof.
  intros Hr Hb Hm Hx Ha Hax.
  destruct (reg_dump_ok s vx) as (s1 & Hdump & Hregs & Haddr & Hm1 & Hcells);
    try done.
  assert (Hback : forall regs : list Z,
    length regs = Z.to_nat REGISTER_COUNT ->
    forall s2, reg_load vx (set_registers regs s1) = Ok s2 ->
    forall i, 0 <= i <= vx ->
      registers s2 !! Z.to_nat i = registers s !! Z.to_nat i).
  { intros regs Hlen s2 Hload i Hi.
    destruct (reg_load_ok (set_registers regs s1) vx)
      as (s2' & Hload' & _ & _ & Hl); try done; try (simpl; lia).
    rewrite Hload in Hload'. injection Hload' as <-.
    rewrite Hl by done. simpl. rewrite Haddr, Hcells by done. simpl.
    pose proof (regv_byte s i Hb) as Hv. rewrite !u8_small by (rewrite ?u8_small; lia).
    unfold regv.
    destruct (lookup_lt_is_Some_2 (registers s) (Z.to_nat i)) as [v ->]; [|done].
    rewrite Hr. unfold REGISTER_COUNT in *. lia. }
  assert (Hruns : forall regs : list Z,
    length regs = Z.to_nat REGISTER_COUNT ->
    exists s2, reg_load vx (set_registers regs s1) = Ok s2).
  { intros regs Hlen.
    destruct (reg_load_ok (set_registers regs s1) vx)
      as (s2 & Hload & _); try done; try (simpl; lia). by exists s2. }
  exists s1. split; [exact Hdump|]. split.
  - destruct (Hruns (registers s1)) as (s2 & Hload); [by rewrite Hregs|].
    assert (Heta : set_registers (registers s1) s1 = s1) by (by destruct s1).
    rewrite Heta in *. exists s2. split; [exact Hload|].
    apply (Hback (registers s1)); [by rewrite Hregs|by rewrite Heta].
  - intros regs Hlen. destruct (Hruns regs Hlen) as (s2 & Hload).
    exists s2. split; [exact Hload|]. by apply (Hback regs).
Qed.

Lemma reg_dump_load_roundtrip_witness :
  exists s1 s2,
    reg_dump 2 (set_address_register 0xFFD
                  (set_registers (<[0%nat := 7]> (<[1%nat := 200]> (<[2%nat := 255]>
                     (replicate 16 0)))) initial)) = Ok s1 /\
    reg_load 2 (set_registers (replicate 16 9) s1) = Ok s2 /\
    (registers s2 !! 0%nat, registers s2 !! 1%nat, registers s2 !! 2%nat)
    = (Some 7, Some 200, Some 255).
Proof.
  destruct (reg_dump_load_roundtrip
              (set_address_register 0xFFD
                  (set_registers (<[0%nat := 7]> (<[1%nat := 200]> (<[2%nat := 255]>
                     (replicate 16 0)))) initial)) 2)
    as (s1 & Hdump & _ & Hclob).
  - reflexivity.
  - apply bytes_check. reflexivity.
  - reflexivity.
  - unfold REGISTER_COUNT. lia.
  - simpl. lia.
  - simpl. unfold MEMORY_SIZE. lia.
  - destruct (Hclob (replicate 16 9)) as (s2 & Hload & Hsame); [reflexivity|].
    exists s1, s2. split; [exact Hdump|]. split; [exact Hload|].
    pose proof (Hsame 0 ltac:(lia)) as H0.
    pose proof (Hsame 1 ltac:(lia)) as H1.
    pose proof (Hsame 2 ltac:(lia)) as H2.
    change (Z.to_nat 0) with 0%nat in H0. change (Z.to_nat 1) with 1%nat in H1.
    change (Z.to_nat 2) with 2%nat in H2.
    rewrite H0, H1, H2. reflexivity.
Defined.

(** ** 8XY4, 8XY5, 8XY6, 8XY7, 8XYE *)

(** Run a handler that only reads and writes registers. *)
Ltac run_regs :=
  repeat (first
    [ rewrite rd_reg_ok by (repeat apply regs_ok_set; range)
    | rewrite wr_reg_ok by (repeat apply regs_ok_set; range) ];
    cbn [mbind result_bind]).

Lemma regv_after (s : machine) (i j v : Z) :
  regs_ok s -> 0 <= i < REGISTER_COUNT -> 0 <= j < REGISTER_COUNT ->
  regv (set_registers (<[Z.to_nat i := v]> (registers s)) s) j
  = if i =? j then v else regv s j.
Proof.
  intros Hs Hi Hj. destruct (Z.eqb_spec i j) as [->|Hne].
  - by apply regv_set_eq.
  - apply regv_set_ne; lia.
Qed.

Lemma flag_shr_bit (x : Z) : 0 <= x < 256 -> 0 <= flag_shr x <= 1.
Proof.
  intros Hx. unfold flag_shr. change (Z.land x 1) with (Z.land x (Z.ones 1)).
  rewrite Z.land_ones by lia. change (2 ^ 1) with 2. zdiv.
Qed.

Lemma flag_shl_bit (x : Z) : 0 <= x < 256 -> 0 <= flag_shl x <= 1.
Proof.
  intros Hx. unfold flag_shl. rewrite Z.shiftr_div_pow2 by lia.
  change (2 ^ 7) with 128. zdiv.
Qed.

Lemma b2z_bit (b : bool) : 0 <= b2z b <= 1.
Proof. destruct b; simpl; lia. Qed.

(** Away from the two aliasings, the five handlers leave the flag they
    are meant to: 8XY4 unless X = Y, the other four unless X = 15. *)
Lemma flags_without_aliasing (s : machine) (x y : Z) :
  regs_ok s -> bytes (registers s) ->
  0 <= x < REGISTER_COUNT -> 0 <= y < REGISTER_COUNT ->
  (x <> y -> exists s', add_reg x y s = Ok s' /\
     regv s' 0xf = flag_add (regv s x) (regv s y)) /\
  (x <> 0xf -> exists s', sub_reg x y s = Ok s' /\
     regv s' 0xf = flag_sub (regv s x) (regv s y)) /\
  (x <> 0xf -> exists s', subn_reg x y s = Ok s' /\
     regv s' 0xf = flag_subn (regv s x) (regv s y)) /\
  (x <> 0xf -> exists s', shr_reg x s = Ok s' /\
     regv s' 0xf = flag_shr (regv s x)) /\
  (x <> 0xf -> exists s', shl_reg x s = Ok s' /\
     regv s' 0xf = flag_shl (regv s x)).
Proof.
  intros Hs Hb Hx Hy.
  pose proof (regv_byte s x Hb) as Hvx. pose proof (regv_byte s y Hb) as Hvy.
  assert (H15 : 0 <= 0xf < REGISTER_COUNT) by (unfold REGISTER_COUNT; lia).
  repeat split; intros Hne.
  - unfold add_reg. run_regs. eexists; split; [reflexivity|].
    rewrite regv_after by (repeat apply regs_ok_set; range).
    rewrite Z.eqb_refl, !regv_after by range.
    rewrite Z.eqb_refl. replace (x =? y) with false by lia.
    unfold flag_add, u8.
    destruct (Z.ltb_spec 255 (regv s x + regv s y)) as [Hc|Hc].
    + replace ((regv s x + regv s y) mod 256) with (regv s x + regv s y - 256)
        by (apply Z.mod_unique with (q := 1); lia).
      replace (regv s x + regv s y - 256 <? regv s y) with true by lia. done.
    + rewrite (Z.mod_small (regv s x + regv s y)) by lia.
      replace (regv s x + regv s y <? regv s y) with false by lia. done.
  - unfold sub_reg. run_regs. eexists; split; [reflexivity|].
    rewrite regv_after by (repeat apply regs_ok_set; range).
    replace (x =? 15) with false by lia.
    rewrite regv_after, Z.eqb_refl by range.
    unfold flag_sub. apply u8_small. pose proof (b2z_bit (regv s y <? regv s x)). lia.
  - unfold subn_reg. run_regs. eexists; split; [reflexivity|].
    rewrite regv_after by (repeat apply regs_ok_set; range).
    replace (x =? 15) with false by lia.
    rewrite regv_after, Z.eqb_refl by range.
    unfold flag_subn. apply u8_small. pose proof (b2z_bit (regv s x <? regv s y)). lia.
  - unfold shr_reg. run_regs. eexists; split; [reflexivity|].
    rewrite regv_after by (repeat apply regs_ok_set; range).
    replace (x =? 15) with false by lia.
    rewrite regv_after, Z.eqb_refl by range.
    apply u8_small. pose proof (flag_shr_bit (regv s x) Hvx). unfold flag_shr in *. lia.
  - unfold shl_reg. run_regs. eexists; split; [reflexivity|].
    rewrite regv_after by (repeat apply regs_ok_set; range).
    replace (x =? 15) with false by lia.
    rewrite regv_after, Z.eqb_refl by range.
    apply u8_small. pose proof (flag_shl_bit (regv s x) Hvx). unfold flag_shl in *. lia.
Qed.

(** C1, on the code: the flag is not always the documented bit, nor
    always 0 or 1.  8FFE on VF = 0x80 stores the shifted-out bit 1 in
    VF and then shifts VF itself, leaving 2; 8F05 on VF = 5, V0 = 3
    leaves 254; 8F06 on VF = 1 leaves 0 for a shifted-out bit of 1;
    8004 on V0 = 200 wraps to 144 and leaves flag 0 for a carry of 1. *)
Theorem flag_clobbered_when_aliased :
  (exists s, cycles CLAMP no_keys 0 0 2 (boot (loaded [0x6F; 0x80; 0x8F; 0xFE])) = Ok s /\
     regv s 0xf = 2 /\ flag_shl 0x80 = 1) /\
  (exists s, cycles CLAMP no_keys 0 0 3
               (boot (loaded [0x6F; 0x05; 0x60; 0x03; 0x8F; 0x05])) = Ok s /\
     regv s 0xf = 254 /\ flag_sub 5 3 = 1) /\
  (exists s, cycles CLAMP no_keys 0 0 2 (boot (loaded [0x6F; 0x01; 0x8F; 0x06])) = Ok s /\
     regv s 0xf = 0 /\ flag_shr 1 = 1) /\
  (exists s, cycles CLAMP no_keys 0 0 2 (boot (loaded [0x60; 0xC8; 0x80; 0x04])) = Ok s /\
     regv s 0 = 144 /\ regv s 0xf = 0 /\ flag_add 200 200 = 1).
Proof.
  repeat split; (eexists; split; [vm_compute; reflexivity|]); by vm_compute.
Qed.

(** ** 7XNN *)

(** C9: the add-immediate instruction (7XNN) with a destination other
    than register 15 returns, leaves the flag register and every register
    other than X as they were, and stores the wrapped sum in X: no carry
    is recorded.  The register-register add (8XY4) on the same
    destination does leave the carry of its sum in the flag register. *)
Theorem add_immediate_frame (s : machine) (vx val : Z) :
  regs_ok s -> 0 <= vx < REGISTER_COUNT -> vx <> 0xf ->
  (exists s', add vx val s = Ok s' /\
     regv s' 0xf = regv s 0xf /\
     (forall i : nat, i <> Z.to_nat vx -> registers s' !! i = registers s !! i) /\
     regv s' vx = u8 (regv s vx + val)) /\
  (forall vy, bytes (registers s) -> 0 <= vy < REGISTER_COUNT -> vy <> vx ->
     exists s', add_reg vx vy s = Ok s' /\
       regv s' 0xf = flag_add (regv s vx) (regv s vy)).
Proof.
  intros Hs Hx H15. split.
  - unfold add. rewrite rd_reg_ok by done. cbn [mbind result_bind].
    rewrite wr_reg_ok by done. eexists; split; [reflexivity|].
    split; [|split].
    + apply regv_set_ne; unfold REGISTER_COUNT in *; lia.
    + intros i Hi. simpl. by rewrite list_lookup_insert_ne.
    + by apply regv_set_eq.
  - intros vy Hb Hy Hne.
    destruct (flags_without_aliasing s vx vy Hs Hb Hx Hy) as (Hadd & _).
    apply Hadd. congruence.
Qed.

Lemma add_immediate_frame_witness :
  exists s', add 3 200 (set_registers (<[3%nat := 100]> (registers initial)) initial) = Ok s' /\
    regv s' 0xf = 0 /\ regv s' 3 = 44.
Proof.
  destruct (add_immediate_frame
              (set_registers (<[3%nat := 100]> (registers initial)) initial) 3 200)
    as ((s' & H & Hf & _ & Hx) & _).
  - reflexivity.
  - unfold REGISTER_COUNT; lia.
  - lia.
  - exists s'. split; [exact H|]. split; [exact Hf|exact Hx].
Defined.

(** ** FX55 and FX65 past the end of the memory *)

(** [reg_load] checks every cell before it reads it: it returns or fails
    fatally, and never reads outside the memory. *)
Lemma reg_load_loop_safe (n : nat) : forall (k : Z) (s : machine),
  regs_ok s -> mem_ok s -> 0 <= k -> k + Z.of_nat n <= REGISTER_COUNT ->
  0 <= address_register s ->
  match for_loop n k (fun i s => ERRCHK (address_register s + i <? MEMORY_SIZE);;
                                 m ← rd_mem (address_register s + i) s;
                                 wr_reg i m s) s with
  | Ok _ | Fatal => True
  | OutOfBounds _ _ => False
  end.
Proof.
  induction n as [|n IH]; intros k s Hr Hm Hk Hkn Ha; [done|].
  cbn [for_loop].
  destruct (Z.ltb_spec (address_register s + k) MEMORY_SIZE) as [Hin|Hout];
    cbn [ERRCHK mbind result_bind]; [|done].
  destruct (rd_mem_ok s (address_register s + k)) as (m & -> & _); [done|lia|].
  cbn [mbind result_bind].
  rewrite wr_reg_ok by range. cbn [mbind result_bind].
  apply IH; try range.
Qed.

Lemma reg_load_safe (s : machine) (vx : Z) :
  regs_ok s -> mem_ok s -> 0 <= vx -> 0 <= address_register s ->
  match reg_load vx s with
  | Ok _ | Fatal => True
  | OutOfBounds _ _ => False
  end.
Proof.
  intros Hr Hm Hx Ha. unfold reg_load.
  destruct (Z.ltb_spec vx REGISTER_COUNT) as [Hlt|Hge];
    cbn [ERRCHK mbind result_bind]; [|done].
  apply reg_load_loop_safe; try done; try lia.
Qed.

(** [reg_dump] has no such check: once the transfer reaches the end of
    the memory, the next cell it writes is outside. *)
Lemma reg_dump_loop_overrun (n : nat) : forall (k : Z) (s : machine),
  regs_ok s -> mem_ok s -> 0 <= k -> k + Z.of_nat n < REGISTER_COUNT ->
  0 <= address_register s ->
  MEMORY_SIZE <= address_register s + k + Z.of_nat n ->
  for_loop (S n) k (fun i s => ri ← rd_reg i s;
                               wr_mem (address_register s + i) ri s) s
  = OutOfBounds Memory (Z.max (address_register s + k) MEMORY_SIZE).
Proof.
  induction n as [|n IH]; intros k s Hr Hm Hk Hkn Ha Hover.
  - cbn [for_loop]. rewrite rd_reg_ok by range. cbn [mbind result_bind].
    unfold wr_mem. rewrite store_out_of_range by range.
    cbn [mbind result_bind]. f_equal. lia.
  - change (for_loop (S (S n)) k ?body s)
      with (s' ← body k s; for_loop (S n) (k + 1) body s').
    cbn beta. rewrite rd_reg_ok by range. cbn [mbind result_bind].
    destruct (Z.ltb_spec (address_register s + k) MEMORY_SIZE) as [Hin|Hout].
    + rewrite wr_mem_ok by range. cbn [mbind result_bind].
      rewrite IH; try range.
      cbn [address_register set_memory]. f_equal. lia.
    + unfold wr_mem. rewrite store_out_of_range by range.
      cbn [mbind result_bind]. f_equal. lia.
Qed.

Lemma reg_dump_overrun (s : machine) (vx : Z) :
  regs_ok s -> mem_ok s -> 0 <= vx < REGISTER_COUNT ->
  0 <= address_register s -> MEMORY_SIZE <= address_register s + vx ->
  reg_dump vx s = OutOfBounds Memory (Z.max (address_register s) MEMORY_SIZE).
Proof.
  intros Hr Hm Hx Ha Hover. unfold reg_dump.
  replace (vx <? REGISTER_COUNT) with true by lia. cbn [ERRCHK mbind result_bind].
  replace (Z.to_nat (vx + 1)) with (S (Z.to_nat vx)) by lia.
  rewrite reg_dump_loop_overrun; try done; try lia.
  f_equal. lia.
Qed.

(** C2, on the code: the program AFFF, F155 sets the address register to
    0xFFF and stores registers 0 and 1; the handler does not fail
    fatally, it writes register 1 to cell 4096, outside the memory.
    The same program with F165 in place of F155 does fail fatally. *)
Theorem reg_dump_writes_past_memory :
  cycles CLAMP no_keys 0 0 2 (boot (loaded [0xAF; 0xFF; 0xF1; 0x55]))
  = OutOfBounds Memory 4096 /\
  cycles CLAMP no_keys 0 0 2 (boot (loaded [0xAF; 0xFF; 0xF1; 0x65])) = Fatal.
Proof. split; vm_compute; reflexivity. Qed.

(** ** DXYN *)

Lemma display_idx_ok (i j : Z) :
  0 <= i < DISPLAY_WIDTH -> 0 <= j < DISPLAY_HEIGHT ->
  display_idx i j = Ok (i + j * DISPLAY_WIDTH).
Proof.
  intros Hi Hj. unfold display_idx.
  replace (i <? DISPLAY_WIDTH) with true by lia.
  replace (j <? DISPLAY_HEIGHT) with true by lia.
  cbn [ERRCHK mbind result_bind]. f_equal.
  unfold u32. apply Z.mod_small. unfold DISPLAY_WIDTH, DISPLAY_HEIGHT in *. lia.
Qed.

(** What [plot] does to one cell inside the display. *)
Lemma plot_ok (s : machine) (i j : Z) :
  regs_ok s -> display_ok s ->
  0 <= i < DISPLAY_WIDTH -> 0 <= j < DISPLAY_HEIGHT ->
  exists d,
    display s !! Z.to_nat (i + j * DISPLAY_WIDTH) = Some d /\
    plot i j s
    = Ok (set_display
            (<[Z.to_nat (i + j * DISPLAY_WIDTH) := u8 (Z.lxor d 1)]> (display s))
            (if negb (d =? 0)
             then set_registers (<[Z.to_nat 0xf := u8 0x1]> (registers s)) s
             else s)).
Proof.
  intros Hr Hd Hi Hj. unfold plot.
  rewrite display_idx_ok by done. cbn [mbind result_bind].
  assert (Hidx : 0 <= i + j * DISPLAY_WIDTH < Z.of_nat (length (display s))).
  { rewrite Hd. unfold DISPLAY_WIDTH, DISPLAY_HEIGHT in *. lia. }
  destruct (load_in_range Display (display s) _ Hidx) as (d & Hload & Hcell).
  assert (Hrd : rd_display (i + j * DISPLAY_WIDTH) s = Ok d) by exact Hload.
  rewrite Hrd. cbn [mbind result_bind].
  exists d. split; [exact Hcell|].
  destruct (negb (d =? 0)).
  - rewrite wr_reg_ok by range. cbn [mbind result_bind].
    unfold rd_display, wr_display. cbn [display set_registers].
    rewrite Hload. cbn [mbind result_bind].
    rewrite store_in_range by done. reflexivity.
  - cbn [mbind result_bind]. unfold rd_display, wr_display.
    rewrite Hload. cbn [mbind result_bind].
    rewrite store_in_range by done. reflexivity.
Qed.

Lemma plot_inv (s : machine) (i j : Z) :
  draw_inv s -> 0 <= i < DISPLAY_WIDTH -> 0 <= j < DISPLAY_HEIGHT ->
  exists s', plot i j s = Ok s' /\ draw_inv s'.
Proof.
  intros [Hr Hd] Hi Hj. destruct (plot_ok s i j) as (d & _ & ->); try done.
  eexists; split; [reflexivity|].
  unfold draw_inv, regs_ok, display_ok in *.
  destruct (negb (d =? 0)); simpl; rewrite ?length_insert; done.
Qed.

Lemma for_loop_display_safe (P : machine -> Prop)
    (body : Z -> machine -> result machine) :
  (forall i s, 0 <= i -> P s -> display_safe P (body i s)) ->
  forall n i s, 0 <= i -> P s -> display_safe P (for_loop n i body s).
Proof.
  intros Hbody n. induction n as [|n IH]; intros i s Hi Hs; [done|].
  cbn [for_loop]. pose proof (Hbody i s Hi Hs) as Hb.
  destruct (body i s) as [s'| |[]]; try done.
  cbn [mbind result_bind]. apply IH; [lia|done].
Qed.

Lemma for_loop_break_display_safe (P : machine -> Prop)
    (body : Z -> machine -> result flow) :
  (forall i s, 0 <= i -> P s ->
     display_safe (fun f => P (flow_state f)) (body i s)) ->
  forall n i s, 0 <= i -> P s -> display_safe P (for_loop_break n i body s).
Proof.
  intros Hbody n. induction n as [|n IH]; intros i s Hi Hs; [done|].
  cbn [for_loop_break]. pose proof (Hbody i s Hi Hs) as Hb.
  destruct (body i s) as [[s'|s']| |[]]; try done.
  cbn [mbind result_bind]. apply IH; [lia|done].
Qed.

Lemma draw_pixel_wrap_safe (i0 j0 j1 i1 : Z) (s : machine) :
  0 <= i0 -> 0 <= j0 -> 0 <= j1 -> 0 <= i1 -> draw_inv s ->
  display_safe (fun f => draw_inv (flow_state f)) (draw_pixel WRAP i0 j0 j1 i1 s).
Proof.
  intros Hi0 Hj0 Hj1 Hi1 Hs. unfold draw_pixel, rd_mem.
  destruct (decide (0 <= address_register s + j1
                    < Z.of_nat (length (memory s)))) as [Hin|Hout].
  - destruct (load_in_range Memory (memory s) _ Hin) as (b & -> & _).
    cbn [mbind result_bind].
    destruct (negb _); [|done].
    pose proof (Z.rem_bound_pos (i0 + i1) DISPLAY_WIDTH ltac:(lia) ltac:(done)) as Hi.
    pose proof (Z.rem_bound_pos (j0 + j1) DISPLAY_HEIGHT ltac:(lia) ltac:(done)) as Hj.
    rewrite !u8_small by (unfold DISPLAY_WIDTH, DISPLAY_HEIGHT in *; lia).
    destruct (plot_inv s _ _ Hs Hi Hj) as (s' & -> & Hs'). done.
  - by rewrite load_out_of_range.
Qed.

(** Under the wrap policy [draw] never fails a bound check of
    [display_idx] and never indexes the display outside of its 64 x 32
    cells, whatever the registers, the height and the display hold. *)
Lemma draw_wrap_in_bounds (s : machine) (vx vy height : Z) :
  regs_ok s -> bytes (registers s) -> display_ok s ->
  0 <= vx < REGISTER_COUNT -> 0 <= vy < REGISTER_COUNT ->
  display_safe draw_inv (draw WRAP vx vy height s).
Proof.
  intros Hr Hb Hd Hx Hy. unfold draw. run_regs.
  pose proof (regv_byte s vx Hb) as Hvx. pose proof (regv_byte s vy Hb) as Hvy.
  apply (for_loop_display_safe draw_inv); [|lia|].
  - intros j1 t Hj1 Ht. unfold draw_row.
    apply (for_loop_break_display_safe draw_inv); [|lia|done].
    intros i1 u Hi1 Hu. apply draw_pixel_wrap_safe; try done; lia.
  - split; [by apply regs_ok_set|done].
Qed.

Lemma for_loop_preserves_range (P : machine -> Prop)
    (body : Z -> machine -> result machine) (n : nat) :
  forall i s s',
    (forall k t t', i <= k < i + Z.of_nat n -> P t -> body k t = Ok t' -> P t') ->
    P s -> for_loop n i body s = Ok s' -> P s'.
Proof.
  induction n as [|n IH]; intros i s s' Hbody Hs Hrun; cbn [for_loop] in Hrun.
  - by inv_run.
  - inv_run. eapply (IH (i + 1)); [|eapply (Hbody i); [lia|exact Hs|exact Ha]|exact Hrun].
    intros k t t' Hk. apply Hbody. lia.
Qed.

Lemma for_loop_break_preserves_range (P : machine -> Prop)
    (body : Z -> machine -> result flow) (n : nat) :
  forall i s s',
    (forall k t f, i <= k < i + Z.of_nat n -> P t -> body k t = Ok f ->
                   P (flow_state f)) ->
    P s -> for_loop_break n i body s = Ok s' -> P s'.
Proof.
  induction n as [|n IH]; intros i s s' Hbody Hs Hrun; cbn [for_loop_break] in Hrun.
  - by inv_run.
  - inv_run. pose proof (Hbody i s a ltac:(lia) Hs Ha) as Hf.
    destruct a as [t|t]; simpl in Hf; [|by inv_run].
    eapply (IH (i + 1)); [|exact Hf|exact Hrun].
    intros k u f Hk. apply Hbody. lia.
Qed.

(** Under the clamp policy, as long as neither coordinate sum passes
    255, [draw] changes no display cell other than those under the part
    of the sprite that lies inside the display: what is at or past the
    edge is not drawn. *)
Lemma draw_clamp_clips (s s' : machine) (vx vy height : Z) :
  regs_ok s -> bytes (registers s) -> display_ok s ->
  0 <= vx < REGISTER_COUNT -> 0 <= vy < REGISTER_COUNT ->
  regv s vx + 8 <= 256 -> regv s vy + height <= 256 ->
  draw CLAMP vx vy height s = Ok s' ->
  forall c : nat,
    ~ sprite_cell (regv s vx) (regv s vy) height c ->
    display s' !! c = display s !! c.
Proof.
  intros Hr Hb Hd Hx Hy Hnx Hny Hrun.
  pose proof (regv_byte s vx Hb) as Hvx. pose proof (regv_byte s vy Hb) as Hvy.
  unfold draw in Hrun. revert Hrun. run_regs. intros Hrun.
  set (x := regv s vx) in *. set (y := regv s vy) in *.
  set (P := fun t : machine =>
         draw_inv t /\
         forall c : nat, ~ sprite_cell x y height c ->
                         display t !! c = display s !! c).
  assert (HP : P s').
  { eapply (for_loop_preserves_range P); [|..|exact Hrun].
    - intros j1 t t' Hj1 Ht Hrow. unfold draw_row in Hrow.
      eapply (for_loop_break_preserves_range P); [|exact Ht|exact Hrow].
      intros i1 u f Hi1 HPu Hpix. unfold draw_pixel in Hpix. inv_run.
      match type of Hpix with
      | (if ?b then _ else _) = _ => destruct b; [|inv_run; exact HPu]
      end.
      rewrite !u8_small in Hpix by lia.
      destruct (Z.leb_spec DISPLAY_WIDTH (x + i1)) as [Hpast|Hin];
        destruct (Z.leb_spec DISPLAY_HEIGHT (y + j1)) as [Hbelow|Hin'];
        cbn [orb] in Hpix; try (inv_run; exact HPu).
      destruct HPu as [Hu Hframe].
      destruct Hu as [Hur Hud].
      destruct (plot_ok u (x + i1) (y + j1)) as (d & Hcell & Hplot);
        [done|done|lia|lia|].
      rewrite Hplot in Hpix. inv_run. cbn [flow_state]. split.
      + unfold draw_inv, regs_ok, display_ok in *.
        destruct (negb (d =? 0)); simpl; rewrite ?length_insert; done.
      + intros c Hc. cbn [display set_display].
        rewrite list_lookup_insert_ne.
        * destruct (negb (d =? 0)); by apply Hframe.
        * intros <-. apply Hc. exists i1, j1. repeat split; try lia.
    - split; [split; [by apply regs_ok_set|done]|done]. }
  exact (proj2 HP).
Qed.

(** Loops that return: the invariant may depend on the index. *)
Lemma for_loop_total (P : Z -> machine -> Prop)
    (body : Z -> machine -> result machine) (n : nat) :
  forall i s,
    (forall k t, i <= k < i + Z.of_nat n -> P k t ->
                 exists t', body k t = Ok t' /\ P (k + 1) t') ->
    P i s ->
    exists s', for_loop n i body s = Ok s' /\ P (i + Z.of_nat n) s'.
Proof.
  induction n as [|n IH]; intros i s Hbody Hs.
  - exists s. split; [done|]. by replace (i + Z.of_nat 0) with i by lia.
  - destruct (Hbody i s ltac:(lia) Hs) as (t & Ht & HPt).
    destruct (IH (i + 1) t) as (s' & Hrun & HP'); [|exact HPt|].
    { intros k u Hk. apply Hbody. lia. }
    exists s'. cbn [for_loop]. rewrite Ht. cbn [mbind result_bind].
    split; [exact Hrun|]. by replace (i + Z.of_nat (S n)) with (i + 1 + Z.of_nat n) by lia.
Qed.

Lemma for_loop_break_total (P : Z -> machine -> Prop) (Q : machine -> Prop)
    (body : Z -> machine -> result flow) (n : nat) :
  forall i s,
    (forall k t, i <= k < i + Z.of_nat n -> P k t ->
       exists f, body k t = Ok f /\
         match f with Continue t' => P (k + 1) t' | Break t' => Q t' end) ->
    (forall t, P (i + Z.of_nat n) t -> Q t) ->
    P i s ->
    exists s', for_loop_break n i body s = Ok s' /\ Q s'.
Proof.
  induction n as [|n IH]; intros i s Hbody Hend Hs.
  - exists s. split; [done|]. apply Hend. by replace (i + Z.of_nat 0) with i by lia.
  - destruct (Hbody i s ltac:(lia) Hs) as (f & Hf & HPf).
    cbn [for_loop_break]. rewrite Hf. cbn [mbind result_bind].
    destruct f as [t|t]; [|by exists t].
    apply (IH (i + 1) t); [| |exact HPf].
    + intros k u Hk. apply Hbody. lia.
    + intros u Hu. apply Hend.
      by replace (i + Z.of_nat (S n)) with (i + 1 + Z.of_nat n) by lia.
Qed.

Lemma cell_inj (i j i' j' : Z) :
  0 <= i < DISPLAY_WIDTH -> 0 <= j -> 0 <= i' < DISPLAY_WIDTH -> 0 <= j' ->
  cell i j = cell i' j' -> i = i' /\ j = j'.
Proof. unfold cell, DISPLAY_WIDTH. lia. Qed.

(** Under the clamp policy, as long as neither coordinate sum passes
    255 and the sprite rows lie inside the memory, [draw] returns and
    every sprite bit whose pixel is inside the display is XORed into the
    cell under it: a set bit flips the cell, a clear bit leaves it. *)
Lemma draw_clamp_xor (s : machine) (vx vy height : Z) :
  regs_ok s -> bytes (registers s) -> display_ok s -> mem_ok s ->
  0 <= vx < REGISTER_COUNT -> 0 <= vy < REGISTER_COUNT ->
  regv s vx + 8 <= 256 -> regv s vy + height <= 256 ->
  0 <= address_register s -> address_register s + height <= MEMORY_SIZE ->
  exists s',
    draw CLAMP vx vy height s = Ok s' /\
    forall i1 j1,
      0 <= i1 < 8 -> 0 <= j1 < height ->
      regv s vx + i1 < DISPLAY_WIDTH -> regv s vy + j1 < DISPLAY_HEIGHT ->
      display s' !! cell (regv s vx + i1) (regv s vy + j1)
      = toggle (sprite_bit s j1 i1)
          <$> display s !! cell (regv s vx + i1) (regv s vy + j1).
Proof.
  intros Hr Hb Hd Hm Hx Hy Hnx Hny Ha Hah.
  pose proof (regv_byte s vx Hb) as Hvx. pose proof (regv_byte s vy Hb) as Hvy.
  unfold draw. run_regs.
  set (x := regv s vx) in *. set (y := regv s vy) in *.
  set (s0 := set_registers _ s).
  (* pixels done when the loops stand at row [j1], column [i1] *)
  set (done_at := fun (j1 i1 b a : Z) => (b <? j1) || ((b =? j1) && (a <? i1))).
  set (Pix := fun (j1 i1 : Z) (t : machine) =>
         draw_inv t /\ memory t = memory s /\
         address_register t = address_register s /\
         forall a b, 0 <= a < 8 -> 0 <= b < height ->
           x + a < DISPLAY_WIDTH -> y + b < DISPLAY_HEIGHT ->
           display t !! cell (x + a) (y + b)
           = (if done_at j1 i1 b a then toggle (sprite_bit s b a) else id)
               <$> display s !! cell (x + a) (y + b)).
  assert (Hcells : forall a b, 0 <= a < 8 -> 0 <= b < height ->
            x + a < DISPLAY_WIDTH -> y + b < DISPLAY_HEIGHT ->
            is_Some (display s !! cell (x + a) (y + b))).
  { intros a b Ha' Hb' Hxa Hyb. apply lookup_lt_is_Some_2.
    rewrite Hd. unfold cell, DISPLAY_WIDTH, DISPLAY_HEIGHT in *. lia. }
  destruct (for_loop_total (fun j1 t => Pix j1 0 t) (draw_row CLAMP x y)
              (Z.to_nat height) 0 s0) as (s' & Hrun & HP).
  - (* one row *)
    intros j1 t Hj1 Ht. unfold draw_row.
    apply (for_loop_break_total (fun i1 u => Pix j1 i1 u)
             (fun u => Pix (j1 + 1) 0 u)); [| |exact Ht].
    + (* one pixel *)
      intros i1 u Hi1 (Hu & Hmem & Hadr & Hdisp).
      unfold draw_pixel.
      destruct (rd_mem_ok u (address_register u + j1)) as (m & -> & Hrow).
      { unfold mem_ok. by rewrite Hmem. }
      { rewrite Hadr. lia. }
      cbn [mbind result_bind]. rewrite !u8_small by lia.
      assert (Hbit : sprite_bit s j1 i1 = negb (Z.land m (Z.shiftr 0x80 i1) =? 0)).
      { unfold sprite_bit. by rewrite <- Hmem, <- Hadr, Hrow. }
      rewrite <- Hbit.
      destruct (sprite_bit s j1 i1) eqn:Hset.
      * destruct (Z.leb_spec DISPLAY_WIDTH (x + i1)) as [Hpast|Hin];
          destruct (Z.leb_spec DISPLAY_HEIGHT (y + j1)) as [Hbelow|Hin'];
          cbn [orb].
        1-3: eexists; split; [reflexivity|];
             (split; [done|]; split; [done|]; split; [done|]);
             intros a b Ha' Hb' Hxa Hyb; rewrite Hdisp by done;
             unfold done_at;
             replace ((b <? j1 + 1) || (b =? j1 + 1) && (a <? 0))
               with ((b <? j1) || (b =? j1) && (a <? i1)) by lia; done.
        destruct Hu as [Hur Hud].
        destruct (plot_ok u (x + i1) (y + j1)) as (d & Hcell & ->);
          [done|done|lia|lia|].
        cbn [mbind result_bind]. eexists; split; [reflexivity|].
        split; [|split; [|split]].
        -- unfold draw_inv, regs_ok, display_ok in *.
           destruct (negb (d =? 0)); simpl; rewrite ?length_insert; done.
        -- by destruct (negb (d =? 0)).
        -- by destruct (negb (d =? 0)).
        -- intros a b Ha' Hb' Hxa Hyb. cbn [display set_display].
           replace (display (if negb (d =? 0)
                             then set_registers (<[Z.to_nat 15:=u8 1]> (registers u)) u
                             else u)) with (display u)
             by (by destruct (negb (d =? 0))).
           destruct (decide (a = i1 /\ b = j1)) as [[-> ->]|Hother].
           ++ fold (cell (x + i1) (y + j1)).
              rewrite list_lookup_insert_eq
                by (unfold cell, display_ok, DISPLAY_WIDTH, DISPLAY_HEIGHT in *; lia).
              fold (cell (x + i1) (y + j1)) in Hcell.
              rewrite Hdisp in Hcell by done. unfold done_at in *.
              replace ((j1 <? j1) || (j1 =? j1) && (i1 <? i1)) with false in Hcell by lia.
              replace ((j1 <? j1) || (j1 =? j1) && (i1 <? i1 + 1)) with true by lia.
              destruct (display s !! cell (x + i1) (y + j1)) as [d0|]; [|done].
              simpl in Hcell. injection Hcell as ->.
              by rewrite Hset.
           ++ fold (cell (x + i1) (y + j1)).
              rewrite list_lookup_insert_ne.
              ** rewrite Hdisp by done. unfold done_at.
                 replace ((b <? j1) || (b =? j1) && (a <? i1 + 1))
                   with ((b <? j1) || (b =? j1) && (a <? i1)) by lia. done.
              ** intros Heq. apply cell_inj in Heq as [? ?]; lia.
      * eexists; split; [reflexivity|].
        split; [done|]. split; [done|]. split; [done|].
        intros a b Ha' Hb' Hxa Hyb. rewrite Hdisp by done. unfold done_at.
        destruct (decide (a = i1 /\ b = j1)) as [[-> ->]|Hother].
        -- replace ((j1 <? j1) || (j1 =? j1) && (i1 <? i1)) with false by lia.
           replace ((j1 <? j1) || (j1 =? j1) && (i1 <? i1 + 1)) with true by lia.
           rewrite Hset. by destruct (display s !! _).
        -- replace ((b <? j1) || (b =? j1) && (a <? i1 + 1))
             with ((b <? j1) || (b =? j1) && (a <? i1)) by lia. done.
    + (* the row is done after eight pixels *)
      intros u (Hu & Hmem & Hadr & Hdisp).
      split; [done|]. split; [done|]. split; [done|].
      intros a b Ha' Hb' Hxa Hyb. rewrite Hdisp by done. unfold done_at.
      change (0 + Z.of_nat 8) with 8.
      replace ((b <? j1 + 1) || (b =? j1 + 1) && (a <? 0))
        with ((b <? j1) || (b =? j1) && (a <? 8)) by lia. done.
  - (* nothing is done before the first row *)
    split; [split; [by apply regs_ok_set|done]|].
    split; [done|]. split; [done|].
    intros a b Ha' Hb' Hxa Hyb. unfold done_at.
    replace ((b <? 0) || (b =? 0) && (a <? 0)) with false by lia.
    cbn [display s0 set_registers]. by destruct (display s !! _).
  - exists s'. split; [exact Hrun|].
    destruct HP as (_ & _ & _ & Hdisp).
    intros i1 j1 Hi1 Hj1 Hxi Hyj. rewrite Hdisp by done. unfold done_at.
    replace (0 + Z.of_nat (Z.to_nat height)) with height by lia.
    replace (j1 <? height) with true by lia. done.
Qed.

(** C3, on the code: under the clamp policy a pixel past the edge is
    drawn when its coordinate sum passes 255, because the sums are cut
    to 8 bits before they are compared with the edge.  With V0 = 0,
    V1 = 250 and a 7-row sprite whose last row is 0x80, DXY7 toggles the
    cell at column 0, row 0 for the pixel of row 250 + 6 = 256; with
    V0 = 250, V1 = 0 and the one-row sprite 0x02, DXY1 toggles the same
    cell for the pixel of column 250 + 6 = 256.  Neither sprite has any
    part inside the display. *)
Theorem clamp_draws_past_the_edge :
  (exists s,
     cycles CLAMP no_keys 0 0 3
       (boot (loaded [0x61; 0xFA; 0xA2; 0x0A; 0xD0; 0x17; 0; 0; 0; 0;
                      0; 0; 0; 0; 0; 0; 0x80])) = Ok s /\
     (regv s 0, regv s 1) = (0, 250) /\
     display s !! 0%nat = Some 1 /\
     (forall c : nat, ~ sprite_cell 0 250 7 c)) /\
  (exists s,
     cycles CLAMP no_keys 0 0 3
       (boot (loaded [0x60; 0xFA; 0xA2; 0x06; 0xD0; 0x11; 0x02])) = Ok s /\
     (regv s 0, regv s 1) = (250, 0) /\
     display s !! 0%nat = Some 1 /\
     (forall c : nat, ~ sprite_cell 250 0 1 c)).
Proof.
  split; (eexists; split; [vm_compute; reflexivity|]);
    (split; [by vm_compute|]); (split; [by vm_compute|]);
    intros c (i1 & j1 & Hi & Hj & Hx & Hy & _);
    unfold DISPLAY_WIDTH, DISPLAY_HEIGHT in *; lia.
Qed.

(** * Further properties of the interpreter *)

(** ** Invariant of the cycle *)



(** ** 00E0 *)

Lemma fill_step (d : list Z) (k : nat) :
  (k < length d)%nat ->
  <[k := 0]> (replicate k 0 ++ drop k d) = replicate (S k) 0 ++ drop (S k) d.
Proof.
  intros Hk. destruct (lookup_lt_is_Some_2 d k Hk) as [y Hy].
  rewrite insert_app_r_alt by (rewrite length_replicate; lia).
  rewrite length_replicate, Nat.sub_diag, (drop_S d y k Hy).
  cbn [insert list_insert]. rewrite replicate_S_end, <- app_assoc. reflexivity.
Qed.

(** X2: on a display of the declared size, 00E0 returns, leaves every
    one of the 2048 cells at 0 and changes nothing else. *)
Theorem cls_clears_display (s : machine) :
  display_ok s ->
  cls s = Ok (set_display (replicate (Z.to_nat (DISPLAY_WIDTH * DISPLAY_HEIGHT)) 0) s).
Proof.
  intros Hd. unfold cls.
  set (filled := fun (k : Z) (t : machine) =>
         t = set_display (replicate (Z.to_nat k) 0 ++ drop (Z.to_nat k) (display s)) s).
  destruct (for_loop_total (fun j t => filled (DISPLAY_WIDTH * j) t)
              (fun j s0 => for_loop (Z.to_nat DISPLAY_WIDTH) 0
                 (fun i s1 => idx ← display_idx (u8 i) (u8 j); wr_display idx 0 s1) s0)
              (Z.to_nat DISPLAY_HEIGHT) 0 s) as (s' & Hrun & Hs').
  - intros j t Hj Ht.
    destruct (for_loop_total (fun i u => filled (DISPLAY_WIDTH * j + i) u)
                (fun i s1 => idx ← display_idx (u8 i) (u8 j); wr_display idx 0 s1)
                (Z.to_nat DISPLAY_WIDTH) 0 t) as (t' & Hrow & Ht').
    + intros i u Hi Hu. unfold DISPLAY_WIDTH, DISPLAY_HEIGHT in *.
      rewrite !u8_small by lia.
      rewrite display_idx_ok by (unfold DISPLAY_WIDTH, DISPLAY_HEIGHT; lia).
      cbn [mbind result_bind]. unfold filled in *. subst u.
      unfold wr_display, display_ok, DISPLAY_WIDTH, DISPLAY_HEIGHT in *.
      cbn [display set_display].
      rewrite store_in_range
        by (rewrite length_app, length_replicate, length_drop; lia).
      cbn [mbind result_bind]. eexists; split; [reflexivity|].
      unfold set_display. cbn [memory registers stack display pc address_register
        stack_register delay_timer sound_timer timer_start].
      f_equal. change (u8 0) with 0.
      replace (Z.to_nat (i + j * 64)) with (Z.to_nat (64 * j + i)) by lia.
      rewrite fill_step by lia. f_equal; [f_equal; lia|f_equal; lia].
    + unfold filled in *. by replace (DISPLAY_WIDTH * j + 0) with (DISPLAY_WIDTH * j) by lia.
    + exists t'. split; [exact Hrow|]. unfold filled in *. rewrite Ht'.
      unfold DISPLAY_WIDTH. do 3 f_equal; lia.
  - unfold filled. simpl. rewrite drop_0. by destruct s.
  - rewrite Hrun, Hs'. f_equal. unfold filled, display_ok in *. f_equal.
    rewrite drop_ge by (unfold DISPLAY_WIDTH, DISPLAY_HEIGHT in *; lia).
    rewrite app_nil_r. f_equal.
Qed.

Lemma cls_clears_display_witness :
  match cls (set_display (replicate 2048 1) initial) with
  | Ok s => display s = replicate 2048 0
  | _ => False
  end.
Proof.
  rewrite (cls_clears_display (set_display (replicate 2048 1) initial));
    [reflexivity|reflexivity].
Defined.

(** ** Fetch and decode *)

Lemma lor_bytes (hi lo : Z) :
  0 <= hi -> 0 <= lo < 256 -> Z.lor (Z.shiftl hi 8) lo = hi * 256 + lo.
Proof.
  intros Hh Hl.
  assert (Hdisj : Z.land (Z.shiftl hi 8) lo = 0).
  { apply Z.bits_inj'. intros k Hk. rewrite Z.land_spec, Z.bits_0.
    destruct (Z.lt_ge_cases k 8) as [Hlt|Hge].
    - by rewrite Z.shiftl_spec_low by lia.
    - replace (Z.testbit lo k) with false; [by rewrite andb_false_r|].
      symmetry. destruct (Z.eq_dec lo 0) as [->|Hne]; [apply Z.bits_0|].
      apply Z.bits_above_log2; [lia|].
      assert (Z.log2 lo < 8) by (apply Z.log2_lt_pow2; lia). lia. }
  rewrite <- Z.lxor_lor by done. rewrite <- Z.add_nocarry_lxor by done.
  rewrite Z.shiftl_mul_pow2 by lia. reflexivity.
Qed.

Lemma convert_endianess_bytes (v : Z) :
  0 <= v < 65536 -> convert_endianess v = 256 * (v mod 256) + v / 256.
Proof.
  intros Hv. unfold convert_endianess.
  change 0xff with (Z.ones 8). rewrite Z.land_ones by lia.
  rewrite Z.shiftr_land. change (Z.shiftr 0xff00 8) with (Z.ones 8).
  rewrite Z.land_ones, Z.shiftr_div_pow2 by lia.
  change (2 ^ 8) with 256.
  rewrite lor_bytes by zdiv.
  unfold u16. rewrite Z.mod_small by zdiv.
  rewrite (Z.mod_small (v / 256)) by zdiv. lia.
Qed.

(** X3: on a 16-bit value [convert_endianess] exchanges the two bytes,
    stays within 16 bits, and applied twice gives the value back. *)
Theorem convert_endianess_involutive (v : Z) :
  0 <= v < 65536 ->
  convert_endianess v = 256 * (v mod 256) + v / 256 /\
  0 <= convert_endianess v < 65536 /\
  convert_endianess (convert_endianess v) = v.
Proof.
  intros Hv. rewrite (convert_endianess_bytes v Hv).
  split; [done|]. split; [zdiv|].
  rewrite convert_endianess_bytes by zdiv. zdiv.
Qed.

Lemma convert_endianess_involutive_witness :
  convert_endianess 0xAABB = 0xBBAA /\ convert_endianess (convert_endianess 0xAABB) = 0xAABB.
Proof.
  destruct (convert_endianess_involutive 0xAABB) as (H1 & _ & H2); [lia|].
  split; [rewrite H1; reflexivity|exact H2].
Defined.

(** X4: with the program counter on two cells inside a memory of bytes,
    the fetch returns the instruction word that has the byte at [pc] as
    its high byte and the byte at [pc + 1] as its low byte. *)
Theorem fetch_big_endian (s : machine) :
  mem_ok s -> bytes (memory s) -> 0 <= pc s -> pc s + 1 < MEMORY_SIZE ->
  exists hi lo,
    memory s !! Z.to_nat (pc s) = Some hi /\
    memory s !! Z.to_nat (pc s + 1) = Some lo /\
    fetch s = Ok (256 * hi + lo).
Proof.
  intros Hm Hb Hlo Hhi. unfold fetch.
  destruct (rd_mem_ok s (pc s)) as (hi & -> & Hhi'); [done|lia|].
  destruct (rd_mem_ok s (pc s + 1)) as (lo & -> & Hlo'); [done|lia|].
  cbn [mbind result_bind]. exists hi, lo. split; [done|]. split; [done|].
  pose proof (bytes_lookup _ _ _ Hb Hhi'). pose proof (bytes_lookup _ _ _ Hb Hlo').
  rewrite convert_endianess_bytes by lia. f_equal. zdiv.
Qed.

Lemma fetch_big_endian_witness :
  fetch (boot (loaded [0xD1; 0x25])) = Ok 0xD125.
Proof.
  destruct (fetch_big_endian (boot (loaded [0xD1; 0x25])))
    as (hi & lo & Hhi & Hlo & ->).
  - reflexivity.
  - apply bytes_check. reflexivity.
  - simpl. lia.
  - simpl. unfold MEMORY_SIZE. lia.
  - vm_compute in Hhi, Hlo. injection Hhi as <-. injection Hlo as <-. reflexivity.
Defined.

Lemma land_shifted_mask (v a m : Z) :
  0 <= m -> Z.land v (Z.shiftl a m) = Z.shiftl (Z.land (Z.shiftr v m) a) m.
Proof.
  intros Hm. apply Z.bits_inj'. intros k Hk.
  rewrite Z.land_spec. destruct (Z.lt_ge_cases k m) as [Hlt|Hge].
  - rewrite !Z.shiftl_spec_low by lia. apply andb_false_r.
  - rewrite !Z.shiftl_spec, Z.land_spec, Z.shiftr_spec by lia.
    by replace (k - m + m) with k by lia.
Qed.

(** The masks and shifts of the decoder take the nibbles apart. *)
Lemma decode_fields (c x y n : Z) :
  nibble c -> nibble x -> nibble y -> nibble n ->
  Z.land (enc c x y n) 0xf000 = 4096 * c /\
  Z.land (enc c x y n) 0x0fff = 256 * x + 16 * y + n /\
  Z.land (enc c x y n) 0x00ff = 16 * y + n /\
  Z.land (enc c x y n) 0x000f = n /\
  u8 (Z.shiftr (Z.land (enc c x y n) 0x0f00) 8) = x /\
  u8 (Z.shiftr (Z.land (enc c x y n) 0x00f0) 4) = y.
Proof.
  unfold nibble, enc. intros Hc Hx Hy Hn.
  change 0xf000 with (Z.shiftl (Z.ones 4) 12).
  change 0x0f00 with (Z.shiftl (Z.ones 4) 8).
  change 0x00f0 with (Z.shiftl (Z.ones 4) 4).
  change 0x0fff with (Z.ones 12). change 0x00ff with (Z.ones 8).
  change 0x000f with (Z.ones 4).
  rewrite !land_shifted_mask, !Z.land_ones by lia.
  rewrite !Z.shiftr_shiftl_l by lia. rewrite ?Z.shiftl_0_r.
  rewrite !Z.shiftl_mul_pow2, !Z.shiftr_div_pow2 by lia.
  unfold u8. change (2 ^ 12) with 4096. change (2 ^ 8) with 256.
  change (2 ^ 4) with 16.
  repeat split; zdiv.
Qed.

(** Rewrite the fields the decoder extracts from [enc c x y n]. *)
Ltac decode c x y n :=
  let F1 := fresh "F" in let F2 := fresh "F" in let F3 := fresh "F" in
  let F4 := fresh "F" in let F5 := fresh "F" in let F6 := fresh "F" in
  unfold nibble in *;
  destruct (decode_fields c x y n) as (F1 & F2 & F3 & F4 & F5 & F6);
  [unfold nibble; lia..|];
  unfold execute; cbv zeta;
  rewrite ?F1, ?F2, ?F3, ?F4, ?F5, ?F6;
  rewrite ?u8_small by lia.

(** Decide the tests of the [switch] on a known class. *)
Ltac class_tests :=
  repeat match goal with
  | |- context [4096 * ?c =? ?k] =>
      let b := eval vm_compute in (4096 * c =? k) in
      change (4096 * c =? k) with b; cbn match
  end.

(** X5: the dispatcher sends every instruction word of the instruction
    set to its handler, with the operands the word encodes.  The low
    nibble of 5XYN and 9XYN is not looked at. *)
Theorem dispatch_routes (displaymode : DisplayMode) (keys : Z -> bool)
    (rand : Z) (s : machine) (x y n : Z) :
  nibble x -> nibble y -> nibble n ->
  let run c x y n := execute displaymode keys rand (enc c x y n) s in
  let nnn := 256 * x + 16 * y + n in
  let nn := 16 * y + n in
  (run 0 0 0xE 0xE = ret s /\ run 0 0 0xE 0 = cls s) /\
  (run 1 x y n = jmp nnn s /\ run 2 x y n = call nnn s /\
   run 3 x y n = se x nn s /\ run 4 x y n = sne x nn s /\
   run 5 x y n = se_reg x y s /\ run 6 x y n = ld x nn s /\
   run 7 x y n = add x nn s) /\
  (run 8 x y 0 = ld_reg x y s /\ run 8 x y 1 = or_reg x y s /\
   run 8 x y 2 = and_reg x y s /\ run 8 x y 3 = xor_reg x y s /\
   run 8 x y 4 = add_reg x y s /\ run 8 x y 5 = sub_reg x y s /\
   run 8 x y 6 = shr_reg x s /\ run 8 x y 7 = subn_reg x y s /\
   run 8 x y 0xE = shl_reg x s) /\
  (run 9 x y n = sne_reg x y s /\ run 0xA x y n = ld_addr nnn s /\
   run 0xB x y n = jmp_relative nnn s /\ run 0xC x y n = rnd rand x nn s /\
   run 0xD x y n = draw displaymode x y n s) /\
  (run 0xE x 9 0xE = skip_p keys x s /\ run 0xE x 0xA 1 = skip_np keys x s) /\
  (run 0xF x 0 7 = ld_delay_to_reg x s /\ run 0xF x 0 0xA = getkey keys x s /\
   run 0xF x 1 5 = ld_reg_to_delay x s /\ run 0xF x 1 8 = ld_sound x s /\
   run 0xF x 1 0xE = add_addr x s /\ run 0xF x 2 9 = ld_sprite x s /\
   run 0xF x 3 3 = bcd x s /\ run 0xF x 5 5 = reg_dump x s /\
   run 0xF x 6 5 = reg_load x s).
Proof.
  intros Hx Hy Hn. cbv zeta.
  repeat split;
    match goal with
    | |- execute _ _ _ (enc ?c ?a ?b ?d) _ = _ => decode c a b d; reflexivity
    end.
Qed.

Lemma dispatch_routes_witness :
  execute CLAMP no_keys 0 0xD125 initial = draw CLAMP 1 2 5 initial /\
  execute CLAMP no_keys 0 0x5127 initial = se_reg 1 2 initial.
Proof.
  destruct (dispatch_routes CLAMP no_keys 0 initial 1 2 5)
    as (_ & _ & _ & (_ & _ & _ & _ & Hdraw) & _); [unfold nibble; lia..|].
  destruct (dispatch_routes CLAMP no_keys 0 initial 1 2 7)
    as (_ & (_ & _ & _ & _ & Hse & _) & _); [unfold nibble; lia..|].
  split; [exact Hdraw|exact Hse].
Defined.

(** X6: an instruction word outside the instruction set is fatal in
    classes 8, E and F, whatever the state; in class 0 every word other
    than 00E0 and 00EE is the system call, which does nothing. *)
Theorem unknown_opcodes (displaymode : DisplayMode) (keys : Z -> bool)
    (rand : Z) (s : machine) (x y n : Z) :
  nibble x -> nibble y -> nibble n ->
  let run c := execute displaymode keys rand (enc c x y n) s in
  let nnn := 256 * x + 16 * y + n in
  let nn := 16 * y + n in
  (8 <= n -> n <> 0xE -> run 8 = Fatal) /\
  (nn <> 0x9E -> nn <> 0xA1 -> run 0xE = Fatal) /\
  (nn <> 0x07 -> nn <> 0x0A -> nn <> 0x15 -> nn <> 0x18 -> nn <> 0x1E ->
   nn <> 0x29 -> nn <> 0x33 -> nn <> 0x55 -> nn <> 0x65 -> run 0xF = Fatal) /\
  (nnn <> 0x0E0 -> nnn <> 0x0EE -> run 0 = Ok s).
Proof.
  intros Hx Hy Hn. cbv zeta. repeat split; intros.
  - decode 8 x y n.
    assert (n = 8 \/ n = 9 \/ n = 10 \/ n = 11 \/ n = 12 \/ n = 13 \/ n = 15)
      as Hcases by lia.
    destruct Hcases as [->|[->|[->|[->|[->|[->| ->]]]]]]; reflexivity.
  - decode 0xE x y n. class_tests.
    replace (16 * y + n =? 158) with false by lia.
    replace (16 * y + n =? 161) with false by lia. reflexivity.
  - decode 0xF x y n. class_tests.
    repeat match goal with
    | |- context [16 * y + n =? ?k] =>
        replace (16 * y + n =? k) with false by lia
    end.
    reflexivity.
  - decode 0 x y n. class_tests. unfold enc.
    replace (4096 * 0 + 256 * x + 16 * y + n =? 238) with false by lia.
    replace (4096 * 0 + 256 * x + 16 * y + n =? 224) with false by lia.
    reflexivity.
Qed.

Lemma unknown_opcodes_witness :
  execute CLAMP no_keys 0 0x8129 initial = Fatal /\
  execute CLAMP no_keys 0 0x0123 initial = Ok initial.
Proof.
  destruct (unknown_opcodes CLAMP no_keys 0 initial 1 2 9) as (H8 & _);
    [unfold nibble; lia..|].
  destruct (unknown_opcodes CLAMP no_keys 0 initial 1 2 3) as (_ & _ & _ & H0);
    [unfold nibble; lia..|].
  split; [apply H8; lia|apply H0; lia].
Defined.

(** ** Register instructions *)

Lemma byte_high_bits (a k : Z) : 0 <= a < 256 -> 8 <= k -> Z.testbit a k = false.
Proof.
  intros Ha Hk. destruct (Z.eq_dec a 0) as [->|Hne]; [apply Z.bits_0|].
  apply Z.bits_above_log2; [lia|].
  assert (Z.log2 a < 8) by (apply Z.log2_lt_pow2; lia). lia.
Qed.

(** A bitwise operation that maps two clear bits to a clear bit maps
    bytes to bytes. *)
Lemma u8_bitwise (op : Z -> Z -> Z) (f : bool -> bool -> bool) (a b : Z) :
  (forall u v k, 0 <= k -> Z.testbit (op u v) k = f (Z.testbit u k) (Z.testbit v k)) ->
  f false false = false ->
  0 <= a < 256 -> 0 <= b < 256 ->
  u8 (op a b) = op a b /\ 0 <= op a b < 256.
Proof.
  intros Hop Hf Ha Hb.
  assert (Hu : u8 (op a b) = op a b).
  { unfold u8. change 256 with (2 ^ 8). rewrite <- Z.land_ones by lia.
    apply Z.bits_inj'. intros k Hk.
    rewrite Z.land_spec, Z.testbit_ones_nonneg by lia.
    destruct (Z.ltb_spec k 8) as [Hlt|Hge]; [apply andb_true_r|].
    rewrite andb_false_r, Hop, !byte_high_bits by lia. by rewrite Hf. }
  split; [done|]. rewrite <- Hu. apply u8_range.
Qed.

(** X7: 8XY0, 8XY1, 8XY2 and 8XY3 return, store in register X the copy,
    the OR, the AND and the XOR of the operands (a byte, nothing is cut
    off) and leave every other register as it was: none of them touches
    the flag register unless X is 15. *)
Theorem logic_ops (s : machine) (x y : Z) :
  regs_ok s -> bytes (registers s) -> nibble x -> nibble y ->
  let spec (handler : Z -> Z -> machine -> result machine) (f : Z -> Z -> Z) :=
    exists s', handler x y s = Ok s' /\
      regv s' x = f (regv s x) (regv s y) /\
      0 <= regv s' x < 256 /\
      forall i : nat, i <> Z.to_nat x -> registers s' !! i = registers s !! i in
  spec ld_reg (fun _ vy => vy) /\ spec or_reg Z.lor /\
  spec and_reg Z.land /\ spec xor_reg Z.lxor.
Proof.
  intros Hs Hb Hx Hy. unfold nibble in *.
  pose proof (regv_byte s x Hb) as Hvx. pose proof (regv_byte s y Hb) as Hvy.
  assert (Hbx : 0 <= x < REGISTER_COUNT) by (unfold REGISTER_COUNT; lia).
  assert (Hby : 0 <= y < REGISTER_COUNT) by (unfold REGISTER_COUNT; lia).
  destruct (u8_bitwise Z.lor orb _ _ ltac:(intros; apply Z.lor_spec)
              eq_refl Hvx Hvy) as [Hor Hor'].
  destruct (u8_bitwise Z.land andb _ _ ltac:(intros; apply Z.land_spec)
              eq_refl Hvx Hvy) as [Hand Hand'].
  destruct (u8_bitwise Z.lxor xorb _ _ ltac:(intros; apply Z.lxor_spec)
              eq_refl Hvx Hvy) as [Hxor Hxor'].
  cbv zeta. repeat split;
    match goal with
    | |- exists _, ?h x y s = _ /\ _ =>
        unfold h; run_regs; eexists; split; [reflexivity|];
        rewrite regv_set_eq by done;
        rewrite ?u8_small, ?Hor, ?Hand, ?Hxor by done;
        repeat split; try done; try lia;
        intros i Hi; cbn [registers set_registers];
        by rewrite list_lookup_insert_ne by lia
    end.
Qed.

Lemma logic_ops_witness :
  exists s', xor_reg 1 2 (set_registers (<[1%nat := 0xF0]> (<[2%nat := 0x3C]>
                           (replicate 16 0))) initial) = Ok s' /\
    regv s' 1 = 0xCC.
Proof.
  destruct (logic_ops (set_registers (<[1%nat := 0xF0]> (<[2%nat := 0x3C]>
                           (replicate 16 0))) initial) 1 2)
    as (_ & _ & _ & (s' & Hrun & Hv & _)).
  - reflexivity.
  - apply bytes_check. reflexivity.
  - unfold nibble. lia.
  - unfold nibble. lia.
  - exists s'. split; [exact Hrun|]. rewrite Hv. reflexivity.
Defined.

(** X8: with a destination other than register 15, the register and the
    flag that 8XY4, 8XYE and 8XY6 leave hold the whole result between
    them: the sum is [Vx + 256 * VF] (for a source other than the
    destination), the doubled value is [Vx + 256 * VF], and the value
    shifted right is [2 * Vx + VF] of the original. *)
Theorem add_shift_recompose (s : machine) (x y : Z) :
  regs_ok s -> bytes (registers s) -> nibble x -> nibble y -> x <> 0xf ->
  (x <> y -> exists s', add_reg x y s = Ok s' /\
     regv s' x + 256 * regv s' 0xf = regv s x + regv s y) /\
  (exists s', shl_reg x s = Ok s' /\
     regv s' x + 256 * regv s' 0xf = 2 * regv s x) /\
  (exists s', shr_reg x s = Ok s' /\
     2 * regv s' x + regv s' 0xf = regv s x).
Proof.
  intros Hs Hb Hx Hy H15. unfold nibble in *.
  pose proof (regv_byte s x Hb) as Hvx. pose proof (regv_byte s y Hb) as Hvy.
  assert (Hbx : 0 <= x < REGISTER_COUNT) by (unfold REGISTER_COUNT; lia).
  assert (Hby : 0 <= y < REGISTER_COUNT) by (unfold REGISTER_COUNT; lia).
  assert (Hbf : 0 <= 0xf < REGISTER_COUNT) by (unfold REGISTER_COUNT; lia).
  repeat split; [intros Hne|..].
  - unfold add_reg. run_regs. eexists; split; [reflexivity|].
    rewrite !regv_after by (repeat apply regs_ok_set; range).
    rewrite !Z.eqb_refl.
    replace (15 =? x) with false by lia. replace (x =? 15) with false by lia.
    replace (x =? y) with false by lia.
    unfold u8. destruct (Z.ltb_spec ((regv s x + regv s y) mod 256) (regv s y));
      cbn [b2z]; zdiv.
  - unfold shl_reg. run_regs. eexists; split; [reflexivity|].
    rewrite !regv_after by (repeat apply regs_ok_set; range).
    rewrite !Z.eqb_refl.
    replace (15 =? x) with false by lia. replace (x =? 15) with false by lia.
    rewrite Z.shiftl_mul_pow2, Z.shiftr_div_pow2 by lia.
    unfold u8. change (2 ^ 7) with 128. change (2 ^ 1) with 2. zdiv.
  - unfold shr_reg. run_regs. eexists; split; [reflexivity|].
    rewrite !regv_after by (repeat apply regs_ok_set; range).
    rewrite !Z.eqb_refl.
    replace (15 =? x) with false by lia. replace (x =? 15) with false by lia.
    change 1 with (Z.ones 1) at 2.
    rewrite Z.land_ones, Z.shiftr_div_pow2 by lia.
    unfold u8. change (2 ^ 1) with 2. zdiv.
Qed.

Lemma add_shift_recompose_witness :
  exists s', add_reg 0 1 (set_registers (<[0%nat := 200]> (<[1%nat := 100]>
                           (replicate 16 0))) initial) = Ok s' /\
    regv s' 0 + 256 * regv s' 0xf = 300.
Proof.
  destruct (add_shift_recompose (set_registers (<[0%nat := 200]> (<[1%nat := 100]>
                           (replicate 16 0))) initial) 0 1)
    as (Hadd & _).
  - reflexivity.
  - apply bytes_check. reflexivity.
  - unfold nibble. lia.
  - unfold nibble. lia.
  - lia.
  - destruct Hadd as (s' & Hrun & Hv); [lia|].
    exists s'. split; [exact Hrun|exact Hv].
Defined.

(** X9: with neither operand in register 15, 8XY5 leaves [Vx - Vy] and
    8XY7 leaves [Vy - Vx] in register X, 256 added when the difference
    is negative, and the flag is 1 exactly when the difference is
    positive: equal operands give 0 with flag 0. *)
Theorem sub_results (s : machine) (x y : Z) :
  regs_ok s -> bytes (registers s) -> nibble x -> nibble y ->
  x <> 0xf -> y <> 0xf ->
  let diff a b := if a <? b then a - b + 256 else a - b in
  (exists s', sub_reg x y s = Ok s' /\
     regv s' x = diff (regv s x) (regv s y) /\
     regv s' 0xf = b2z (0 <? regv s x - regv s y)) /\
  (exists s', subn_reg x y s = Ok s' /\
     regv s' x = diff (regv s y) (regv s x) /\
     regv s' 0xf = b2z (0 <? regv s y - regv s x)).
Proof.
  intros Hs Hb Hx Hy Hx15 Hy15. unfold nibble in *.
  pose proof (regv_byte s x Hb) as Hvx. pose proof (regv_byte s y Hb) as Hvy.
  assert (Hbx : 0 <= x < REGISTER_COUNT) by (unfold REGISTER_COUNT; lia).
  assert (Hby : 0 <= y < REGISTER_COUNT) by (unfold REGISTER_COUNT; lia).
  assert (Hbf : 0 <= 0xf < REGISTER_COUNT) by (unfold REGISTER_COUNT; lia).
  cbv zeta. split.
  - unfold sub_reg. run_regs. eexists; split; [reflexivity|].
    rewrite !regv_after by (repeat apply regs_ok_set; range).
    rewrite !Z.eqb_refl.
    replace (15 =? x) with false by lia. replace (x =? 15) with false by lia.
    replace (15 =? y) with false by lia.
    split.
    + unfold u8. destruct (Z.ltb_spec (regv s x) (regv s y)).
      * symmetry. apply Z.mod_unique with (q := -1); lia.
      * apply Z.mod_small. lia.
    + rewrite u8_small by (destruct (regv s y <? regv s x); simpl; lia).
      f_equal. lia.
  - unfold subn_reg. run_regs. eexists; split; [reflexivity|].
    rewrite !regv_after by (repeat apply regs_ok_set; range).
    rewrite !Z.eqb_refl.
    replace (15 =? x) with false by lia. replace (x =? 15) with false by lia.
    replace (15 =? y) with false by lia.
    split.
    + unfold u8. destruct (Z.ltb_spec (regv s y) (regv s x)).
      * symmetry. apply Z.mod_unique with (q := -1); lia.
      * apply Z.mod_small. lia.
    + rewrite u8_small by (destruct (regv s x <? regv s y); simpl; lia).
      f_equal. lia.
Qed.

Lemma sub_results_witness :
  exists s', sub_reg 0 1 (set_registers (<[0%nat := 3]> (<[1%nat := 5]>
                           (replicate 16 0))) initial) = Ok s' /\
    regv s' 0 = 254 /\ regv s' 0xf = 0.
Proof.
  destruct (sub_results (set_registers (<[0%nat := 3]> (<[1%nat := 5]>
                           (replicate 16 0))) initial) 0 1)
    as ((s' & Hrun & Hv & Hf) & _).
  - reflexivity.
  - apply bytes_check. reflexivity.
  - unfold nibble. lia.
  - unfold nibble. lia.
  - lia.
  - lia.
  - exists s'. split; [exact Hrun|]. split; [exact Hv|exact Hf].
Defined.

(** ** Address register *)

(** X10: FX1E with X other than 15 adds the register to the 16-bit
    address register and sets the flag exactly when the sum is above
    0xFFF; the address register is not brought back into the memory
    range: from an address inside the memory the sum is kept as it is,
    up to 4095 + 255. *)
Theorem add_addr_result (s : machine) (x : Z) :
  regs_ok s -> bytes (registers s) -> nibble x -> x <> 0xf ->
  0 <= address_register s < 65536 ->
  exists s', add_addr x s = Ok s' /\
    address_register s' = (address_register s + regv s x) mod 65536 /\
    regv s' 0xf = b2z (0x0FFF <? address_register s + regv s x) /\
    (address_register s < MEMORY_SIZE ->
     address_register s' = address_register s + regv s x).
Proof.
  intros Hs Hb Hx H15 Ha. unfold nibble in *.
  pose proof (regv_byte s x Hb) as Hvx.
  assert (Hbx : 0 <= x < REGISTER_COUNT) by (unfold REGISTER_COUNT; lia).
  assert (Hbf : 0 <= 0xf < REGISTER_COUNT) by (unfold REGISTER_COUNT; lia).
  unfold add_addr. run_regs. eexists; split; [reflexivity|].
  match goal with
  | |- context [regv (set_address_register ?a ?t) ?i] =>
      change (regv (set_address_register a t) i) with (regv t i)
  end.
  cbn [address_register set_address_register set_registers].
  rewrite !regv_after by range. rewrite Z.eqb_refl.
  replace (15 =? x) with false by lia.
  split; [done|]. split.
  - apply u8_small. destruct (_ <? _); simpl; lia.
  - intros Hin. unfold MEMORY_SIZE in Hin. apply u16_small. lia.
Qed.

Lemma add_addr_result_witness :
  exists s', add_addr 0 (set_address_register 0xFFF
               (set_registers (<[0%nat := 1]> (replicate 16 0)) initial)) = Ok s' /\
    address_register s' = 0x1000 /\ regv s' 0xf = 1.
Proof.
  destruct (add_addr_result (set_address_register 0xFFF
               (set_registers (<[0%nat := 1]> (replicate 16 0)) initial)) 0)
    as (s' & Hrun & _ & Hf & Hin).
  - reflexivity.
  - apply bytes_check. reflexivity.
  - unfold nibble. lia.
  - lia.
  - simpl. lia.
  - exists s'. split; [exact Hrun|]. split; [|exact Hf].
    apply Hin. simpl. unfold MEMORY_SIZE. lia.
Defined.

(** X11: FX29 fails fatally when the register holds more than 15;
    otherwise it points the address register at [5 * Vx], and in a
    memory that starts with the font table the five cells from there
    are the five rows of the glyph of digit [Vx]. *)
Theorem ld_sprite_glyph (s : machine) (x : Z) :
  regs_ok s -> bytes (registers s) -> nibble x ->
  (15 < regv s x -> ld_sprite x s = Fatal) /\
  (regv s x <= 15 ->
   ld_sprite x s = Ok (set_address_register (SPRITE_SIZE * regv s x) s) /\
   forall rest k, memory s = sprites ++ rest -> 0 <= k < SPRITE_SIZE ->
     memory s !! Z.to_nat (SPRITE_SIZE * regv s x + k)
     = sprites !! Z.to_nat (SPRITE_SIZE * regv s x + k) /\
     is_Some (sprites !! Z.to_nat (SPRITE_SIZE * regv s x + k))).
Proof.
  intros Hs Hb Hx. unfold nibble in *.
  pose proof (regv_byte s x Hb) as Hvx.
  assert (Hbx : 0 <= x < REGISTER_COUNT) by (unfold REGISTER_COUNT; lia).
  unfold ld_sprite. rewrite rd_reg_ok by done. cbn [mbind result_bind].
  split; intros Hv.
  - replace (regv s x <=? 15) with false by lia. reflexivity.
  - replace (regv s x <=? 15) with true by lia. cbn [ERRCHK mbind result_bind].
    unfold SPRITE_SIZE. split.
    + rewrite u16_small by lia. do 2 f_equal. lia.
    + intros rest k Hmem Hk. rewrite Hmem.
      assert (Hlt : (Z.to_nat (5 * regv s x + k) < length sprites)%nat)
        by (change (length sprites) with 80%nat; lia).
      split; [by apply lookup_app_l|by apply lookup_lt_is_Some_2].
Qed.

Lemma ld_sprite_glyph_witness :
  ld_sprite 3 (set_registers (<[3%nat := 0xA]> (replicate 16 0)) (boot (loaded [])))
  = Ok (set_address_register 50
          (set_registers (<[3%nat := 0xA]> (replicate 16 0)) (boot (loaded [])))).
Proof.
  destruct (ld_sprite_glyph
              (set_registers (<[3%nat := 0xA]> (replicate 16 0)) (boot (loaded []))) 3)
    as (_ & Hok).
  - reflexivity.
  - apply bytes_check. reflexivity.
  - unfold nibble. lia.
  - destruct Hok as (Hrun & _); [change (0xA <= 15); lia|]. exact Hrun.
Defined.

(** ** Conditional skips *)

(** X12: 3XNN and 4XNN return and between them skip exactly once: one
    of the two advances the program counter by one instruction width
    (modulo 2^16) and the other changes nothing; likewise 5XY0 and 9XY0,
    and with X = Y the first always skips and the second never. *)
Theorem skips_complementary (s : machine) (x y v : Z) :
  regs_ok s -> nibble x -> nibble y ->
  pc (skip s) = (pc s + 2) mod 65536 /\
  ((se x v s = Ok (skip s) /\ sne x v s = Ok s) \/
   (se x v s = Ok s /\ sne x v s = Ok (skip s))) /\
  ((se_reg x y s = Ok (skip s) /\ sne_reg x y s = Ok s) \/
   (se_reg x y s = Ok s /\ sne_reg x y s = Ok (skip s))) /\
  se_reg x x s = Ok (skip s) /\ sne_reg x x s = Ok s.
Proof.
  intros Hs Hx Hy. unfold nibble in *.
  assert (Hbx : 0 <= x < REGISTER_COUNT) by (unfold REGISTER_COUNT; lia).
  assert (Hby : 0 <= y < REGISTER_COUNT) by (unfold REGISTER_COUNT; lia).
  unfold se, sne, se_reg, sne_reg. rewrite !rd_reg_ok by done.
  cbn [mbind result_bind]. rewrite Z.eqb_refl. cbn [negb].
  split; [reflexivity|]. split; [|split; [|done]].
  - destruct (regv s x =? v); cbn [negb]; [by left|by right].
  - destruct (regv s x =? regv s y); cbn [negb]; [by left|by right].
Qed.

Lemma skips_complementary_witness :
  se 1 0 initial = Ok (skip initial) /\ sne 1 0 initial = Ok initial.
Proof.
  destruct (skips_complementary initial 1 1 0) as (_ & [H|[H1 H2]] & _).
  - reflexivity.
  - unfold nibble. lia.
  - unfold nibble. lia.
  - exact H.
  - exfalso. vm_compute in H1. discriminate H1.
Defined.

(** ** Keys *)

Lemma getkey_runs (keys : Z -> bool) (s : machine) (x : Z) :
  regs_ok s -> nibble x ->
  ((forall k, 0 <= k < 16 -> keys k = false) ->
   getkey keys x s = Ok (set_pc (u16 (pc s - OPCODE_SIZE)) s)) /\
  (forall k, 0 <= k < 16 -> keys k = true ->
     (forall j, 0 <= j < k -> keys j = false) ->
     getkey keys x s = Ok (set_registers (<[Z.to_nat x := k]> (registers s)) s)).
Proof.
  intros Hs Hx. unfold nibble in *.
  assert (Hbx : 0 <= x < REGISTER_COUNT) by (unfold REGISTER_COUNT; lia).
  split.
  - intros Hnone. unfold getkey.
    destruct (for_loop_break_total
                (fun i t => (i < 16 /\ t = s) \/
                            (i = 16 /\ t = set_pc (u16 (pc s - OPCODE_SIZE)) s))
                (fun t => t = set_pc (u16 (pc s - OPCODE_SIZE)) s)
                (fun i s0 => k ← keydown keys i;
                   if k : bool then s1 ← wr_reg x i s0; Ok (Break s1)
                   else Ok (Continue (if i =? 15
                                      then set_pc (u16 (pc s0 - OPCODE_SIZE)) s0
                                      else s0)))
                16 0 s) as (s' & Hrun & ->); [| |left; split; [lia|done]|exact Hrun].
    + intros i t Hi [[_ ->]|[? _]]; [|lia].
      unfold keydown. replace ((0 <=? i) && (i <? 16)) with true by lia.
      cbn [mbind result_bind]. rewrite Hnone by lia.
      eexists; split; [reflexivity|]. cbn match.
      destruct (Z.eqb_spec i 15) as [->|Hne]; [right; split; [lia|done]|].
      left. split; [lia|done].
    + intros t [[? _]|[_ ->]]; [lia|done].
  - intros k Hk Hdown Hbelow. unfold getkey.
    destruct (for_loop_break_total
                (fun i t => i <= k /\ t = s)
                (fun t => t = set_registers (<[Z.to_nat x := k]> (registers s)) s)
                (fun i s0 => k ← keydown keys i;
                   if k : bool then s1 ← wr_reg x i s0; Ok (Break s1)
                   else Ok (Continue (if i =? 15
                                      then set_pc (u16 (pc s0 - OPCODE_SIZE)) s0
                                      else s0)))
                16 0 s) as (s' & Hrun & ->); [| |split; [lia|done]|exact Hrun].
    + intros i t Hi [Hik ->].
      unfold keydown. replace ((0 <=? i) && (i <? 16)) with true by lia.
      cbn [mbind result_bind].
      destruct (decide (i = k)) as [->|Hne].
      * rewrite Hdown, wr_reg_ok by done. cbn [mbind result_bind].
        eexists; split; [reflexivity|]. cbn match. by rewrite u8_small by lia.
      * rewrite Hbelow by lia. eexists; split; [reflexivity|]. cbn match.
        replace (i =? 15) with false by lia. split; [lia|done].
    + intros t [? _]. lia.
Qed.

(** X13: FX0A looks at the sixteen lines in order.  With none of them
    down it leaves the registers alone and rewinds the program counter
    by one instruction width; otherwise it stores the number of the
    lowest line that is down in register X and leaves the program
    counter alone. *)
Theorem getkey_lowest_or_rewind (keys : Z -> bool) (s : machine) (x : Z) :
  regs_ok s -> nibble x ->
  ((forall k, 0 <= k < 16 -> keys k = false) ->
   getkey keys x s = Ok (set_pc (u16 (pc s - OPCODE_SIZE)) s)) /\
  (forall k, 0 <= k < 16 -> keys k = true ->
     (forall j, 0 <= j < k -> keys j = false) ->
     getkey keys x s = Ok (set_registers (<[Z.to_nat x := k]> (registers s)) s)).
Proof. apply getkey_runs. Qed.

Lemma getkey_lowest_or_rewind_witness :
  getkey (fun k => (k =? 7) || (k =? 12)) 2 initial
  = Ok (set_registers (<[2%nat := 7]> (registers initial)) initial).
Proof.
  destruct (getkey_lowest_or_rewind (fun k => (k =? 7) || (k =? 12)) initial 2)
    as (_ & Hdown).
  - reflexivity.
  - unfold nibble. lia.
  - apply (Hdown 7); [lia|reflexivity|].
    intros j Hj. replace (j =? 7) with false by lia.
    replace (j =? 12) with false by lia. reflexivity.
Defined.

Lemma execute_getkey (displaymode : DisplayMode) (keys : Z -> bool)
    (rand : Z) (s : machine) (x : Z) :
  nibble x ->
  execute displaymode keys rand (enc 0xF x 0 0xA) s = getkey keys x s.
Proof. intros Hx. decode 0xF x 0 0xA. reflexivity. Qed.

(** X14: a cycle that fetches FX0A while no line is down ends with the
    program counter where it began, so the next cycle fetches the same
    instruction again; only the timers may have moved. *)
Theorem key_wait_spins (displaymode : DisplayMode) (keys : Z -> bool)
    (rand now : Z) (s : machine) (x : Z) :
  regs_ok s -> mem_ok s -> nibble x ->
  fetch s = Ok (enc 0xF x 0 0xA) ->
  (forall k, 0 <= k < 16 -> keys k = false) ->
  exists s', instruction_cycle displaymode keys rand now s = Ok s' /\
    pc s' = pc s /\ fetch s' = fetch s /\
    registers s' = registers s /\ memory s' = memory s /\
    display s' = display s /\ stack s' = stack s /\
    stack_register s' = stack_register s /\
    address_register s' = address_register s.
Proof.
  intros Hs Hm Hx Hf Hnone.
  destruct (fetch_in_range s _ Hm Hf) as [Hlo Hhi].
  destruct (timer_driver_frame now s) as (Hmem & Hreg & Hstk & Hdis & Hpc & Had & Hsr).
  unfold instruction_cycle. rewrite fetch_timer_driver, Hf.
  cbn [mbind result_bind]. rewrite execute_getkey by done.
  destruct (getkey_runs keys
              (set_pc (u16 (pc (timer_driver now s) + OPCODE_SIZE)) (timer_driver now s))
              x) as (Hrewind & _); [unfold regs_ok in *; simpl; by rewrite Hreg|done|].
  rewrite Hrewind by done. eexists; split; [reflexivity|].
  cbn [pc set_pc registers memory display stack stack_register address_register].
  rewrite Hpc. unfold OPCODE_SIZE, MEMORY_SIZE in *.
  assert (Hsame : u16 (u16 (pc s + 2) - 2) = pc s).
  { rewrite (u16_small (pc s + 2)) by lia. rewrite u16_small by lia. lia. }
  rewrite Hsame. repeat split; try done.
  unfold fetch, rd_mem. cbn [pc set_pc memory]. by rewrite Hmem.
Qed.

Lemma key_wait_spins_witness :
  pc <$> (match instruction_cycle CLAMP no_keys 0 0 (boot (loaded [0xF3; 0x0A])) with
          | Ok s => Some s | _ => None end) = Some 0x200.
Proof.
  destruct (key_wait_spins CLAMP no_keys 0 0 (boot (loaded [0xF3; 0x0A])) 3)
    as (s' & -> & Hpc & _).
  - reflexivity.
  - reflexivity.
  - unfold nibble. lia.
  - reflexivity.
  - reflexivity.
  - simpl. by rewrite Hpc.
Defined.

(** X15: EX9E and EXA1 index the 16-entry key table with the register's
    value unchecked: a value above 15 is an access outside the table.
    With a value up to 15 both return and exactly one of them skips,
    EX9E when that line is down and EXA1 when it is not. *)
Theorem key_skips (keys : Z -> bool) (s : machine) (x : Z) :
  regs_ok s -> bytes (registers s) -> nibble x ->
  (15 < regv s x ->
   skip_p keys x s = OutOfBounds Keys (regv s x) /\
   skip_np keys x s = OutOfBounds Keys (regv s x)) /\
  (regv s x <= 15 ->
   skip_p keys x s = Ok (if keys (regv s x) then skip s else s) /\
   skip_np keys x s = Ok (if keys (regv s x) then s else skip s)).
Proof.
  intros Hs Hb Hx. unfold nibble in *.
  pose proof (regv_byte s x Hb) as Hvx.
  assert (Hbx : 0 <= x < REGISTER_COUNT) by (unfold REGISTER_COUNT; lia).
  unfold skip_p, skip_np, keydown. rewrite !rd_reg_ok by done.
  cbn [mbind result_bind]. split; intros Hv.
  - replace ((0 <=? regv s x) && (regv s x <? 16)) with false by lia. done.
  - replace ((0 <=? regv s x) && (regv s x <? 16)) with true by lia.
    cbn [mbind result_bind]. by destruct (keys (regv s x)).
Qed.

Lemma key_skips_witness :
  skip_p no_keys 0 (set_registers (<[0%nat := 16]> (replicate 16 0)) initial)
  = OutOfBounds Keys 16.
Proof.
  destruct (key_skips no_keys
              (set_registers (<[0%nat := 16]> (replicate 16 0)) initial) 0)
    as (Hout & _).
  - reflexivity.
  - apply bytes_check. reflexivity.
  - unfold nibble. lia.
  - destruct Hout as [H _]; [change (15 < 16); lia|exact H].
Defined.

(** ** Timers *)

Lemma timer_driver_fire (now : Z) (s : machine) :
  timer_fires now s = true ->
  0 <= delay_timer s < 256 -> 0 <= sound_timer s < 256 ->
  delay_timer (timer_driver now s) = Z.max 0 (delay_timer s - 1) /\
  sound_timer (timer_driver now s) = Z.max 0 (sound_timer s - 1) /\
  timer_start (timer_driver now s) = now.
Proof.
  intros Hfire Hd Hs. unfold timer_driver. rewrite Hfire.
  destruct (Z.eqb_spec (delay_timer s) 0) as [Ed|Ed];
    destruct (Z.eqb_spec (sound_timer s) 0) as [Es|Es]; simpl;
    rewrite ?Ed, ?Es; simpl;
    try destruct (Z.eqb_spec (sound_timer s) 0) as [Es'|Es']; try done; simpl;
    rewrite ?u8_small by lia; repeat split; lia.
Qed.

Lemma ticks_count_down (nows : list Z) : forall s : machine,
  all_fire (timer_start s) nows ->
  0 <= delay_timer s < 256 -> 0 <= sound_timer s < 256 ->
  delay_timer (ticks nows s) = Z.max 0 (delay_timer s - Z.of_nat (length nows)) /\
  sound_timer (ticks nows s) = Z.max 0 (sound_timer s - Z.of_nat (length nows)) /\
  registers (ticks nows s) = registers s.
Proof.
  induction nows as [|now nows IH]; intros s Hfire Hd Hs.
  - cbn [ticks foldl length]. repeat split; lia.
  - destruct Hfire as [Hnow Hrest].
    destruct (timer_driver_fire now s) as (Hd' & Hs' & Hstart); try done.
    { unfold timer_fires. lia. }
    destruct (timer_driver_frame now s) as (_ & Hregs & _).
    change (ticks (now :: nows) s) with (ticks nows (timer_driver now s)).
    destruct (IH (timer_driver now s)) as (Hd2 & Hs2 & Hr2); try lia.
    { by rewrite Hstart. }
    rewrite Hd2, Hs2, Hr2, Hd', Hs', Hregs, length_cons. repeat split; lia.
Qed.

(** X16: over a run of cycles in each of which the timer block fires,
    both timers go down by one per cycle until they are 0 and then stay
    there: after [n] such cycles a timer that held [t] holds
    [max 0 (t - n)]. *)
Theorem timers_count_down (nows : list Z) (s : machine) :
  all_fire (timer_start s) nows ->
  0 <= delay_timer s < 256 -> 0 <= sound_timer s < 256 ->
  delay_timer (ticks nows s) = Z.max 0 (delay_timer s - Z.of_nat (length nows)) /\
  sound_timer (ticks nows s) = Z.max 0 (sound_timer s - Z.of_nat (length nows)).
Proof.
  intros Hfire Hd Hs.
  destruct (ticks_count_down nows s Hfire Hd Hs) as (H1 & H2 & _). by split.
Qed.

Lemma timers_count_down_witness :
  delay_timer (ticks [17; 34; 51; 68] (set_delay_timer 3 initial)) = 0 /\
  sound_timer (ticks [17; 34; 51; 68] (set_sound_timer 9 initial)) = 5.
Proof.
  destruct (timers_count_down [17; 34; 51; 68] (set_delay_timer 3 initial))
    as (Hd & _).
  - vm_compute. repeat split; discriminate.
  - simpl. lia.
  - simpl. lia.
  - destruct (timers_count_down [17; 34; 51; 68] (set_sound_timer 9 initial))
      as (_ & Hs).
    + vm_compute. repeat split; discriminate.
    + simpl. lia.
    + simpl. lia.
    + split; [exact Hd|exact Hs].
Defined.

(** X17: a value written to the delay timer with FX15 and read back
    with FY07 after [n] firing cycles comes back as [max 0 (Vx - n)];
    read back at once it comes back unchanged. *)
Theorem delay_timer_round_trip (nows : list Z) (s : machine) (x y : Z) :
  regs_ok s -> bytes (registers s) -> nibble x -> nibble y ->
  all_fire (timer_start s) nows ->
  0 <= sound_timer s < 256 ->
  exists s1 s2,
    ld_reg_to_delay x s = Ok s1 /\
    ld_delay_to_reg y (ticks nows s1) = Ok s2 /\
    regv s2 y = Z.max 0 (regv s x - Z.of_nat (length nows)).
Proof.
  intros Hs Hb Hx Hy Hfire Hst. unfold nibble in *.
  pose proof (regv_byte s x Hb) as Hvx.
  assert (Hbx : 0 <= x < REGISTER_COUNT) by (unfold REGISTER_COUNT; lia).
  assert (Hby : 0 <= y < REGISTER_COUNT) by (unfold REGISTER_COUNT; lia).
  unfold ld_reg_to_delay. rewrite rd_reg_ok by done. cbn [mbind result_bind].
  eexists; eexists. split; [reflexivity|].
  destruct (ticks_count_down nows (set_delay_timer (regv s x) s))
    as (Hd & _ & Hr); try done.
  unfold ld_delay_to_reg.
  rewrite wr_reg_ok by (unfold regs_ok in *; by rewrite ?Hr).
  split; [reflexivity|].
  rewrite regv_set_eq by (unfold regs_ok in *; by rewrite ?Hr).
  rewrite Hd. cbn [delay_timer set_delay_timer]. apply u8_small. lia.
Qed.

Lemma delay_timer_round_trip_witness :
  exists s1 s2,
    ld_reg_to_delay 0 (set_registers (<[0%nat := 60]> (replicate 16 0)) initial) = Ok s1 /\
    ld_delay_to_reg 1 (ticks [16; 32] s1) = Ok s2 /\
    regv s2 1 = 58.
Proof.
  destruct (delay_timer_round_trip [16; 32]
              (set_registers (<[0%nat := 60]> (replicate 16 0)) initial) 0 1)
    as (s1 & s2 & H1 & H2 & Hv).
  - reflexivity.
  - apply bytes_check. reflexivity.
  - unfold nibble. lia.
  - unfold nibble. lia.
  - vm_compute. repeat split; discriminate.
  - simpl. lia.
  - exists s1, s2. split; [exact H1|]. split; [exact H2|exact Hv].
Defined.

(** ** The program counter at the end of the memory *)



(** ** Start-up *)

Lemma overwrite_step (m l : list Z) (d : nat) (b : Z) :
  (d < length m)%nat ->
  overwrite (S d) l (<[d := b]> m) = overwrite d (b :: l) m.
Proof.
  intros Hd. unfold overwrite.
  rewrite (take_S_r _ d b) by (by apply list_lookup_insert_eq).
  rewrite take_insert_ge by lia. rewrite drop_insert_lt by lia.
  rewrite <- app_assoc. cbn [app length].
  by replace (d + S (length l))%nat with (S d + length l)%nat by lia.
Qed.

Lemma memcpy_ok (src : list Z) : forall (dst : Z) (s : machine),
  mem_ok s -> bytes src -> 0 <= dst ->
  dst + Z.of_nat (length src) <= MEMORY_SIZE ->
  memcpy dst src s = Ok (set_memory (overwrite (Z.to_nat dst) src (memory s)) s).
Proof.
  induction src as [|b src IH]; intros dst s Hm Hb Hlo Hhi.
  - cbn [memcpy]. unfold overwrite. cbn [app length].
    rewrite Nat.add_0_r, take_drop. by destruct s.
  - apply Forall_cons in Hb as [Hb0 Hb]. rewrite length_cons in Hhi.
    cbn [memcpy]. rewrite wr_mem_ok by (done || lia). cbn [mbind result_bind].
    rewrite IH; [| by apply mem_ok_set | done | lia | lia].
    unfold mem_ok, MEMORY_SIZE in *. cbn [memory set_memory].
    replace (Z.to_nat (dst + 1)) with (S (Z.to_nat dst)) by lia.
    rewrite overwrite_step by lia. by rewrite u8_small.
Qed.

Lemma load_rom_bytes_ok (file : list Z) : forall s : machine,
  mem_ok s -> bytes file -> 0 <= pc s ->
  pc s + Z.of_nat (length file) <= MEMORY_SIZE ->
  load_rom_bytes file s
  = Ok (set_pc (pc s + Z.of_nat (length file))
          (set_memory (overwrite (Z.to_nat (pc s)) file (memory s)) s)).
Proof.
  induction file as [|b file IH]; intros s Hm Hb Hlo Hhi.
  - cbn [load_rom_bytes]. unfold overwrite. cbn [app length].
    rewrite Nat.add_0_r, take_drop, Z.add_0_r. by destruct s.
  - apply Forall_cons in Hb as [Hb0 Hb]. rewrite length_cons in Hhi.
    unfold MEMORY_SIZE in *.
    cbn [load_rom_bytes]. rewrite wr_mem_ok by (done || (unfold MEMORY_SIZE; lia)).
    cbn [mbind result_bind pc set_memory].
    rewrite IH; cbn [pc set_pc memory set_memory];
      rewrite ?u16_small by lia; [| by apply mem_ok_set | done | lia | lia].
    unfold mem_ok, MEMORY_SIZE in *.
    replace (Z.to_nat (pc s + 1)) with (S (Z.to_nat (pc s))) by lia.
    rewrite overwrite_step by lia. rewrite u8_small by done.
    unfold set_pc, set_memory. cbn [memory registers stack display pc
      address_register stack_register delay_timer sound_timer timer_start length].
    f_equal. f_equal. lia.
Qed.

Lemma overwrite_loaded (rom : list Z) :
  (length rom <= 3584)%nat ->
  overwrite 512 rom (overwrite 0 sprites (replicate 4096 0)) = loaded rom.
Proof.
  intros Hlen.
  change (overwrite 0 sprites (replicate 4096 0))
    with (sprites ++ replicate 4016 0).
  unfold overwrite, loaded.
  change (take 512 (sprites ++ replicate 4016 0))
    with (sprites ++ replicate 432 0).
  change (length sprites) with 80%nat.
  rewrite drop_app_ge by (change (length sprites) with 80%nat; lia).
  change (length sprites) with 80%nat.
  rewrite drop_replicate, <- app_assoc.
  change (512 - 80)%nat with 432%nat.
  by replace (4016 - (512 + length rom - 80))%nat
    with (4096 - 512 - length rom)%nat by lia.
Qed.

(** X19: on the zeroed machine, [load_sprites] followed by [load_rom] of
    a file of at most 3584 bytes returns with the font table in the
    first 80 cells, the file from cell 0x200 on, zeros elsewhere, and
    the program counter back at 0x200. *)
Theorem start_up_loads (rom : list Z) :
  bytes rom -> (length rom <= 3584)%nat ->
  (s ← load_sprites initial; load_rom (Some rom) s) = Ok (boot (loaded rom)).
Proof.
  intros Hb Hlen. unfold load_sprites.
  rewrite memcpy_ok; [|reflexivity|by apply bytes_check|lia|by vm_compute].
  cbn [mbind result_bind load_rom].
  rewrite load_rom_bytes_ok; [|reflexivity|done|by vm_compute|].
  2: { change (0x200 + Z.of_nat (length rom) <= 4096). lia. }
  cbn [mbind result_bind].
  change (Ok (boot (overwrite 512 rom (overwrite 0 sprites (replicate 4096 0))))
          = Ok (boot (loaded rom))).
  by rewrite overwrite_loaded.
Qed.

Lemma start_up_loads_witness :
  (s ← load_sprites initial; load_rom (Some [0x00; 0xE0; 0x12; 0x00]) s)
  = Ok (boot (loaded [0x00; 0xE0; 0x12; 0x00])).
Proof.
  apply (start_up_loads [0x00; 0xE0; 0x12; 0x00]).
  - apply bytes_check. reflexivity.
  - simpl. lia.
Defined.

Lemma load_rom_bytes_overrun (file : list Z) : forall s : machine,
  mem_ok s -> 0 <= pc s <= MEMORY_SIZE ->
  MEMORY_SIZE < pc s + Z.of_nat (length file) ->
  load_rom_bytes file s = OutOfBounds Memory MEMORY_SIZE.
Proof.
  induction file as [|b file IH]; intros s Hm Hpc Hover.
  - cbn [length] in Hover. lia.
  - rewrite length_cons in Hover. cbn [load_rom_bytes].
    destruct (decide (pc s = MEMORY_SIZE)) as [Heq|Hne].
    + unfold wr_mem. rewrite store_out_of_range
        by (unfold mem_ok, MEMORY_SIZE in *; lia).
      cbn [mbind result_bind]. by rewrite Heq.
    + rewrite wr_mem_ok by (done || lia). cbn [mbind result_bind pc set_memory].
      unfold MEMORY_SIZE in *.
      apply IH; cbn [pc set_pc]; rewrite ?u16_small by lia;
        [by apply mem_ok_set|lia|lia].
Qed.

(** X20: [load_rom] fails fatally when the file cannot be opened, and
    does not check the size of the file: one that does not fit between
    the program counter and the end of the memory is written on past
    the last cell. *)
Theorem load_rom_edges (file : list Z) (s : machine) :
  mem_ok s -> 0 <= pc s <= MEMORY_SIZE ->
  load_rom None s = Fatal /\
  (MEMORY_SIZE < pc s + Z.of_nat (length file) ->
   load_rom (Some file) s = OutOfBounds Memory MEMORY_SIZE).
Proof.
  intros Hm Hpc. split; [reflexivity|]. intros Hover.
  unfold load_rom. by rewrite load_rom_bytes_overrun.
Qed.

Lemma load_rom_edges_witness :
  load_rom (Some (replicate 3585 0xFF)) initial = OutOfBounds Memory 4096.
Proof.
  destruct (load_rom_edges (replicate 3585 0xFF) initial) as (_ & Hover).
  - reflexivity.
  - simpl. unfold MEMORY_SIZE. lia.
  - apply Hover. rewrite length_replicate. simpl. unfold MEMORY_SIZE. lia.
Defined.

(** ** What each handler leaves alone

    [P] is a property of the state that the stores listed as hypotheses
    keep; each lemma below needs only the hypotheses for the stores its
    handler makes. *)

Create HintDb frame discriminated.

Section Frame.

Variable P : machine -> Prop.
Hypothesis P_memory : forall m s, P s -> P (set_memory m s).
Hypothesis P_registers : forall r s, P s -> P (set_registers r s).
Hypothesis P_stack : forall k s, P s -> P (set_stack k s).
Hypothesis P_display : forall d s, P s -> P (set_display d s).
Hypothesis P_pc : forall p s, P s -> P (set_pc p s).
Hypothesis P_address_register : forall a s, P s -> P (set_address_register a s).
Hypothesis P_stack_register : forall k s, P s -> P (set_stack_register k s).
Hypothesis P_delay_timer : forall t s, P s -> P (set_delay_timer t s).
Hypothesis P_sound_timer : forall t s, P s -> P (set_sound_timer t s).

Lemma frame_wr_reg (s s' : machine) (i v : Z) :
  wr_reg i v s = Ok s' -> P s -> P s'.
Proof. intros H Hs. unfold wr_reg in H. inv_run. by apply P_registers. Qed.

Lemma frame_wr_mem (s s' : machine) (i v : Z) :
  wr_mem i v s = Ok s' -> P s -> P s'.
Proof. intros H Hs. unfold wr_mem in H. inv_run. by apply P_memory. Qed.

Lemma frame_wr_stack (s s' : machine) (i v : Z) :
  wr_stack i v s = Ok s' -> P s -> P s'.
Proof. intros H Hs. unfold wr_stack in H. inv_run. by apply P_stack. Qed.

Lemma frame_wr_display (s s' : machine) (i v : Z) :
  wr_display i v s = Ok s' -> P s -> P s'.
Proof. intros H Hs. unfold wr_display in H. inv_run. by apply P_display. Qed.

Lemma frame_skip (s : machine) : P s -> P (skip s).
Proof. apply P_pc. Qed.

#[local] Hint Resolve P_pc P_address_register P_stack_register P_delay_timer
  P_sound_timer frame_wr_reg frame_wr_mem frame_wr_stack frame_wr_display
  frame_skip : frame.

Ltac frame_handler f :=
  let H := fresh "Hrun" in
  intros H ?; unfold f in H; inv_run;
  repeat match goal with
  | |- P (if ?b then _ else _) => destruct b
  | H : (if ?b then _ else _) = Ok _ |- _ => destruct b; inv_run
  end;
  eauto 8 with frame.

Lemma frame_chip8_syscall (addr : Z) (s s' : machine) :
  chip8_syscall addr s = Ok s' -> P s -> P s'.
Proof. frame_handler chip8_syscall. Qed.

Lemma frame_cls (s s' : machine) : cls s = Ok s' -> P s -> P s'.
Proof.
  intros H Hs. unfold cls in H.
  eapply (for_loop_preserves P); [|exact Hs|exact H].
  intros j t t' Ht Hrow.
  eapply (for_loop_preserves P); [|exact Ht|exact Hrow].
  intros i u u' Hu Hcell. simpl in Hcell. inv_run. eauto with frame.
Qed.

Lemma frame_ret (s s' : machine) : ret s = Ok s' -> P s -> P s'.
Proof. frame_handler ret. Qed.

Lemma frame_jmp (addr : Z) (s s' : machine) : jmp addr s = Ok s' -> P s -> P s'.
Proof. frame_handler jmp. Qed.

Lemma frame_call (addr : Z) (s s' : machine) : call addr s = Ok s' -> P s -> P s'.
Proof. frame_handler call. Qed.

Lemma frame_se (vx value : Z) (s s' : machine) : se vx value s = Ok s' -> P s -> P s'.
Proof. frame_handler se. Qed.

Lemma frame_sne (vx value : Z) (s s' : machine) : sne vx value s = Ok s' -> P s -> P s'.
Proof. frame_handler sne. Qed.

Lemma frame_se_reg (vx vy : Z) (s s' : machine) : se_reg vx vy s = Ok s' -> P s -> P s'.
Proof. frame_handler se_reg. Qed.

Lemma frame_sne_reg (vx vy : Z) (s s' : machine) : sne_reg vx vy s = Ok s' -> P s -> P s'.
Proof. frame_handler sne_reg. Qed.

Lemma frame_ld (vx val : Z) (s s' : machine) : ld vx val s = Ok s' -> P s -> P s'.
Proof. frame_handler ld. Qed.

Lemma frame_add (vx val : Z) (s s' : machine) : add vx val s = Ok s' -> P s -> P s'.
Proof. frame_handler add. Qed.

Lemma frame_ld_reg (vx vy : Z) (s s' : machine) : ld_reg vx vy s = Ok s' -> P s -> P s'.
Proof. frame_handler ld_reg. Qed.

Lemma frame_or_reg (vx vy : Z) (s s' : machine) : or_reg vx vy s = Ok s' -> P s -> P s'.
Proof. frame_handler or_reg. Qed.

Lemma frame_and_reg (vx vy : Z) (s s' : machine) : and_reg vx vy s = Ok s' -> P s -> P s'.
Proof. frame_handler and_reg. Qed.

Lemma frame_xor_reg (vx vy : Z) (s s' : machine) : xor_reg vx vy s = Ok s' -> P s -> P s'.
Proof. frame_handler xor_reg. Qed.

Lemma frame_add_reg (vx vy : Z) (s s' : machine) : add_reg vx vy s = Ok s' -> P s -> P s'.
Proof. frame_handler add_reg. Qed.

Lemma frame_sub_reg (vx vy : Z) (s s' : machine) : sub_reg vx vy s = Ok s' -> P s -> P s'.
Proof. frame_handler sub_reg. Qed.

Lemma frame_shr_reg (vx : Z) (s s' : machine) : shr_reg vx s = Ok s' -> P s -> P s'.
Proof. frame_handler shr_reg. Qed.

Lemma frame_subn_reg (vx vy : Z) (s s' : machine) : subn_reg vx vy s = Ok s' -> P s -> P s'.
Proof. frame_handler subn_reg. Qed.

Lemma frame_shl_reg (vx : Z) (s s' : machine) : shl_reg vx s = Ok s' -> P s -> P s'.
Proof. frame_handler shl_reg. Qed.

Lemma frame_ld_addr (addr : Z) (s s' : machine) : ld_addr addr s = Ok s' -> P s -> P s'.
Proof. frame_handler ld_addr. Qed.

Lemma frame_jmp_relative (offset : Z) (s s' : machine) :
  jmp_relative offset s = Ok s' -> P s -> P s'.
Proof. frame_handler jmp_relative. Qed.

Lemma frame_rnd (r vx mask : Z) (s s' : machine) : rnd r vx mask s = Ok s' -> P s -> P s'.
Proof. frame_handler rnd. Qed.

Lemma frame_plot (i j : Z) (s s' : machine) : plot i j s = Ok s' -> P s -> P s'.
Proof. frame_handler plot. Qed.

Lemma frame_draw_pixel (mode : DisplayMode) (i0 j0 j1 i1 : Z) (s : machine) (f : flow) :
  draw_pixel mode i0 j0 j1 i1 s = Ok f -> P s -> P (flow_state f).
Proof.
  intros H Hs. unfold draw_pixel in H. inv_run.
  destruct (negb _); [|by inv_run].
  destruct mode.
  - inv_run. simpl. eauto using frame_plot.
  - destruct (_ || _); inv_run; simpl; eauto using frame_plot.
Qed.

Lemma frame_draw (mode : DisplayMode) (vx vy height : Z) (s s' : machine) :
  draw mode vx vy height s = Ok s' -> P s -> P s'.
Proof.
  intros H Hs. unfold draw in H. inv_run.
  eapply (for_loop_preserves P); [|eapply frame_wr_reg; eassumption|eassumption].
  intros j1 t t' Ht Hrow. unfold draw_row in Hrow.
  eapply (for_loop_break_preserves P); [|exact Ht|exact Hrow].
  intros. by eapply frame_draw_pixel.
Qed.

Lemma frame_skip_p (keys : Z -> bool) (vx : Z) (s s' : machine) :
  skip_p keys vx s = Ok s' -> P s -> P s'.
Proof. frame_handler skip_p. Qed.

Lemma frame_skip_np (keys : Z -> bool) (vx : Z) (s s' : machine) :
  skip_np keys vx s = Ok s' -> P s -> P s'.
Proof. frame_handler skip_np. Qed.

Lemma frame_getkey (keys : Z -> bool) (vx : Z) (s s' : machine) :
  getkey keys vx s = Ok s' -> P s -> P s'.
Proof.
  intros H Hs. unfold getkey in H.
  eapply (for_loop_break_preserves P); [|exact Hs|exact H].
  intros i t f Ht Hbody. simpl in Hbody. inv_run.
  destruct a; inv_run; simpl; [eauto with frame|].
  destruct (i =? 15); eauto with frame.
Qed.

Lemma frame_ld_delay_to_reg (vx : Z) (s s' : machine) :
  ld_delay_to_reg vx s = Ok s' -> P s -> P s'.
Proof. frame_handler ld_delay_to_reg. Qed.

Lemma frame_ld_reg_to_delay (vx : Z) (s s' : machine) :
  ld_reg_to_delay vx s = Ok s' -> P s -> P s'.
Proof. frame_handler ld_reg_to_delay. Qed.

Lemma frame_ld_sound (vx : Z) (s s' : machine) :
  ld_sound vx s = Ok s' -> P s -> P s'.
Proof. frame_handler ld_sound. Qed.

Lemma frame_add_addr (vx : Z) (s s' : machine) :
  add_addr vx s = Ok s' -> P s -> P s'.
Proof. frame_handler add_addr. Qed.

Lemma frame_ld_sprite (vx : Z) (s s' : machine) :
  ld_sprite vx s = Ok s' -> P s -> P s'.
Proof. frame_handler ld_sprite. Qed.

Lemma frame_bcd (vx : Z) (s s' : machine) : bcd vx s = Ok s' -> P s -> P s'.
Proof. frame_handler bcd. Qed.

Lemma frame_reg_dump (vx : Z) (s s' : machine) : reg_dump vx s = Ok s' -> P s -> P s'.
Proof.
  intros H Hs. unfold reg_dump in H. inv_run.
  eapply (for_loop_preserves P); [|exact Hs|exact H].
  intros i t t' Ht Hbody. simpl in Hbody. inv_run. eauto with frame.
Qed.

Lemma frame_reg_load (vx : Z) (s s' : machine) : reg_load vx s = Ok s' -> P s -> P s'.
Proof.
  intros H Hs. unfold reg_load in H. inv_run.
  eapply (for_loop_preserves P); [|exact Hs|exact H].
  intros i t t' Ht Hbody. simpl in Hbody. inv_run. eauto with frame.
Qed.

End Frame.

(** The handler run by a cycle, on the state [before_execute] leaves. *)
Lemma cycle_execute (mode : DisplayMode) (keys : Z -> bool) (rand now : Z)
    (s : machine) (opcode : Z) :
  fetch s = Ok opcode ->
  instruction_cycle mode keys rand now s
  = execute mode keys rand opcode (before_execute now s).
Proof.
  intros Hf. unfold instruction_cycle.
  rewrite fetch_timer_driver, Hf. reflexivity.
Qed.

(** Split a run of [execute] into the cases of its [switch]; a case
    the hypotheses exclude goes by arithmetic, the others by the frame
    lemma of the handler. *)
Ltac frame_by L H := eapply L; [..|exact H|eassumption]; assumption.

Ltac frame_cases H :=
  unfold execute in H; cbv zeta in H;
  repeat match type of H with
  | (if ?b then _ else _) = _ => let E := fresh "E" in destruct b eqn:E
  end;
  first
    [ lazymatch type of H with
      | Fatal = _ => discriminate H
      | chip8_syscall _ _ = _ => frame_by frame_chip8_syscall H
      | cls _ = _ => frame_by frame_cls H
      | ret _ = _ => frame_by frame_ret H
      | jmp _ _ = _ => frame_by frame_jmp H
      | call _ _ = _ => frame_by frame_call H
      | se _ _ _ = _ => frame_by frame_se H
      | sne _ _ _ = _ => frame_by frame_sne H
      | se_reg _ _ _ = _ => frame_by frame_se_reg H
      | sne_reg _ _ _ = _ => frame_by frame_sne_reg H
      | ld _ _ _ = _ => frame_by frame_ld H
      | add _ _ _ = _ => frame_by frame_add H
      | ld_reg _ _ _ = _ => frame_by frame_ld_reg H
      | or_reg _ _ _ = _ => frame_by frame_or_reg H
      | and_reg _ _ _ = _ => frame_by frame_and_reg H
      | xor_reg _ _ _ = _ => frame_by frame_xor_reg H
      | add_reg _ _ _ = _ => frame_by frame_add_reg H
      | sub_reg _ _ _ = _ => frame_by frame_sub_reg H
      | shr_reg _ _ = _ => frame_by frame_shr_reg H
      | subn_reg _ _ _ = _ => frame_by frame_subn_reg H
      | shl_reg _ _ = _ => frame_by frame_shl_reg H
      | ld_addr _ _ = _ => frame_by frame_ld_addr H
      | jmp_relative _ _ = _ => frame_by frame_jmp_relative H
      | rnd _ _ _ _ = _ => frame_by frame_rnd H
      | draw _ _ _ _ _ = _ => frame_by frame_draw H
      | skip_p _ _ _ = _ => frame_by frame_skip_p H
      | skip_np _ _ _ = _ => frame_by frame_skip_np H
      | getkey _ _ _ = _ => frame_by frame_getkey H
      | ld_delay_to_reg _ _ = _ => frame_by frame_ld_delay_to_reg H
      | ld_reg_to_delay _ _ = _ => frame_by frame_ld_reg_to_delay H
      | ld_sound _ _ = _ => frame_by frame_ld_sound H
      | add_addr _ _ = _ => frame_by frame_add_addr H
      | ld_sprite _ _ = _ => frame_by frame_ld_sprite H
      | bcd _ _ = _ => frame_by frame_bcd H
      | reg_dump _ _ = _ => frame_by frame_reg_dump H
      | reg_load _ _ = _ => frame_by frame_reg_load H
      end
    | repeat match goal with
             | E : (_ =? _) = false |- _ => clear E
             | E : (_ =? _) = true |- _ => apply Z.eqb_eq in E
             end;
      lia ].

(** X21: a cycle that returns leaves the call stack and the stack
    register as they were, unless the instruction it fetched is 2NNN or
    00EE: no other instruction touches the call stack. *)
Theorem stack_written_only_by_call_and_ret (mode : DisplayMode)
    (keys : Z -> bool) (rand now : Z) (s s' : machine) (opcode : Z) :
  fetch s = Ok opcode ->
  instruction_cycle mode keys rand now s = Ok s' ->
  Z.land opcode 0xf000 <> 0x2000 -> opcode <> 0x00EE ->
  stack s' = stack s /\ stack_register s' = stack_register s.
Proof.
  intros Hf Hrun Hcall Hret. rewrite (cycle_execute _ _ _ _ _ _ Hf) in Hrun.
  set (P := fun t : machine =>
         stack t = stack s /\ stack_register t = stack_register s).
  assert (Hs : P (before_execute now s)).
  { destruct (before_execute_keeps_stack now s) as (Hk & Hr & _). by split. }
  assert (Hm : forall m t, P t -> P (set_memory m t)) by (by intros).
  assert (Hg : forall r t, P t -> P (set_registers r t)) by (by intros).
  assert (Hd : forall d t, P t -> P (set_display d t)) by (by intros).
  assert (Hp : forall p t, P t -> P (set_pc p t)) by (by intros).
  assert (Ha : forall a t, P t -> P (set_address_register a t)) by (by intros).
  assert (Hdt : forall d t, P t -> P (set_delay_timer d t)) by (by intros).
  assert (Hst : forall d t, P t -> P (set_sound_timer d t)) by (by intros).
  change (P s'). clearbody P. frame_cases Hrun.
Qed.

Lemma stack_written_only_by_call_and_ret_witness :
  exists s',
    instruction_cycle CLAMP no_keys 0 0 (boot (loaded [0xD0; 0x05])) = Ok s' /\
    stack s' = stack (boot (loaded [0xD0; 0x05])) /\
    stack_register s' = 0.
Proof.
  destruct (instruction_cycle CLAMP no_keys 0 0 (boot (loaded [0xD0; 0x05])))
    as [s'| |] eqn:Hrun; [|by vm_compute in Hrun..].
  exists s'. split; [reflexivity|].
  apply (stack_written_only_by_call_and_ret CLAMP no_keys 0 0
           (boot (loaded [0xD0; 0x05])) s' 0xD005).
  - reflexivity.
  - exact Hrun.
  - by vm_compute.
  - by vm_compute.
Defined.

(** X22: a cycle that returns leaves the memory as it was, unless the
    instruction it fetched is FX33 or FX55: a program is overwritten by
    nothing but these two. *)
Theorem memory_written_only_by_bcd_and_reg_dump (mode : DisplayMode)
    (keys : Z -> bool) (rand now : Z) (s s' : machine) (opcode : Z) :
  fetch s = Ok opcode ->
  instruction_cycle mode keys rand now s = Ok s' ->
  (Z.land opcode 0xf000 = 0xF000 ->
   Z.land opcode 0x00ff <> 0x33 /\ Z.land opcode 0x00ff <> 0x55) ->
  memory s' = memory s.
Proof.
  intros Hf Hrun Hop. rewrite (cycle_execute _ _ _ _ _ _ Hf) in Hrun.
  set (P := fun t : machine => memory t = memory s).
  assert (Hs : P (before_execute now s)).
  { destruct (timer_driver_frame now s) as (Hm & _). exact Hm. }
  assert (Hg : forall r t, P t -> P (set_registers r t)) by (by intros).
  assert (Hk : forall k t, P t -> P (set_stack k t)) by (by intros).
  assert (Hd : forall d t, P t -> P (set_display d t)) by (by intros).
  assert (Hp : forall p t, P t -> P (set_pc p t)) by (by intros).
  assert (Ha : forall a t, P t -> P (set_address_register a t)) by (by intros).
  assert (Hr : forall k t, P t -> P (set_stack_register k t)) by (by intros).
  assert (Hdt : forall d t, P t -> P (set_delay_timer d t)) by (by intros).
  assert (Hst : forall d t, P t -> P (set_sound_timer d t)) by (by intros).
  change (P s'). clearbody P. frame_cases Hrun.
Qed.

Lemma memory_written_only_by_bcd_and_reg_dump_witness :
  exists s',
    instruction_cycle CLAMP no_keys 0 0 (boot (loaded [0xF0; 0x65])) = Ok s' /\
    memory s' = loaded [0xF0; 0x65].
Proof.
  destruct (instruction_cycle CLAMP no_keys 0 0 (boot (loaded [0xF0; 0x65])))
    as [s'| |] eqn:Hrun; [|by vm_compute in Hrun..].
  exists s'. split; [reflexivity|].
  apply (memory_written_only_by_bcd_and_reg_dump CLAMP no_keys 0 0
           (boot (loaded [0xF0; 0x65])) s' 0xF065).
  - reflexivity.
  - exact Hrun.
  - intros _. by vm_compute.
Defined.

(** X23: a cycle that returns leaves the display as it was, unless the
    instruction it fetched is 00E0 or DXYN. *)
Theorem display_written_only_by_cls_and_draw (mode : DisplayMode)
    (keys : Z -> bool) (rand now : Z) (s s' : machine) (opcode : Z) :
  fetch s = Ok opcode ->
  instruction_cycle mode keys rand now s = Ok s' ->
  opcode <> 0x00E0 -> Z.land opcode 0xf000 <> 0xD000 ->
  display s' = display s.
Proof.
  intros Hf Hrun Hcls Hdraw. rewrite (cycle_execute _ _ _ _ _ _ Hf) in Hrun.
  set (P := fun t : machine => display t = display s).
  assert (Hs : P (before_execute now s)).
  { destruct (timer_driver_frame now s) as (_ & _ & _ & Hd & _). exact Hd. }
  assert (Hm : forall m t, P t -> P (set_memory m t)) by (by intros).
  assert (Hg : forall r t, P t -> P (set_registers r t)) by (by intros).
  assert (Hk : forall k t, P t -> P (set_stack k t)) by (by intros).
  assert (Hp : forall p t, P t -> P (set_pc p t)) by (by intros).
  assert (Ha : forall a t, P t -> P (set_address_register a t)) by (by intros).
  assert (Hr : forall k t, P t -> P (set_stack_register k t)) by (by intros).
  assert (Hdt : forall d t, P t -> P (set_delay_timer d t)) by (by intros).
  assert (Hst : forall d t, P t -> P (set_sound_timer d t)) by (by intros).
  change (P s'). clearbody P. frame_cases Hrun.
Qed.

Lemma display_written_only_by_cls_and_draw_witness :
  exists s',
    instruction_cycle CLAMP no_keys 0 0 (boot (loaded [0xF0; 0x33])) = Ok s' /\
    display s' = replicate 2048 0.
Proof.
  destruct (instruction_cycle CLAMP no_keys 0 0 (boot (loaded [0xF0; 0x33])))
    as [s'| |] eqn:Hrun; [|by vm_compute in Hrun..].
  exists s'. split; [reflexivity|].
  apply (display_written_only_by_cls_and_draw CLAMP no_keys 0 0
           (boot (loaded [0xF0; 0x33])) s' 0xF033).
  - reflexivity.
  - exact Hrun.
  - by vm_compute.
  - by vm_compute.
Defined.

(** X24: a cycle that returns has advanced the program counter by
    exactly one instruction (two bytes), unless the instruction it
    fetched is a return, jump, call, skip or key wait (00EE, 1NNN, 2NNN,
    3XNN, 4XNN, 5XY0, 9XY0, BNNN, EX9E, EXA1, FX0A). *)
Theorem straight_line_advances_pc (mode : DisplayMode)
    (keys : Z -> bool) (rand now : Z) (s s' : machine) (opcode : Z) :
  mem_ok s ->
  fetch s = Ok opcode ->
  instruction_cycle mode keys rand now s = Ok s' ->
  opcode <> 0x00EE ->
  ~ In (Z.land opcode 0xf000)
       [0x1000; 0x2000; 0x3000; 0x4000; 0x5000; 0x9000; 0xB000; 0xE000] ->
  (Z.land opcode 0xf000 = 0xF000 -> Z.land opcode 0x00ff <> 0x0A) ->
  pc s' = pc s + OPCODE_SIZE.
Proof.
  intros Hmem Hf Hrun Hret Hclass Hkey.
  rewrite (cycle_execute _ _ _ _ _ _ Hf) in Hrun.
  destruct (fetch_in_range s opcode Hmem Hf) as [Hlo Hhi].
  set (P := fun t : machine => pc t = pc s + OPCODE_SIZE).
  assert (Hs : P (before_execute now s)).
  { destruct (timer_driver_frame now s) as (_ & _ & _ & _ & Hp & _).
    unfold P, before_execute. cbn [pc set_pc]. rewrite Hp.
    apply u16_small. unfold MEMORY_SIZE, OPCODE_SIZE in *. lia. }
  assert (Hm : forall m t, P t -> P (set_memory m t)) by (by intros).
  assert (Hg : forall r t, P t -> P (set_registers r t)) by (by intros).
  assert (Hk : forall k t, P t -> P (set_stack k t)) by (by intros).
  assert (Hd : forall d t, P t -> P (set_display d t)) by (by intros).
  assert (Ha : forall a t, P t -> P (set_address_register a t)) by (by intros).
  assert (Hr : forall k t, P t -> P (set_stack_register k t)) by (by intros).
  assert (Hdt : forall d t, P t -> P (set_delay_timer d t)) by (by intros).
  assert (Hst : forall d t, P t -> P (set_sound_timer d t)) by (by intros).
  change (P s'). clearbody P. cbn [In] in Hclass. frame_cases Hrun.
Qed.

Lemma straight_line_advances_pc_witness :
  exists s',
    instruction_cycle CLAMP no_keys 0 0 (boot (loaded [0x8A; 0xB4])) = Ok s' /\
    pc s' = 0x202.
Proof.
  destruct (instruction_cycle CLAMP no_keys 0 0 (boot (loaded [0x8A; 0xB4])))
    as [s'| |] eqn:Hrun; [|by vm_compute in Hrun..].
  exists s'. split; [reflexivity|].
  apply (straight_line_advances_pc CLAMP no_keys 0 0
           (boot (loaded [0x8A; 0xB4])) s' 0x8AB4).
  - reflexivity.
  - reflexivity.
  - exact Hrun.
  - by vm_compute.
  - vm_compute. lia.
  - by vm_compute.
Defined.

(** X25: a cycle that returns leaves the address register as it was
    unless the instruction it fetched is ANNN, FX1E or FX29, and leaves
    the two timers as the timer driver left them unless it is FX15 or
    FX18. *)
Theorem scalars_written_only_by_their_loads (mode : DisplayMode)
    (keys : Z -> bool) (rand now : Z) (s s' : machine) (opcode : Z) :
  fetch s = Ok opcode ->
  instruction_cycle mode keys rand now s = Ok s' ->
  (Z.land opcode 0xf000 <> 0xA000 ->
   (Z.land opcode 0xf000 = 0xF000 ->
    Z.land opcode 0x00ff <> 0x1E /\ Z.land opcode 0x00ff <> 0x29) ->
   address_register s' = address_register s) /\
  ((Z.land opcode 0xf000 = 0xF000 ->
    Z.land opcode 0x00ff <> 0x15 /\ Z.land opcode 0x00ff <> 0x18) ->
   delay_timer s' = delay_timer (timer_driver now s) /\
   sound_timer s' = sound_timer (timer_driver now s)).
Proof.
  intros Hf Hrun. rewrite (cycle_execute _ _ _ _ _ _ Hf) in Hrun. split.
  - intros Hld Hop.
    set (P := fun t : machine => address_register t = address_register s).
    assert (Hs : P (before_execute now s)).
    { destruct (timer_driver_frame now s) as (_ & _ & _ & _ & _ & Ha & _).
      exact Ha. }
    assert (Hm : forall m t, P t -> P (set_memory m t)) by (by intros).
    assert (Hg : forall r t, P t -> P (set_registers r t)) by (by intros).
    assert (Hk : forall k t, P t -> P (set_stack k t)) by (by intros).
    assert (Hd : forall d t, P t -> P (set_display d t)) by (by intros).
    assert (Hp : forall p t, P t -> P (set_pc p t)) by (by intros).
    assert (Hr : forall k t, P t -> P (set_stack_register k t)) by (by intros).
    assert (Hdt : forall d t, P t -> P (set_delay_timer d t)) by (by intros).
    assert (Hst : forall d t, P t -> P (set_sound_timer d t)) by (by intros).
    change (P s'). clearbody P. frame_cases Hrun.
  - intros Hop.
    set (P := fun t : machine =>
           delay_timer t = delay_timer (timer_driver now s) /\
           sound_timer t = sound_timer (timer_driver now s)).
    assert (Hs : P (before_execute now s)) by done.
    assert (Hm : forall m t, P t -> P (set_memory m t)) by (by intros).
    assert (Hg : forall r t, P t -> P (set_registers r t)) by (by intros).
    assert (Hk : forall k t, P t -> P (set_stack k t)) by (by intros).
    assert (Hd : forall d t, P t -> P (set_display d t)) by (by intros).
    assert (Hp : forall p t, P t -> P (set_pc p t)) by (by intros).
    assert (Ha : forall a t, P t -> P (set_address_register a t)) by (by intros).
    assert (Hr : forall k t, P t -> P (set_stack_register k t)) by (by intros).
    change (P s'). clearbody P. frame_cases Hrun.
Qed.

Lemma scalars_written_only_by_their_loads_witness :
  exists s',
    instruction_cycle CLAMP no_keys 0 0 (boot (loaded [0x61; 0x07])) = Ok s' /\
    address_register s' = 0 /\ delay_timer s' = 0 /\ sound_timer s' = 0.
Proof.
  destruct (instruction_cycle CLAMP no_keys 0 0 (boot (loaded [0x61; 0x07])))
    as [s'| |] eqn:Hrun; [|by vm_compute in Hrun..].
  exists s'. split; [reflexivity|].
  destruct (scalars_written_only_by_their_loads CLAMP no_keys 0 0
              (boot (loaded [0x61; 0x07])) s' 0x6107) as [Ha Ht].
  - reflexivity.
  - exact Hrun.
  - split; [apply Ha; by vm_compute|apply Ht; by vm_compute].
Defined.

(** ** DXYN, both policies *)





Lemma wrap_cell_inj (x y a b a' b' : Z) :
  0 <= a < 8 -> 0 <= a' < 8 ->
  0 <= b < DISPLAY_HEIGHT -> 0 <= b' < DISPLAY_HEIGHT ->
  wrap_cell x y a b = wrap_cell x y a' b' -> a = a' /\ b = b'.
Proof.
  intros Ha Ha' Hb Hb' H. unfold wrap_cell in H.
  unfold DISPLAY_WIDTH, DISPLAY_HEIGHT in *.
  apply cell_inj in H as [Hc Hr]; unfold DISPLAY_WIDTH; zdiv.
Qed.

(** X27: under the wrap policy, for a sprite of at most 32 rows that
    lies inside the memory, [draw] returns; every sprite bit is XORed
    into the cell under it, coordinates taken modulo the width and the
    height of the display; every other cell is left as it was; and the
    flag register ends as 1 if some set bit lay over a lit cell, as 0 if
    none did. *)
Theorem draw_wrap_xor (s : machine) (vx vy height : Z) :
  regs_ok s -> bytes (registers s) -> display_ok s -> mem_ok s ->
  0 <= vx < REGISTER_COUNT -> 0 <= vy < REGISTER_COUNT ->
  0 <= height <= DISPLAY_HEIGHT ->
  0 <= address_register s -> address_register s + height <= MEMORY_SIZE ->
  exists s',
    draw WRAP vx vy height s = Ok s' /\
    (forall i1 j1, 0 <= i1 < 8 -> 0 <= j1 < height ->
       display s' !! wrap_cell (regv s vx) (regv s vy) i1 j1
       = toggle (sprite_bit s j1 i1)
           <$> display s !! wrap_cell (regv s vx) (regv s vy) i1 j1) /\
    (forall c : nat,
       (forall i1 j1, 0 <= i1 < 8 -> 0 <= j1 < height ->
          c <> wrap_cell (regv s vx) (regv s vy) i1 j1) ->
       display s' !! c = display s !! c) /\
    (wrap_collision s (regv s vx) (regv s vy) height -> regv s' 0xf = 1) /\
    (~ wrap_collision s (regv s vx) (regv s vy) height -> regv s' 0xf = 0).
Proof.
  intros Hr Hb Hd Hm Hx Hy Hh Ha Hah.
  pose proof (regv_byte s vx Hb) as Hvx. pose proof (regv_byte s vy Hb) as Hvy.
  unfold draw. run_regs.
  set (x := regv s vx) in *. set (y := regv s vy) in *.
  set (s0 := set_registers _ s).
  (* pixels done when the loops stand at row [j1], column [i1] *)
  set (done_at := fun (j1 i1 b a : Z) => (b <? j1) || ((b =? j1) && (a <? i1))).
  set (hit := fun (j1 i1 : Z) =>
         exists a b d, 0 <= a < 8 /\ 0 <= b < height /\
           done_at j1 i1 b a = true /\ sprite_bit s b a = true /\
           display s !! wrap_cell x y a b = Some d /\ d <> 0).
  set (Pix := fun (j1 i1 : Z) (t : machine) =>
         draw_inv t /\ memory t = memory s /\
         address_register t = address_register s /\
         (forall a b, 0 <= a < 8 -> 0 <= b < height ->
            display t !! wrap_cell x y a b
            = (if done_at j1 i1 b a then toggle (sprite_bit s b a) else id)
                <$> display s !! wrap_cell x y a b) /\
         (forall c : nat,
            (forall a b, 0 <= a < 8 -> 0 <= b < height -> c <> wrap_cell x y a b) ->
            display t !! c = display s !! c) /\
         (regv t 0xf = 0 \/ regv t 0xf = 1) /\
         (regv t 0xf = 1 <-> hit j1 i1)).
  assert (Hcol : forall a, 0 <= (x + a) mod DISPLAY_WIDTH < DISPLAY_WIDTH)
    by (intros a; apply Z.mod_pos_bound; done).
  assert (Hrow : forall b, 0 <= (y + b) mod DISPLAY_HEIGHT < DISPLAY_HEIGHT)
    by (intros b; apply Z.mod_pos_bound; done).
  destruct (for_loop_total (fun j1 t => Pix j1 0 t) (draw_row WRAP x y)
              (Z.to_nat height) 0 s0) as (s' & Hrun & HP).
  - (* one row *)
    intros j1 t Hj1 Ht. unfold draw_row.
    apply (for_loop_break_total (fun i1 u => Pix j1 i1 u)
             (fun u => Pix (j1 + 1) 0 u)); [| |exact Ht].
    + (* one pixel *)
      intros i1 u Hi1 (Hu & Hmem & Hadr & Hdisp & Hrest & Hflag & Hiff).
      assert (Hhit : hit j1 (i1 + 1) <->
                hit j1 i1 \/
                (sprite_bit s j1 i1 = true /\
                 exists d, display s !! wrap_cell x y i1 j1 = Some d /\ d <> 0)).
      { split.
        - intros (a & b & d & Ha' & Hb' & Hdone & Hbit & Hcell & Hd0).
          destruct (decide (a = i1 /\ b = j1)) as [[-> ->]|Hne].
          + right. eauto.
          + left. exists a, b, d. repeat split; try done; try lia.
            unfold done_at in *. lia.
        - intros [(a & b & d & Ha' & Hb' & Hdone & Hbit & Hcell & Hd0)
                 |(Hbit & d & Hcell & Hd0)].
          + exists a, b, d. repeat split; try done; try lia.
            unfold done_at in *. lia.
          + exists i1, j1, d. repeat split; try done; try lia.
            unfold done_at. lia. }
      unfold draw_pixel.
      destruct (rd_mem_ok u (address_register u + j1)) as (m & -> & Hmrow).
      { unfold mem_ok. by rewrite Hmem. }
      { rewrite Hadr. lia. }
      cbn [mbind result_bind].
      rewrite !Z.rem_mod_nonneg by (done || lia).
      rewrite !u8_small
        by (pose proof (Hcol i1); pose proof (Hrow j1);
            unfold DISPLAY_WIDTH, DISPLAY_HEIGHT in *; lia).
      assert (Hbit : sprite_bit s j1 i1 = negb (Z.land m (Z.shiftr 0x80 i1) =? 0)).
      { unfold sprite_bit. by rewrite <- Hmem, <- Hadr, Hmrow. }
      rewrite <- Hbit.
      destruct (sprite_bit s j1 i1) eqn:Hset.
      * destruct Hu as [Hur Hud].
        destruct (plot_ok u ((x + i1) mod DISPLAY_WIDTH) ((y + j1) mod DISPLAY_HEIGHT))
          as (d & Hcell & ->); [done|done|apply Hcol|apply Hrow|].
        fold (cell ((x + i1) mod DISPLAY_WIDTH) ((y + j1) mod DISPLAY_HEIGHT)) in *.
        fold (wrap_cell x y i1 j1) in *.
        cbn [mbind result_bind]. eexists; split; [reflexivity|].
        assert (Hcell0 : display s !! wrap_cell x y i1 j1 = Some d).
        { rewrite Hdisp in Hcell by lia. unfold done_at in Hcell.
          replace ((j1 <? j1) || (j1 =? j1) && (i1 <? i1)) with false in Hcell by lia.
          destruct (display s !! wrap_cell x y i1 j1) as [d0|]; [|done].
          simpl in Hcell. congruence. }
        assert (Hlen : (wrap_cell x y i1 j1 < length (display u))%nat).
        { by eapply lookup_lt_Some. }
        split; [|split; [|split; [|split; [|split; [|split]]]]].
        -- unfold draw_inv, regs_ok, display_ok in *.
           destruct (negb (d =? 0)); simpl; rewrite ?length_insert; done.
        -- by destruct (negb (d =? 0)).
        -- by destruct (negb (d =? 0)).
        -- intros a b Ha' Hb'. cbn [display set_display].
           replace (display (if negb (d =? 0)
                             then set_registers (<[Z.to_nat 15:=u8 1]> (registers u)) u
                             else u)) with (display u)
             by (by destruct (negb (d =? 0))).
           destruct (decide (a = i1 /\ b = j1)) as [[-> ->]|Hother].
           ++ rewrite list_lookup_insert_eq by done.
              rewrite Hcell0. unfold done_at.
              replace ((j1 <? j1) || (j1 =? j1) && (i1 <? i1 + 1)) with true by lia.
              by rewrite Hset.
           ++ rewrite list_lookup_insert_ne.
              ** rewrite Hdisp by done. unfold done_at.
                 replace ((b <? j1) || (b =? j1) && (a <? i1 + 1))
                   with ((b <? j1) || (b =? j1) && (a <? i1)) by lia. done.
              ** intros Heq. apply wrap_cell_inj in Heq as [? ?];
                   unfold DISPLAY_HEIGHT in *; lia.
        -- intros c Hc. cbn [display set_display].
           replace (display (if negb (d =? 0)
                             then set_registers (<[Z.to_nat 15:=u8 1]> (registers u)) u
                             else u)) with (display u)
             by (by destruct (negb (d =? 0))).
           rewrite list_lookup_insert_ne; [by apply Hrest|].
           intros <-. by apply (Hc i1 j1); lia.
        -- destruct (negb (d =? 0)); [|exact Hflag].
           right. change (regv (set_registers (<[Z.to_nat 15 := u8 1]> (registers u)) u) 15 = 1).
           by rewrite regv_set_eq by range.
        -- destruct (Z.eqb_spec d 0) as [Hd0|Hd0]; cbn [negb].
           ++ change (regv u 15 = 1 <-> hit j1 (i1 + 1)).
              rewrite Hhit, Hiff. split; [by left|].
              intros [H|(_ & d' & Hd' & Hne)]; [done|]. congruence.
           ++ change (regv (set_registers (<[Z.to_nat 15 := u8 1]> (registers u)) u) 15 = 1
                      <-> hit j1 (i1 + 1)).
              rewrite regv_set_eq by range. rewrite Hhit.
              split; [|done]. intros _. right. split; [done|]. by exists d.
      * eexists; split; [reflexivity|].
        split; [done|]. split; [done|]. split; [done|].
        split; [|split; [done|split; [done|]]].
        -- intros a b Ha' Hb'. rewrite Hdisp by done. unfold done_at.
           destruct (decide (a = i1 /\ b = j1)) as [[-> ->]|Hother].
           ++ replace ((j1 <? j1) || (j1 =? j1) && (i1 <? i1)) with false by lia.
              replace ((j1 <? j1) || (j1 =? j1) && (i1 <? i1 + 1)) with true by lia.
              rewrite Hset. by destruct (display s !! _).
           ++ replace ((b <? j1) || (b =? j1) && (a <? i1 + 1))
                with ((b <? j1) || (b =? j1) && (a <? i1)) by lia. done.
        -- rewrite Hhit, Hiff. split; [by left|].
           intros [H|(Hbit' & _)]; [done|]. congruence.
    + (* the row is done after eight pixels *)
      intros u (Hu & Hmem & Hadr & Hdisp & Hrest & Hflag & Hiff).
      split; [done|]. split; [done|]. split; [done|].
      split; [|split; [done|split; [done|]]].
      * intros a b Ha' Hb'. rewrite Hdisp by done. unfold done_at.
        change (0 + Z.of_nat 8) with 8.
        replace ((b <? j1 + 1) || (b =? j1 + 1) && (a <? 0))
          with ((b <? j1) || (b =? j1) && (a <? 8)) by lia. done.
      * rewrite Hiff. change (0 + Z.of_nat 8) with 8.
        split; intros (a & b & d & Ha' & Hb' & Hdone & Hbit & Hcell & Hd0);
          exists a, b, d; repeat split; try done; try lia;
          unfold done_at in *; lia.
  - (* nothing is done before the first row *)
    split; [split; [by apply regs_ok_set|done]|].
    split; [done|]. split; [done|].
    split; [|split; [done|split]].
    + intros a b Ha' Hb'. unfold done_at.
      replace ((b <? 0) || (b =? 0) && (a <? 0)) with false by lia.
      cbn [display s0 set_registers]. by destruct (display s !! _).
    + left. unfold s0. by rewrite regv_set_eq by range.
    + unfold s0. rewrite regv_set_eq by range. split; [done|].
      intros (a & b & d & Ha' & Hb' & Hdone & _). unfold done_at in Hdone. lia.
  - exists s'. split; [exact Hrun|].
    destruct HP as (_ & _ & _ & Hdisp & Hrest & Hflag & Hiff).
    assert (Hall : hit (0 + Z.of_nat (Z.to_nat height)) 0 <-> wrap_collision s x y height).
    { unfold wrap_collision.
      replace (0 + Z.of_nat (Z.to_nat height)) with height by lia.
      split; intros (a & b & d & Ha' & Hb' & H); exists a, b, d;
        repeat split; try tauto; try lia.
      unfold done_at. lia. }
    split; [|split; [exact Hrest|split]].
    + intros i1 j1 Hi1 Hj1. rewrite Hdisp by done. unfold done_at.
      replace (0 + Z.of_nat (Z.to_nat height)) with height by lia.
      replace (j1 <? height) with true by lia. done.
    + intros Hc. apply Hiff, Hall, Hc.
    + intros Hc. destruct Hflag as [H0|H1]; [done|].
      exfalso. apply Hc, Hall, Hiff, H1.
Qed.

Lemma draw_wrap_xor_witness :
  exists s',
    draw WRAP 0 1 5 (boot (loaded [])) = Ok s' /\ regv s' 0xf = 0.
Proof.
  destruct (draw_wrap_xor (boot (loaded [])) 0 1 5)
    as (s' & Hrun & _ & _ & _ & Hclear).
  - reflexivity.
  - apply bytes_check. reflexivity.
  - reflexivity.
  - reflexivity.
  - unfold REGISTER_COUNT. lia.
  - unfold REGISTER_COUNT. lia.
  - unfold DISPLAY_HEIGHT. lia.
  - simpl. lia.
  - simpl. unfold MEMORY_SIZE. lia.
  - exists s'. split; [exact Hrun|]. apply Hclear.
    intros (a & b & d & _ & _ & _ & Hcell & Hd).
    apply lookup_replicate in Hcell as [-> _]. exact (Hd eq_refl).
Defined.

(** X28: under the clamp policy, as long as neither coordinate sum
    passes 255 and the sprite rows lie inside the memory, [draw] returns;
    every sprite bit whose pixel is inside the display is XORed into the
    cell under it, and every cell that is not under the part of the
    sprite inside the display is left as it was. *)
Theorem draw_clamp_within_edges (s : machine) (vx vy height : Z) :
  regs_ok s -> bytes (registers s) -> display_ok s -> mem_ok s ->
  0 <= vx < REGISTER_COUNT -> 0 <= vy < REGISTER_COUNT ->
  regv s vx + 8 <= 256 -> regv s vy + height <= 256 ->
  0 <= address_register s -> address_register s + height <= MEMORY_SIZE ->
  exists s',
    draw CLAMP vx vy height s = Ok s' /\
    (forall i1 j1,
       0 <= i1 < 8 -> 0 <= j1 < height ->
       regv s vx + i1 < DISPLAY_WIDTH -> regv s vy + j1 < DISPLAY_HEIGHT ->
       display s' !! cell (regv s vx + i1) (regv s vy + j1)
       = toggle (sprite_bit s j1 i1)
           <$> display s !! cell (regv s vx + i1) (regv s vy + j1)) /\
    (forall c : nat,
       ~ sprite_cell (regv s vx) (regv s vy) height c ->
       display s' !! c = display s !! c).
Proof.
  intros Hr Hb Hd Hm Hx Hy Hnx Hny Ha Hah.
  destruct (draw_clamp_xor s vx vy height) as (s' & Hrun & Hxor); try done.
  exists s'. split; [exact Hrun|]. split; [exact Hxor|].
  by apply (draw_clamp_clips s s' vx vy height).
Qed.

Lemma draw_clamp_within_edges_witness :
  exists s',
    draw CLAMP 0 1 5 (boot (loaded [])) = Ok s' /\
    display s' !! 0%nat = Some 1 /\ display s' !! 8%nat = Some 0.
Proof.
  destruct (draw_clamp_within_edges (boot (loaded [])) 0 1 5)
    as (s' & Hrun & Hxor & Hclip).
  - reflexivity.
  - apply bytes_check. reflexivity.
  - reflexivity.
  - reflexivity.
  - unfold REGISTER_COUNT. lia.
  - unfold REGISTER_COUNT. lia.
  - change (0 + 8 <= 256). lia.
  - change (0 + 5 <= 256). lia.
  - simpl. lia.
  - simpl. unfold MEMORY_SIZE. lia.
  - exists s'. split; [exact Hrun|]. split.
    + apply (Hxor 0 0); try lia.
      * change (0 + 0 < 64). lia.
      * change (0 + 0 < 32). lia.
    + rewrite (Hclip 8%nat); [reflexivity|].
      intros (i1 & j1 & Hi1 & Hj1 & _ & _ & Hc).
      change (8%nat = Z.to_nat (0 + i1 + (0 + j1) * 64)) in Hc. lia.
Defined.

(** ** Bound checks of the handlers that go through the address register *)

Lemma reg_load_loop_overrun (n : nat) : forall (k : Z) (s : machine),
  regs_ok s -> mem_ok s -> 0 <= k -> k + Z.of_nat n < REGISTER_COUNT ->
  0 <= address_register s ->
  MEMORY_SIZE <= address_register s + k + Z.of_nat n ->
  for_loop (S n) k (fun i s =>
    ERRCHK (address_register s + i <? MEMORY_SIZE);;
    m ← rd_mem (address_register s + i) s;
    wr_reg i m s) s
  = Fatal.
Proof.
  induction n as [|n IH]; intros k s Hr Hm Hk Hkn Ha Hover.
  - cbn [for_loop].
    replace (address_register s + k <? MEMORY_SIZE) with false by lia.
    reflexivity.
  - change (for_loop (S (S n)) k ?body s)
      with (s' ← body k s; for_loop (S n) (k + 1) body s').
    cbn beta.
    destruct (Z.ltb_spec (address_register s + k) MEMORY_SIZE) as [Hin|Hout];
      cbn [ERRCHK mbind result_bind]; [|done].
    destruct (rd_mem_ok s (address_register s + k)) as (m & -> & _); [done|lia|].
    cbn [mbind result_bind].
    rewrite wr_reg_ok by range. cbn [mbind result_bind].
    apply IH; try range.
Qed.

(** X29: of the handlers that address the memory through the address
    register, [reg_load] checks every cell against the end of the memory
    and fails fatally on a transfer that would pass it; [bcd] makes no
    check and writes the first of its three digits that lies outside. *)
Theorem bound_checks_of_reg_load_and_bcd (s : machine) (vx : Z) :
  regs_ok s -> mem_ok s -> 0 <= vx < REGISTER_COUNT ->
  0 <= address_register s ->
  (MEMORY_SIZE <= address_register s + vx -> reg_load vx s = Fatal) /\
  (MEMORY_SIZE <= address_register s + 2 ->
   bcd vx s = OutOfBounds Memory (Z.max (address_register s) MEMORY_SIZE)).
Proof.
  intros Hr Hm Hx Ha. split; intros Hover.
  - unfold reg_load.
    replace (vx <? REGISTER_COUNT) with true by lia.
    cbn [ERRCHK mbind result_bind].
    replace (Z.to_nat (vx + 1)) with (S (Z.to_nat vx)) by lia.
    apply reg_load_loop_overrun; try done; lia.
  - unfold bcd. run_regs.
    destruct (Z.ltb_spec (address_register s + 0) MEMORY_SIZE) as [H0|H0].
    2: { unfold wr_mem. rewrite store_out_of_range by range.
         cbn [mbind result_bind]. f_equal. lia. }
    rewrite wr_mem_ok by (done || lia). cbn [mbind result_bind].
    run_regs. cbn [address_register set_memory].
    destruct (Z.ltb_spec (address_register s + 1) MEMORY_SIZE) as [H1|H1].
    2: { unfold wr_mem. rewrite store_out_of_range by range.
         cbn [mbind result_bind]. f_equal. lia. }
    rewrite wr_mem_ok by (try apply mem_ok_set; done || lia).
    cbn [mbind result_bind]. run_regs. cbn [address_register set_memory].
    unfold wr_mem. rewrite store_out_of_range by range.
    cbn [mbind result_bind]. f_equal. lia.
Qed.

Lemma bound_checks_of_reg_load_and_bcd_witness :
  reg_load 1 (set_address_register 0xFFF initial) = Fatal /\
  bcd 1 (set_address_register 0xFFF initial) = OutOfBounds Memory 4096.
Proof.
  destruct (bound_checks_of_reg_load_and_bcd
              (set_address_register 0xFFF initial) 1) as [Hload Hbcd].
  - reflexivity.
  - reflexivity.
  - unfold REGISTER_COUNT. lia.
  - simpl. lia.
  - split; [apply Hload|apply Hbcd]; simpl; unfold MEMORY_SIZE; lia.
Defined.

(** ** A call and the return from it, as cycles *)

Lemma fetch_ext (s t : machine) :
  memory t = memory s -> pc t = pc s -> fetch t = fetch s.
Proof. intros Hm Hp. unfold fetch, rd_mem. by rewrite Hm, Hp. Qed.

(** X30: a cycle that fetches 2NNN, followed by a cycle that fetches
    00EE at NNN, comes back to the instruction after the call with the
    stack register as it was, whatever the timer driver does in the two
    cycles. *)
Theorem subroutine_returns_after_call (mode : DisplayMode) (keys : Z -> bool)
    (rand now1 now2 : Z) (s : machine) (opcode : Z) :
  mem_ok s -> stack_ok s -> 0 <= stack_register s < STACK_SIZE ->
  fetch s = Ok opcode -> Z.land opcode 0xf000 = 0x2000 ->
  fetch (set_pc (Z.land opcode 0x0fff) s) = Ok 0x00EE ->
  exists s1 s2,
    instruction_cycle mode keys rand now1 s = Ok s1 /\
    pc s1 = Z.land opcode 0x0fff /\
    instruction_cycle mode keys rand now2 s1 = Ok s2 /\
    pc s2 = pc s + OPCODE_SIZE /\
    stack_register s2 = stack_register s.
Proof.
  intros Hm Hk Hsr Hf Hclass Hsub.
  destruct (fetch_in_range s opcode Hm Hf) as [Hlo Hhi].
  destruct (before_execute_keeps_stack now1 s) as (Hk1 & Hr1 & _).
  assert (Hpc1 : pc (before_execute now1 s) = pc s + OPCODE_SIZE).
  { destruct (timer_driver_frame now1 s) as (_ & _ & _ & _ & Hp & _).
    unfold before_execute. cbn [pc set_pc]. rewrite Hp.
    apply u16_small. unfold MEMORY_SIZE, OPCODE_SIZE in *. lia. }
  assert (Hm1 : memory (before_execute now1 s) = memory s).
  { destruct (timer_driver_frame now1 s) as (Hmem & _). exact Hmem. }
  eexists. eexists.
  split.
  { rewrite (cycle_call _ _ _ _ _ _ Hf Hclass).
    apply call_ok; [unfold stack_ok; by rewrite Hk1|by rewrite Hr1]. }
  split; [reflexivity|].
  set (s1 := set_pc _ _).
  assert (Hf1 : fetch s1 = Ok 0x00EE).
  { rewrite <- Hsub. apply fetch_ext; [exact Hm1|reflexivity]. }
  destruct (before_execute_keeps_stack now2 s1) as (Hk2 & Hr2 & _).
  assert (Hsr1 : stack_register s1 = stack_register s + 1)
    by (unfold s1; cbn [stack_register set_pc set_stack_register]; by rewrite Hr1).
  assert (Hst1 : stack s1 = <[Z.to_nat (stack_register s) := pc s + OPCODE_SIZE]> (stack s)).
  { unfold s1. cbn [stack set_pc set_stack_register set_stack].
    rewrite Hk1, Hr1, Hpc1. f_equal. apply u16_small.
    unfold MEMORY_SIZE, OPCODE_SIZE in *. lia. }
  split.
  { rewrite (cycle_ret _ _ _ _ _ Hf1).
    apply (ret_ok _ (pc s + OPCODE_SIZE)).
    - unfold stack_ok in *. by rewrite Hk2, Hst1, length_insert.
    - rewrite Hr2, Hsr1. lia.
    - rewrite Hk2, Hr2, Hsr1, Hst1.
      replace (stack_register s + 1 - 1) with (stack_register s) by lia.
      apply list_lookup_insert_eq. unfold stack_ok, STACK_SIZE in *. lia. }
  split; [reflexivity|].
  change (stack_register (before_execute now2 s1) - 1 = stack_register s).
  rewrite Hr2, Hsr1. lia.
Qed.

Lemma subroutine_returns_after_call_witness :
  exists s1 s2,
    instruction_cycle CLAMP no_keys 0 0 (boot (loaded [0x22; 0x04; 0; 0; 0x00; 0xEE]))
    = Ok s1 /\
    pc s1 = 0x204 /\
    instruction_cycle CLAMP no_keys 0 17 s1 = Ok s2 /\
    pc s2 = 0x202 /\ stack_register s2 = 0.
Proof.
  apply (subroutine_returns_after_call CLAMP no_keys 0 0 17
           (boot (loaded [0x22; 0x04; 0; 0; 0x00; 0xEE])) 0x2204).
  - reflexivity.
  - reflexivity.
  - simpl. unfold STACK_SIZE. lia.
  - reflexivity.
  - reflexivity.
  - reflexivity.
Defined.
